(** * Collaborative rooms: language normalisation, the rooms store and the
      room websocket handler

    Shallow embedding of
      - [src/02-collab-app/src/app_backend/models.py]  (module [Models]),
      - [src/02-interview-app/src/app_backend/store.py] (module [Store]),
      - [src/02-collab-app/src/app_backend/main.py]     (module [Main]).

    Python strings are [string]s (their UTF-8 bytes), dictionaries are
    [gmap]s, [None]-able arguments are [option]s, and a raised exception is
    the [Raise] case of [result].  That is the code on the values its
    annotations name, which is what the request/response routes run it on.
    The websocket handler runs it on whatever JSON a message holds: module
    [Untyped] is the store and [normalize_language] on any JSON value, and
    [Main] the handler on top of it. *)

From Stdlib Require Import ZArith NArith Ascii String SpecFloat.
From stdpp Require Import gmap strings list fin_maps.

Local Open Scope string_scope.
Local Open Scope list_scope.

(** ** Exceptions

    [KeyError] is Python's.  [BadReference] is not a Python exception: it
    marks a read through a reference to no object, which no run that starts
    from [__init__] reaches (see [store_ok]). *)

Inductive exn : Type :=
| KeyError (key : string)
| BadReference.

Inductive result (A : Type) : Type :=
| Ok (a : A)
| Raise (e : exn).
Arguments Ok {A} a.
Arguments Raise {A} e.

(** [d[k]] on a dictionary: raises [KeyError] on a missing key. *)
Definition getitem {V : Type} (d : gmap string V) (k : string) : result V :=
  match d !! k with
  | Some v => Ok v
  | None => Raise (KeyError k)
  end.

(** [k in d]. *)
Definition contains {V : Type} (d : gmap string V) (k : string) : bool :=
  match d !! k with
  | Some _ => true
  | None => false
  end.

Module Models.

(** [str.lower()]. On the bytes of an ASCII string this maps [A-Z] to [a-z]
    and keeps everything else.  Outside ASCII, Python also lowers cased
    letters; the only code points whose lowering contains an ASCII letter are
    U+212A (to k) and U+0130 (to i followed by U+0307).  No key of the two
    tables below contains a k, and all keys are pure ASCII, so a string with
    a non-ASCII code point is in neither table before or after lowering, in
    Python as in this model. *)
Definition is_ascii_upper (c : ascii) : bool :=
  ((65 <=? N_of_ascii c) && (N_of_ascii c <=? 90))%N.

Definition lower_char (c : ascii) : ascii :=
  if is_ascii_upper c then ascii_of_N (N_of_ascii c + 32) else c.

Fixpoint lower (s : string) : string :=
  match s with
  | EmptyString => EmptyString
  | String c s' => String (lower_char c) (lower s')
  end.

(** [Language = Literal["python", ..., "cpp"]]: at run time a [str]. *)
Definition Language_values : list string :=
  ["python"; "javascript"; "typescript"; "sql"; "java"; "c"; "cpp"].

Definition SUPPORTED_LANGUAGES : gmap string string :=
  list_to_map
    [ ("python", "python");
      ("javascript", "javascript");
      ("typescript", "typescript");
      ("sql", "sql");
      ("java", "java");
      ("c", "c");
      ("cpp", "cpp") ].

(** The local dictionary [mapping] of [normalize_language]. *)
Definition mapping : gmap string string :=
  list_to_map
    [ ("c++", "cpp");
      ("js", "javascript");
      ("ts", "typescript") ].

(** [if not lang]: an [Optional[str]] is falsy when it is [None] or the
    empty string, the first two cases below. *)
Definition normalize_language (lang : option string) : result string :=
  match lang with
  | None => Ok "python"
  | Some EmptyString => Ok "python"
  | Some s =>
      let lower := lower s in
      if contains SUPPORTED_LANGUAGES lower then
        getitem SUPPORTED_LANGUAGES lower
      else if contains mapping lower then
        match getitem mapping lower with
        | Ok k => getitem SUPPORTED_LANGUAGES k
        | Raise e => Raise e
        end
      else Ok "python"
  end.

(** As the claims put it: the canonical identifiers, then the display
    aliases, each with the language it stands for. *)
Definition canonical_identifiers : list (string * string) :=
  [ ("python", "python"); ("javascript", "javascript");
    ("typescript", "typescript"); ("sql", "sql"); ("java", "java");
    ("c", "c"); ("cpp", "cpp") ].

Definition display_aliases : list (string * string) :=
  [ ("c++", "cpp"); ("js", "javascript"); ("ts", "typescript") ].

(** The language [normalize_language] returns, as a value. *)
Definition normalized (lang : option string) : string :=
  match normalize_language lang with
  | Ok v => v
  | Raise _ => "python"
  end.

End Models.

(** ** Objects and references

    [RoomState] objects are mutable pydantic models and dictionaries are
    mutable too, so both live in a heap and are held through references.
    [sent] is the wire: what [send_json] has written, per connection, oldest
    first. *)

Definition loc := nat.
Definition conn := nat.

(** A reading of [time.time()].  The store only stores and hands out
    readings and its callers only compare them, so a reading is an integer
    count of clock ticks. *)
Definition timestamp := Z.
Bind Scope Z_scope with timestamp.

Record RoomState : Type := mkRoomState {
  room_id : string;
  code : string;
  language : string;
  last_updated : timestamp
}.

Inductive payload : Type :=
| Snapshot (r : RoomState)
| UnknownAction (action : option string).

Record world : Type := mkWorld {
  objs : gmap loc RoomState;
  dicts : gmap loc (gmap string loc);
  sent : list (conn * payload)
}.

(** A piece of Python code is a function of the world that returns a value
    and the world it leaves, or raises. *)
Definition M (A : Type) : Type := world → result (A * world).

Definition raise {A : Type} (e : exn) : M A := λ _, Raise e.

Definition lift {A : Type} (r : result A) : M A :=
  λ w, match r with
       | Ok a => Ok (a, w)
       | Raise e => Raise e
       end.

#[global] Instance M_ret : MRet M := λ A a w, Ok (a, w).

#[global] Instance M_bind : MBind M :=
  λ A B f m w, match m w with
               | Ok (a, w') => f a w'
               | Raise e => Raise e
               end.

(** Allocation, reading and writing of the two kinds of objects.  A new
    object gets a reference no live object has. *)

Definition new_room (r : RoomState) : M loc :=
  λ w, let l := fresh (dom (objs w)) in
       Ok (l, mkWorld (<[l := r]> (objs w)) (dicts w) (sent w)).

Definition read_room (l : loc) : M RoomState :=
  λ w, match objs w !! l with
       | Some r => Ok (r, w)
       | None => Raise BadReference
       end.

Definition write_room (l : loc) (r : RoomState) : M unit :=
  λ w, match objs w !! l with
       | Some _ => Ok (tt, mkWorld (<[l := r]> (objs w)) (dicts w) (sent w))
       | None => Raise BadReference
       end.

Definition new_dict (d : gmap string loc) : M loc :=
  λ w, let l := fresh (dom (dicts w)) in
       Ok (l, mkWorld (objs w) (<[l := d]> (dicts w)) (sent w)).

Definition read_dict (l : loc) : M (gmap string loc) :=
  λ w, match dicts w !! l with
       | Some d => Ok (d, w)
       | None => Raise BadReference
       end.

Definition write_dict (l : loc) (d : gmap string loc) : M unit :=
  λ w, match dicts w !! l with
       | Some _ => Ok (tt, mkWorld (objs w) (<[l := d]> (dicts w)) (sent w))
       | None => Raise BadReference
       end.

(** [d.get(k)], [d[k] = v], [del d[k]], [dict(d)]. *)
Definition dict_get (d : loc) (k : string) : M (option loc) :=
  m ← read_dict d; mret (m !! k).

Definition dict_setitem (d : loc) (k : string) (v : loc) : M unit :=
  m ← read_dict d; write_dict d (<[k := v]> m).

Definition dict_delitem (d : loc) (k : string) : M unit :=
  m ← read_dict d;
  match m !! k with
  | Some _ => write_dict d (delete k m)
  | None => raise (KeyError k)
  end.

Definition dict_copy (d : loc) : M loc :=
  m ← read_dict d; new_dict m.

(** [BaseModel.model_copy()] and attribute assignment on a [RoomState]. *)
Definition model_copy (l : loc) : M loc :=
  r ← read_room l; new_room r.

Definition set_code (l : loc) (c : string) : M unit :=
  r ← read_room l;
  write_room l (mkRoomState (room_id r) c (language r) (last_updated r)).

Definition set_language (l : loc) (lg : string) : M unit :=
  r ← read_room l;
  write_room l (mkRoomState (room_id r) (code r) lg (last_updated r)).

Definition set_last_updated (l : loc) (ts : timestamp) : M unit :=
  r ← read_room l;
  write_room l (mkRoomState (room_id r) (code r) (language r) ts).

Definition set_room_id (l : loc) (i : string) : M unit :=
  r ← read_room l;
  write_room l (mkRoomState i (code r) (language r) (last_updated r)).

(** [websocket.send_json(p)]. *)
Definition send_json (ws : conn) (p : payload) : M unit :=
  λ w, Ok (tt, mkWorld (objs w) (dicts w) (sent w ++ [(ws, p)])).

Module Store.
Import Models.

(** [uuid.uuid4()] is a draw from the environment: the draw is the UUID's
    128-bit [int].  [UUID.hex] is ['%032x' % self.int], 32 lower-case
    hexadecimal digits, most significant first. *)
Definition hex_digit (n : N) : ascii :=
  ascii_of_N (if (n <? 10)%N then 48 + n else 87 + n).

Fixpoint hex_fixed (width : nat) (n : N) : string :=
  match width with
  | O => EmptyString
  | S w' => String (hex_digit ((n / 16 ^ N.of_nat w') mod 16)) (hex_fixed w' n)
  end.

Definition uuid_hex (u : N) : string := hex_fixed 32 u.

(** The slice [s[:n]]. *)
Fixpoint str_take (n : nat) (s : string) : string :=
  match n, s with
  | S n', String c s' => String c (str_take n' s')
  | _, _ => EmptyString
  end.

(** The store object: its lock, and the reference to its dictionary.  A
    method body under [with self._lock] is one step of the state. *)
Record RoomsStore : Type := mkRoomsStore { _rooms : loc }.

Definition __init__ : M RoomsStore :=
  d ← new_dict ∅; mret (mkRoomsStore d).

Definition generate_room_id (u : N) : string := str_take 8 (uuid_hex u).

(** [code or ''], the empty string when [code] is falsy. *)
Definition or_empty (code : option string) : string :=
  match code with
  | None => EmptyString
  | Some EmptyString => EmptyString
  | Some c => c
  end.

(** [u] is the draw of [uuid4] and [now] the reading of [time.time()] made
    during the call. *)
Definition create_room (self : RoomsStore) (u : N) (now : timestamp)
    (code : string) (language : option string) : M loc :=
  let room_id := generate_room_id u in
  normalized_lang ← lift (normalize_language language);
  let ts := now in
  room ← new_room (mkRoomState room_id code normalized_lang ts);
  dict_setitem (_rooms self) room_id room;;
  mret room.

Definition get_room (self : RoomsStore) (room_id : string) : M (option loc) :=
  dict_get (_rooms self) room_id.

Definition upsert_room (self : RoomsStore) (now : timestamp) (room_id : string)
    (code : option string) (language : option string) : M loc :=
  existing ← dict_get (_rooms self) room_id;
  match existing with
  | None =>
      lg ← lift (normalize_language language);
      existing ← new_room (mkRoomState room_id (or_empty code) lg now);
      dict_setitem (_rooms self) room_id existing;;
      mret existing
  | Some existing =>
      data ← model_copy existing;
      match code with
      | Some c => set_code data c
      | None => mret tt
      end;;
      match language with
      | Some _ => lg ← lift (normalize_language language); set_language data lg
      | None => mret tt
      end;;
      set_last_updated data now;;
      dict_setitem (_rooms self) room_id data;;
      mret data
  end.

Definition update_room (self : RoomsStore) (now : timestamp) (room_id : string)
    (code : option string) (language : option string) : M (option loc) :=
  existing ← dict_get (_rooms self) room_id;
  match existing with
  | None => mret None
  | Some existing =>
      data ← model_copy existing;
      match code with
      | Some c => set_code data c
      | None => mret tt
      end;;
      match language with
      | Some _ => lg ← lift (normalize_language language); set_language data lg
      | None => mret tt
      end;;
      set_last_updated data now;;
      dict_setitem (_rooms self) room_id data;;
      mret (Some data)
  end.

Definition list_rooms (self : RoomsStore) : M loc :=
  dict_copy (_rooms self).

(** What a dictionary of rooms holds, by value, and the room the store
    holds under an identifier. *)
Definition dict_view (w : world) (d : loc) : option (gmap string RoomState) :=
  match dicts w !! d with
  | Some m => Some (omap (λ l : loc, objs w !! l) m)
  | None => None
  end.

Definition room_at (w : world) (self : RoomsStore) (id : string)
    : option RoomState :=
  match dicts w !! _rooms self with
  | Some m =>
      match m !! id with
      | Some l => objs w !! l
      | None => None
      end
  | None => None
  end.

Definition empty_world : world := mkWorld ∅ ∅ [].

(** The store is in order when its dictionary exists and every reference
    in it is to a live [RoomState] that carries the identifier it is filed
    under. *)
Definition store_ok (w : world) (self : RoomsStore) : Prop :=
  ∃ m, dicts w !! _rooms self = Some m ∧
       ∀ k l, m !! k = Some l → ∃ r, objs w !! l = Some r ∧ room_id r = k.

(** A dictionary of rooms is alive, holds [md] and refers to live objects
    only. *)
Definition copy_ok (w : world) (rooms : loc) (md : gmap string loc) : Prop :=
  dicts w !! rooms = Some md ∧ ∀ k l, md !! k = Some l → is_Some (objs w !! l).

(** The fields an update of [r] leaves behind: a field that is [None] in
    the call keeps its value. *)
Definition updated (r : RoomState) (now : timestamp) (c : option string)
    (lang : option string) : RoomState :=
  mkRoomState (room_id r)
    (match c with Some t => t | None => code r end)
    (match lang with Some _ => normalized lang | None => language r end)
    now.

(** The world once a freshly allocated object [r] has been filed under
    [id] in the store's dictionary, whose content was [m]. *)
Definition filed (w : world) (self : RoomsStore) (m : gmap string loc)
    (id : string) (r : RoomState) : world :=
  let l := fresh (dom (objs w)) in
  mkWorld (<[l := r]> (objs w))
          (<[_rooms self := <[id := l]> m]> (dicts w))
          (sent w).

(** The mutating operations of the store, as calls. *)
Inductive store_op : Type :=
| CreateRoom (u : N) (now : timestamp) (code : string)
    (language : option string)
| UpsertRoom (now : timestamp) (room_id : string) (code : option string)
    (language : option string)
| UpdateRoom (now : timestamp) (room_id : string) (code : option string)
    (language : option string).

Definition run_op (self : RoomsStore) (op : store_op) : M (option loc) :=
  match op with
  | CreateRoom u now c lang => l ← create_room self u now c lang; mret (Some l)
  | UpsertRoom now id c lang => l ← upsert_room self now id c lang; mret (Some l)
  | UpdateRoom now id c lang => update_room self now id c lang
  end.

Fixpoint run_ops (self : RoomsStore) (ops : list store_op) : M unit :=
  match ops with
  | [] => mret tt
  | op :: ops' => run_op self op;; run_ops self ops'
  end.

(** What a caller can do to the dictionary [rooms] it got from
    [list_rooms]: change the mapping ([rooms[k] = v], [del rooms[k]]) or
    assign to an attribute of a room in it ([rooms[k].code = c], ...). *)
Inductive mutation : Type :=
| SetItem (k : string) (v : loc)
| DelItem (k : string)
| SetCode (k : string) (c : string)
| SetLanguage (k : string) (lg : string)
| SetLastUpdated (k : string) (ts : timestamp)
| SetRoomId (k : string) (i : string).

Definition on_item (rooms : loc) (k : string) (f : loc → M unit) : M unit :=
  m ← read_dict rooms;
  match m !! k with
  | Some l => f l
  | None => raise (KeyError k)
  end.

Definition mutate (rooms : loc) (mu : mutation) : M unit :=
  match mu with
  | SetItem k v => dict_setitem rooms k v
  | DelItem k => dict_delitem rooms k
  | SetCode k c => on_item rooms k (λ l, set_code l c)
  | SetLanguage k lg => on_item rooms k (λ l, set_language l lg)
  | SetLastUpdated k ts => on_item rooms k (λ l, set_last_updated l ts)
  | SetRoomId k i => on_item rooms k (λ l, set_room_id l i)
  end.

Fixpoint mutate_all (rooms : loc) (mus : list mutation) : M unit :=
  match mus with
  | [] => mret tt
  | mu :: mus' => mutate rooms mu;; mutate_all rooms mus'
  end.

Definition on_mapping (mu : mutation) : bool :=
  match mu with
  | SetItem _ _ | DelItem _ => true
  | _ => false
  end.

(** A string of hexadecimal digits. *)
Definition is_hex_char (c : ascii) : bool :=
  let n := N_of_ascii c in
  (((48 <=? n) && (n <=? 57)) || ((97 <=? n) && (n <=? 102)))%N.

Fixpoint str_forall (P : ascii → bool) (s : string) : bool :=
  match s with
  | EmptyString => true
  | String c s' => P c && str_forall P s'
  end.

(** A store with one room, as [__init__] followed by
    [upsert_room("r1", code="a")] at clock reading 10 leaves it, and one
    whose only room has the identifier that the draw [collision_draw]
    yields. *)
Definition sample_store : RoomsStore := mkRoomsStore 0.

Definition sample_room : RoomState := mkRoomState "r1" "a" "python" 10%Z.

Definition sample_world : world :=
  mkWorld {[ 0 := sample_room ]} {[ 0 := {[ "r1" := 0 ]} ]} [].

Definition collision_draw : N := 0x1234abcd56784abc8def0123456789ab%N.

Definition collision_room : RoomState :=
  mkRoomState "1234abcd" "old" "python" 1%Z.

Definition collision_world : world :=
  mkWorld {[ 0 := collision_room ]} {[ 0 := {[ "1234abcd" := 0 ]} ]} [].

End Store.

(** ** The store on the values of a websocket message

    The request/response routes hand the store values that pydantic has
    validated against the request models, so there the annotations [str]
    and [Optional[str]] of [store.py] and [models.py] hold, and [Store] is
    the code.  The websocket handler hands [upsert_room] what
    [receive_json] returned, and that is any JSON value.  Python checks no
    annotation when it runs: the same bodies run on these values.  This
    module is [normalize_language], [get_room] and [upsert_room] on them,
    with the exceptions they then raise. *)

Module Untyped.
Import Models Store.

(** What [json.loads] returns: [None], a [bool], an [int] of any size, a
    [float] (a double: a zero, an infinity, a NaN or a finite number), a
    [str], a [list], or a [dict] whose keys are [str]s.  A dict is given by
    its items, and [field] reads the first item with a key.  Lists and
    dicts are mutable objects in Python, but nothing here changes one after
    it has been received, so they are values. *)
#[warnings="-register-all"]
Inductive json : Type :=
| JNull
| JBool (b : bool)
| JInt (n : Z)
| JFloat (x : spec_float)
| JStr (s : string)
| JArr (items : list json)
| JObj (fields : list (string * json)).

(** [bool(v)], the test behind [not v] and [v or w]: [None], [False], the
    zeros, the empty string, the empty list and the empty dict are falsy,
    every other value (a NaN too) is truthy. *)
Definition truthy (v : json) : bool :=
  match v with
  | JNull => false
  | JBool b => b
  | JInt n => negb (n =? 0)%Z
  | JFloat (S754_zero _) => false
  | JFloat _ => true
  | JStr EmptyString => false
  | JStr _ => true
  | JArr [] => false
  | JArr _ => true
  | JObj [] => false
  | JObj _ => true
  end.

(** [v == s] for a string [s]: only a [str] equals a [str]. *)
Definition is_str (v : json) (s : string) : bool :=
  match v with
  | JStr t => bool_decide (t = s)
  | _ => false
  end.

(** [d.get(key)] on the items of a dict: [None] when the key is missing. *)
Fixpoint field (key : string) (fields : list (string * json)) : json :=
  match fields with
  | [] => JNull
  | (k, v) :: fields' => if bool_decide (k = key) then v else field key fields'
  end.

(** A [str], or a value that is falsy. *)
Definition str_or_falsy (v : json) : bool :=
  match v with
  | JStr _ => true
  | _ => negb (truthy v)
  end.

(** [AttributeError]: an attribute looked up on a value that does not have
    it.  [ValidationError]: pydantic's.  [DecodeError]: what [receive_json]
    raises on a frame that is not JSON text.  [Exn]: the exceptions of the
    typed code. *)
Inductive error : Type :=
| AttributeError
| ValidationError
| DecodeError
| Exn (e : exn).

(** [RoomState] declares no [validate_assignment], so [data.code = code]
    stores [code] whatever it is.  [room_id] is only ever the path
    parameter and [language] a result of [normalize_language], both
    [str]s. *)
Record RoomState : Type := mkRoomState {
  room_id : string;
  code : json;
  language : string;
  last_updated : timestamp
}.

(** What goes on the wire: [room.model_dump()], the fields of the object as
    they are at that moment, or [{"error": f"Unknown action: {action!r}"}],
    which the action determines. *)
Inductive payload : Type :=
| Snapshot (r : RoomState)
| UnknownAction (action : json).

Record world : Type := mkWorld {
  objs : gmap loc RoomState;
  dicts : gmap loc (gmap string loc);
  sent : list (conn * payload)
}.

(** A piece of code returns a value or raises; either way it leaves a
    world, and what it did before it raised stays done. *)
Inductive run (A : Type) : Type :=
| Done (a : A) (w : world)
| Failed (e : error) (w : world).
Arguments Done {A} a w.
Arguments Failed {A} e w.

Definition after {A : Type} (r : run A) : world :=
  match r with
  | Done _ w => w
  | Failed _ w => w
  end.

Definition M (A : Type) : Type := world → run A.

Definition raise {A : Type} (e : error) : M A := λ w, Failed e w.

Definition lift {A : Type} (r : result A) : M A :=
  λ w, match r with
       | Ok a => Done a w
       | Raise e => Failed (Exn e) w
       end.

#[global] Instance M_ret : MRet M := λ A a w, Done a w.

#[global] Instance M_bind : MBind M :=
  λ A B f m w, match m w with
               | Done a w' => f a w'
               | Failed e w' => Failed e w'
               end.

Definition new_room (r : RoomState) : M loc :=
  λ w, let l := fresh (dom (objs w)) in
       Done l (mkWorld (<[l := r]> (objs w)) (dicts w) (sent w)).

Definition read_room (l : loc) : M RoomState :=
  λ w, match objs w !! l with
       | Some r => Done r w
       | None => Failed (Exn BadReference) w
       end.

Definition write_room (l : loc) (r : RoomState) : M unit :=
  λ w, match objs w !! l with
       | Some _ => Done tt (mkWorld (<[l := r]> (objs w)) (dicts w) (sent w))
       | None => Failed (Exn BadReference) w
       end.

Definition read_dict (l : loc) : M (gmap string loc) :=
  λ w, match dicts w !! l with
       | Some d => Done d w
       | None => Failed (Exn BadReference) w
       end.

Definition write_dict (l : loc) (d : gmap string loc) : M unit :=
  λ w, match dicts w !! l with
       | Some _ => Done tt (mkWorld (objs w) (<[l := d]> (dicts w)) (sent w))
       | None => Failed (Exn BadReference) w
       end.

Definition dict_get (d : loc) (k : string) : M (option loc) :=
  m ← read_dict d; mret (m !! k).

Definition dict_setitem (d : loc) (k : string) (v : loc) : M unit :=
  m ← read_dict d; write_dict d (<[k := v]> m).

Definition model_copy (l : loc) : M loc :=
  r ← read_room l; new_room r.

Definition set_code (l : loc) (c : json) : M unit :=
  r ← read_room l;
  write_room l (mkRoomState (room_id r) c (language r) (last_updated r)).

Definition set_language (l : loc) (lg : string) : M unit :=
  r ← read_room l;
  write_room l (mkRoomState (room_id r) (code r) lg (last_updated r)).

Definition set_last_updated (l : loc) (ts : timestamp) : M unit :=
  r ← read_room l;
  write_room l (mkRoomState (room_id r) (code r) (language r) ts).

Definition send_json (ws : conn) (p : payload) : M unit :=
  λ w, Done tt (mkWorld (objs w) (dicts w) (sent w ++ [(ws, p)])).

(** [normalize_language(lang)]: [not lang] holds of every falsy value;
    past it, [lang.lower()] raises [AttributeError] unless [lang] is a
    [str], and on a [str] the rest is [Models.normalize_language]. *)
Definition normalize_language (lang : json) : M string :=
  if negb (truthy lang) then mret "python"
  else
    match lang with
    | JStr s => lift (Models.normalize_language (Some s))
    | _ => raise AttributeError
    end.

(** [code or ''] *)
Definition or_empty (code : json) : json :=
  if truthy code then code else JStr EmptyString.

(** [RoomState(room_id=.., code=.., language=.., last_updated=..)]:
    pydantic validates the arguments against the fields.  [room_id] is the
    path parameter, a [str], and [last_updated] a clock reading; [code]
    passes as [str] if it is one, nothing is converted to a [str];
    [language] passes if it is one of the seven of [Language]. *)
Definition RoomState_init (room_id : string) (code : json) (language : string)
    (last_updated : timestamp) : M loc :=
  match code with
  | JStr _ =>
      if bool_decide (language ∈ Language_values)
      then new_room (mkRoomState room_id code language last_updated)
      else raise ValidationError
  | _ => raise ValidationError
  end.

Definition get_room (self : RoomsStore) (room_id : string) : M (option loc) :=
  dict_get (_rooms self) room_id.

(** The arguments of the constructor are evaluated in the order they are
    written, [code or ''] and [normalize_language(language)] before the
    constructor is entered. *)
Definition upsert_room (self : RoomsStore) (now : timestamp) (room_id : string)
    (code : json) (language : json) : M loc :=
  existing ← dict_get (_rooms self) room_id;
  match existing with
  | None =>
      let c := or_empty code in
      lg ← normalize_language language;
      existing ← RoomState_init room_id c lg now;
      dict_setitem (_rooms self) room_id existing;;
      mret existing
  | Some existing =>
      data ← model_copy existing;
      match code with
      | JNull => mret tt
      | _ => set_code data code
      end;;
      match language with
      | JNull => mret tt
      | _ => lg ← normalize_language language; set_language data lg
      end;;
      set_last_updated data now;;
      dict_setitem (_rooms self) room_id data;;
      mret data
  end.

(** The room the store holds under an identifier, and whether it holds
    one. *)
Definition room_at (w : world) (self : RoomsStore) (id : string)
    : option RoomState :=
  match dicts w !! _rooms self with
  | Some m =>
      match m !! id with
      | Some l => objs w !! l
      | None => None
      end
  | None => None
  end.

Definition held (w : world) (self : RoomsStore) (id : string) : bool :=
  match room_at w self id with
  | Some _ => true
  | None => false
  end.

(** The store is in order when its dictionary exists and every reference
    in it is to a live [RoomState] that carries the identifier it is filed
    under. *)
Definition store_ok (w : world) (self : RoomsStore) : Prop :=
  ∃ m, dicts w !! _rooms self = Some m ∧
       ∀ k l, m !! k = Some l → ∃ r, objs w !! l = Some r ∧ room_id r = k.

(** The language [normalize_language] returns on a value it accepts. *)
Definition normalized (lang : json) : string :=
  match lang with
  | JStr s => Models.normalized (Some s)
  | _ => "python"
  end.

(** The fields an update of [r] leaves behind: a field that is [None] in
    the call keeps its value. *)
Definition updated (r : RoomState) (now : timestamp) (c : json)
    (lang : json) : RoomState :=
  mkRoomState (room_id r)
    (match c with JNull => code r | _ => c end)
    (match lang with JNull => language r | _ => normalized lang end)
    now.

(** The world once a freshly allocated object [r] has been filed under
    [id] in the store's dictionary, whose content was [m]. *)
Definition filed (w : world) (self : RoomsStore) (m : gmap string loc)
    (id : string) (r : RoomState) : world :=
  let l := fresh (dom (objs w)) in
  mkWorld (<[l := r]> (objs w))
          (<[_rooms self := <[id := l]> m]> (dicts w))
          (sent w).

(** A world that differs from [w] by objects nothing referred to: the
    store is as it was. *)
Definition same_rooms (w w' : world) : Prop :=
  dicts w' = dicts w ∧ sent w' = sent w ∧
  ∀ l r, objs w !! l = Some r → objs w' !! l = Some r.

(** When [upsert_room] returns, [held] telling whether the store holds the
    room: the language has to be one [normalize_language] gets through, and
    for a room that is new the code has to pass the constructor.  And the
    exception it raises when it does not return. *)
Definition upsert_accepts (held : bool) (code language : json) : bool :=
  str_or_falsy language && (held || str_or_falsy code).

Definition upsert_error (language : json) : error :=
  if str_or_falsy language then ValidationError else AttributeError.

(** The store of [Store.sample_world], with the same room. *)
Definition sample_room : RoomState :=
  mkRoomState "r1" (JStr "a") "python" 10%Z.

Definition sample_world : world :=
  mkWorld {[ 0 := sample_room ]} {[ 0 := {[ "r1" := 0 ]} ]} [].

End Untyped.

(** ** Validated values among the values of JSON

    An [Optional[str]] is a JSON value, a room whose code is a [str] is a
    room of [Untyped], and so for the payloads and the worlds. *)

Module Validated.

Definition of_option (v : option string) : Untyped.json :=
  match v with
  | Some s => Untyped.JStr s
  | None => Untyped.JNull
  end.

Definition of_room (r : RoomState) : Untyped.RoomState :=
  Untyped.mkRoomState (room_id r) (Untyped.JStr (code r)) (language r)
    (last_updated r).

Definition of_payload (p : payload) : Untyped.payload :=
  match p with
  | Snapshot r => Untyped.Snapshot (of_room r)
  | UnknownAction a => Untyped.UnknownAction (of_option a)
  end.

Definition of_world (w : world) : Untyped.world :=
  Untyped.mkWorld (of_room <$> objs w) (dicts w)
    ((λ cp, (cp.1, of_payload cp.2)) <$> sent w).

End Validated.

(** ** The room websocket of [main.py] *)

Module Main.
Import Models Store Untyped.

(** What the connection delivers: a text frame that holds JSON, or a frame
    [receive_json] cannot decode. *)
Inductive frame : Type :=
| Text (data : json)
| Malformed.

(** [websocket.receive_json()] on a frame that has arrived. *)
Definition receive_json (fr : frame) : M json :=
  match fr with
  | Text data => mret data
  | Malformed => raise DecodeError
  end.

(** [data.get(key)]: of the values of JSON only a dict has a [get]. *)
Definition get (data : json) (key : string) : M json :=
  match data with
  | JObj fields => mret (field key fields)
  | _ => raise AttributeError
  end.

(** [websocket.send_json(room.model_dump())].  [model_dump] validates
    nothing: a [code] that is not a [str] is dumped as it is.  Every value
    in the dump came out of [json.loads] or is a [str] or a clock reading,
    so [json.dumps] takes it. *)
Definition send_room (websocket : conn) (room : loc) : M unit :=
  r ← read_room room; send_json websocket (Snapshot r).

(** One turn of the [while True] loop of [room_websocket], from the value
    [data] that [receive_json] returned on; [now] is the clock reading at
    that turn.  No exception is caught here: the [except] clause of the
    loop is for [WebSocketDisconnect] alone. *)
Definition room_websocket_turn (store : RoomsStore) (websocket : conn)
    (room_id : string) (now : timestamp) (data : json) : M unit :=
  action ← get data "action";
  if is_str action "get" then
    room ← get_room store room_id;
    room ← match room with
           | None => upsert_room store now room_id JNull JNull
           | Some room => mret room
           end;
    send_room websocket room
  else if is_str action "update" then
    code ← get data "code";
    language ← get data "language";
    room ← upsert_room store now room_id code language;
    send_room websocket room
  else
    send_json websocket (UnknownAction action).

(** The whole handler on the frames the connection delivers before it
    disconnects.  After the last one [receive_json] raises
    [WebSocketDisconnect] and the handler returns; an exception raised
    earlier ends it there. *)
Fixpoint room_websocket (store : RoomsStore) (websocket : conn)
    (room_id : string) (inbox : list (timestamp * frame)) : M unit :=
  match inbox with
  | [] => mret tt
  | (now, fr) :: inbox' =>
      data ← receive_json fr;
      room_websocket_turn store websocket room_id now data;;
      room_websocket store websocket room_id inbox'
  end.

(** The server: every accepted connection runs its own [room_websocket]
    for the room of its path, [conns] records which.  A message arriving on
    a connection is handled by that connection's handler. *)
Definition serve_message (store : RoomsStore) (conns : gmap conn string)
    (websocket : conn) (now : timestamp) (data : json) : M unit :=
  match conns !! websocket with
  | Some room_id => room_websocket_turn store websocket room_id now data
  | None => mret tt
  end.

(** The connections subscribed to a room, and what a step put on the wire. *)
Definition subscribed (conns : gmap conn string) (room_id : string)
    (c : conn) : Prop :=
  conns !! c = Some room_id.

Definition emitted (before after : world) : list (conn * payload) :=
  drop (length (sent before)) (sent after).

End Main.

(** ** Calls on the store, seen from outside *)

Module Calls.
Import Models Store.

(** The identifier a mutating call works on: the generated one for
    [create_room], the argument for the other two. *)
Definition op_key (op : store_op) : string :=
  match op with
  | CreateRoom u _ _ _ => generate_room_id u
  | UpsertRoom _ id _ _ => id
  | UpdateRoom _ id _ _ => id
  end.

(** [room.code = c] and the like, as a record update. *)
Definition with_code (c : string) (r : RoomState) : RoomState :=
  mkRoomState (room_id r) c (language r) (last_updated r).

End Calls.

(** ** What the websocket handler owes a message *)

Module Replies.
Import Models Store Untyped Main.

(** The reply [p] fits the frame [fr] on a connection for the room [rid]:
    the frame is a JSON object, and the reply is a snapshot of a room with
    that identifier for a ["get"] or an ["update"], the error naming the
    action for anything else. *)
Definition answers (rid : string) (fr : frame) (p : payload) : Prop :=
  ∃ fields, fr = Text (JObj fields) ∧
    match p with
    | Snapshot r =>
        room_id r = rid ∧
        (field "action" fields = JStr "get" ∨
         field "action" fields = JStr "update")
    | UnknownAction a =>
        a = field "action" fields ∧ a ≠ JStr "get" ∧ a ≠ JStr "update"
    end.

(** The frames a turn gets through, [held] telling whether the store holds
    the room of the path at that turn: JSON objects, of which an ["update"]
    has to be one [upsert_room] accepts. *)
Definition accepts (held : bool) (fr : frame) : bool :=
  match fr with
  | Text (JObj fields) =>
      if is_str (field "action" fields) "get" then true
      else if is_str (field "action" fields) "update" then
        upsert_accepts held (field "code" fields) (field "language" fields)
      else true
  | _ => false
  end.

(** The exception a turn ends with on a frame it does not get through. *)
Definition failure (fr : frame) : error :=
  match fr with
  | Malformed => DecodeError
  | Text (JObj fields) => upsert_error (field "language" fields)
  | Text _ => AttributeError
  end.

(** A ["get"] or an ["update"] that was served leaves the room in the
    store. *)
Definition requests_room (fr : frame) : bool :=
  match fr with
  | Text (JObj fields) =>
      is_str (field "action" fields) "get" ||
      is_str (field "action" fields) "update"
  | _ => false
  end.

(** The frames of an inbox up to the first one that is not accepted, and
    that one. *)
Fixpoint served (held : bool) (inbox : list (timestamp * frame))
    : list (timestamp * frame) :=
  match inbox with
  | [] => []
  | (now, fr) :: inbox' =>
      if accepts held fr
      then (now, fr) :: served (held || requests_room fr) inbox'
      else []
  end.

Fixpoint rejected (held : bool) (inbox : list (timestamp * frame))
    : option frame :=
  match inbox with
  | [] => None
  | (now, fr) :: inbox' =>
      if accepts held fr
      then rejected (held || requests_room fr) inbox'
      else Some fr
  end.

(** A frame every turn gets through, whatever the store holds: a JSON
    object whose code and language, if it is an ["update"], are each a
    [str] or falsy. *)
Definition well_typed (fr : frame) : bool := accepts false fr.

End Replies.

(** ** The request/response routes of [main.py]

    An endpoint function returns a model or raises [HTTPException]; the
    framework then answers with the status code of the route's decorator
    and the returned model dumped to JSON, or with the exception's status
    code and detail.  [respond_room] and [respond_rooms] are that last
    step. *)

Module Api.
Import Models Store.

Inductive http_exception : Type :=
| HTTPException (status_code : nat) (detail : string).

Inductive outcome (A : Type) : Type :=
| Returned (a : A)
| Raised (e : http_exception).
Arguments Returned {A} a.
Arguments Raised {A} e.

Definition HTTP_200_OK : nat := 200.
Definition HTTP_201_CREATED : nat := 201.
Definition HTTP_404_NOT_FOUND : nat := 404.

(** [RoomCreateRequest] and [RoomUpdateRequest]; their fields are [code]
    and [language] in the source. *)
Record RoomCreateRequest : Type := mkRoomCreateRequest {
  create_code : string;
  create_language : option string
}.

Record RoomUpdateRequest : Type := mkRoomUpdateRequest {
  update_code : option string;
  update_language : option string
}.

Inductive body : Type :=
| RoomBody (r : RoomState)
| RoomsBody (rooms : gmap string RoomState)
| DetailBody (detail : string).

Record response : Type := mkResponse {
  status : nat;
  content : body
}.

Definition not_found (room_id : string) : http_exception :=
  HTTPException HTTP_404_NOT_FOUND ("Room '" ++ room_id ++ "' not found")%string.

(** [create_room]: the [RoomCreateResponse] it returns is a new object
    built from the dumped fields of the stored one. *)
Definition create_room (store : RoomsStore) (u : N) (now : timestamp)
    (payload : RoomCreateRequest) : M (outcome loc) :=
  room ← Store.create_room store u now (create_code payload)
           (create_language payload);
  fields ← read_room room;
  resp ← new_room fields;
  mret (Returned resp).

Definition list_rooms (store : RoomsStore) : M (outcome loc) :=
  rooms ← Store.list_rooms store;
  mret (Returned rooms).

Definition get_room (store : RoomsStore) (room_id : string)
    : M (outcome loc) :=
  room ← Store.get_room store room_id;
  match room with
  | None => mret (Raised (not_found room_id))
  | Some room => mret (Returned room)
  end.

Definition update_room (store : RoomsStore) (now : timestamp)
    (room_id : string) (payload : RoomUpdateRequest) : M (outcome loc) :=
  room ← Store.update_room store now room_id (update_code payload)
           (update_language payload);
  match room with
  | None => mret (Raised (not_found room_id))
  | Some room => mret (Returned room)
  end.

(** The framework's answer for a route whose response model is a room. *)
Definition respond_room (code : nat) (out : outcome loc) : M response :=
  match out with
  | Returned room => r ← read_room room; mret (mkResponse code (RoomBody r))
  | Raised (HTTPException status_code detail) =>
      mret (mkResponse status_code (DetailBody detail))
  end.

(** The same for [RoomListResponse]: every room of the dictionary is
    dumped. *)
Definition dump_rooms (rooms : loc) : M (gmap string RoomState) :=
  λ w, match dicts w !! rooms with
       | Some m =>
           if decide (map_Forall (λ _ l, is_Some (objs w !! l)) m)
           then Ok (omap (λ l : loc, objs w !! l) m, w)
           else Raise BadReference
       | None => Raise BadReference
       end.

Definition respond_rooms (code : nat) (out : outcome loc) : M response :=
  match out with
  | Returned rooms =>
      v ← dump_rooms rooms; mret (mkResponse code (RoomsBody v))
  | Raised (HTTPException status_code detail) =>
      mret (mkResponse status_code (DetailBody detail))
  end.

(** The routes: [@app.post("/rooms", status_code=201)], [@app.get("/rooms")],
    [@app.get("/rooms/{room_id}")], [@app.patch("/rooms/{room_id}")]. *)
Definition POST_rooms (store : RoomsStore) (u : N) (now : timestamp)
    (payload : RoomCreateRequest) : M response :=
  out ← create_room store u now payload; respond_room HTTP_201_CREATED out.

Definition GET_rooms (store : RoomsStore) : M response :=
  out ← list_rooms store; respond_rooms HTTP_200_OK out.

Definition GET_room (store : RoomsStore) (room_id : string) : M response :=
  out ← get_room store room_id; respond_room HTTP_200_OK out.

Definition PATCH_room (store : RoomsStore) (now : timestamp)
    (room_id : string) (payload : RoomUpdateRequest) : M response :=
  out ← update_room store now room_id payload; respond_room HTTP_200_OK out.

End Api.

(** ** The Streamlit-side state of [collab_state.py]

    Its [RoomState] has no identifier, and its store keeps one object per
    room and updates it in place.  The store's dictionary is kept in
    insertion order, the order [list(self._rooms.keys())] returns. *)

Module Collab.
Import Models.

Definition SUPPORTED_LANGUAGES : list (string * string) :=
  [ ("Python", "python");
    ("JavaScript", "javascript");
    ("TypeScript", "typescript");
    ("SQL", "sql");
    ("Java", "java");
    ("C", "c");
    ("C++", "cpp") ].

(** The [for display, internal in SUPPORTED_LANGUAGES.items()] loop of
    [normalize_language], which returns at the first entry that fits. *)
Fixpoint first_match (lower_key : string) (items : list (string * string))
    : option string :=
  match items with
  | [] => None
  | (display, internal) :: items' =>
      if String.eqb lower_key (lower display)
         || String.eqb lower_key (lower internal)
      then Some internal
      else first_match lower_key items'
  end.

Definition normalize_language (lang_key : string) : string :=
  match lang_key with
  | EmptyString => "python"
  | _ =>
      match first_match (lower lang_key) SUPPORTED_LANGUAGES with
      | Some internal => internal
      | None => "python"
      end
  end.

Record RoomState : Type := mkRoomState {
  code : string;
  language : string;
  last_updated : timestamp
}.

(** [RoomState()]: the defaults, [last_updated] from the clock. *)
Definition default_room (now : timestamp) : RoomState :=
  mkRoomState EmptyString "python" now.

(** The heap of [RoomState] objects and the dictionary of the one store,
    [GLOBAL_ROOMS_STORE]. *)
Record state : Type := mkState {
  objs : gmap loc RoomState;
  _rooms : list (string * loc)
}.

Definition C (A : Type) : Type := state → result (A * state).

#[global] Instance C_ret : MRet C := λ A a s, Ok (a, s).

#[global] Instance C_bind : MBind C :=
  λ A B f m s, match m s with
               | Ok (a, s') => f a s'
               | Raise e => Raise e
               end.

(** Dictionary operations on the insertion-ordered entries: [d.get(k)],
    and [d[k] = v], which keeps the place of a key that is there and puts
    a new key last. *)
Fixpoint assoc (k : string) (items : list (string * loc)) : option loc :=
  match items with
  | [] => None
  | (k', v) :: items' => if String.eqb k k' then Some v else assoc k items'
  end.

Fixpoint assoc_set (k : string) (v : loc) (items : list (string * loc))
    : list (string * loc) :=
  match items with
  | [] => [(k, v)]
  | (k', v') :: items' =>
      if String.eqb k k' then (k, v) :: items'
      else (k', v') :: assoc_set k v items'
  end.

Definition new_room (r : RoomState) : C loc :=
  λ s, let l := fresh (dom (objs s)) in
       Ok (l, mkState (<[l := r]> (objs s)) (_rooms s)).

Definition read_room (l : loc) : C RoomState :=
  λ s, match objs s !! l with
       | Some r => Ok (r, s)
       | None => Raise BadReference
       end.

Definition write_room (l : loc) (r : RoomState) : C unit :=
  λ s, match objs s !! l with
       | Some _ => Ok (tt, mkState (<[l := r]> (objs s)) (_rooms s))
       | None => Raise BadReference
       end.

Definition set_code (l : loc) (c : string) : C unit :=
  r ← read_room l; write_room l (mkRoomState c (language r) (last_updated r)).

Definition set_language (l : loc) (lg : string) : C unit :=
  r ← read_room l; write_room l (mkRoomState (code r) lg (last_updated r)).

Definition set_last_updated (l : loc) (ts : timestamp) : C unit :=
  r ← read_room l; write_room l (mkRoomState (code r) (language r) ts).

(** [room_id in self._rooms], [self._rooms[room_id] = v],
    [self._rooms[room_id]], [self._rooms.setdefault(room_id, v)]. *)
Definition rooms_contains (room_id : string) : C bool :=
  λ s, Ok (bool_decide (is_Some (assoc room_id (_rooms s))), s).

Definition rooms_setitem (room_id : string) (v : loc) : C unit :=
  λ s, Ok (tt, mkState (objs s) (assoc_set room_id v (_rooms s))).

Definition rooms_getitem (room_id : string) : C loc :=
  λ s, match assoc room_id (_rooms s) with
       | Some l => Ok (l, s)
       | None => Raise (KeyError room_id)
       end.

Definition rooms_setdefault (room_id : string) (v : loc) : C loc :=
  λ s, match assoc room_id (_rooms s) with
       | Some l => Ok (l, s)
       | None => Ok (v, mkState (objs s) (assoc_set room_id v (_rooms s)))
       end.

(** [now] is the clock reading [RoomState()] takes when it is built. *)
Definition get_or_create (now : timestamp) (room_id : string) : C loc :=
  present ← rooms_contains room_id;
  (if negb present
   then room ← new_room (default_room now); rooms_setitem room_id room
   else mret tt);;
  rooms_getitem room_id.

(** [now0] is the reading taken by the [RoomState()] that is built as the
    argument of [setdefault] whether or not the room exists, [now] the
    reading stored in [last_updated]. *)
Definition update (now0 now : timestamp) (room_id : string)
    (code : option string) (language : option string) : C loc :=
  fallback ← new_room (default_room now0);
  room ← rooms_setdefault room_id fallback;
  match code with
  | Some c => set_code room c
  | None => mret tt
  end;;
  match language with
  | Some lg => set_language room lg
  | None => mret tt
  end;;
  set_last_updated room now;;
  mret room.

Definition list_rooms : C (list string) :=
  λ s, Ok ((_rooms s).*1, s).

(** The store is in order: no identifier twice, every reference live. *)
Definition ok (s : state) : Prop :=
  NoDup (_rooms s).*1 ∧
  ∀ k l, assoc k (_rooms s) = Some l → is_Some (objs s !! l).

Definition empty_state : state := mkState ∅ [].

End Collab.

(** ** Calls on the Streamlit-side store *)

Module CollabCalls.

Inductive call : Type :=
| GetOrCreate (now : timestamp) (room_id : string)
| Update (now0 now : timestamp) (room_id : string) (code : option string)
    (language : option string).

Definition run_call (c : call) : Collab.C loc :=
  match c with
  | GetOrCreate now id => Collab.get_or_create now id
  | Update now0 now id c lg => Collab.update now0 now id c lg
  end.

Definition call_key (c : call) : string :=
  match c with
  | GetOrCreate _ id => id
  | Update _ _ id _ _ => id
  end.

Fixpoint run_calls (cs : list call) : Collab.C unit :=
  match cs with
  | [] => mret tt
  | c :: cs' => run_call c;; run_calls cs'
  end.

End CollabCalls.

(** ** The iframe of [build_js_execution_iframe] *)

Module Iframe.

Definition dquote : ascii := ascii_of_N 34.
Definition dq : string := String dquote EmptyString.
Definition nl : string := String (ascii_of_N 10) EmptyString.

(** The lines of a text, joined by line feeds. *)
Fixpoint lines (ls : list string) : string :=
  match ls with
  | [] => EmptyString
  | [l] => l
  | l :: ls' => (l ++ nl ++ lines ls')%string
  end.

(** [s.replace(c, by)] for a one-character [c]. *)
Fixpoint replace_char (c : ascii) (by_ : string) (s : string) : string :=
  match s with
  | EmptyString => EmptyString
  | String a s' =>
      if Ascii.eqb a c then (by_ ++ replace_char c by_ s')%string
      else String a (replace_char c by_ s')
  end.

(** [html.escape(s, quote=True)]: five replacements, the ampersand first. *)
Definition escape (s : string) : string :=
  let s := replace_char "&" "&amp;" s in
  let s := replace_char "<" "&lt;" s in
  let s := replace_char ">" "&gt;" s in
  let s := replace_char dquote "&quot;" s in
  let s := replace_char "'" "&#x27;" s in
  s.

(** The characters that could end an attribute value or open a tag. *)
Definition is_markup (a : ascii) : bool :=
  Ascii.eqb a "<" || Ascii.eqb a ">" || Ascii.eqb a dquote || Ascii.eqb a "'".

Section WithJson.

(** [json.dumps], from the standard library, is left open: the iframe is
    built around whatever string it returns. *)
Variable json_dumps : string → string.

(** The two f-strings end in [.strip()]; both start and end with text of
    the template, so it removes the line feed after the opening quotes and
    the line feed and blanks before the closing ones, and nothing of the
    interpolated strings. *)
Definition inner_html (code_json : string) : string :=
  lines
    [ "<!doctype html>";
      "<html>";
      "  <body>";
      ("    <pre id=" ++ dq ++ "output" ++ dq ++ " style=" ++ dq
         ++ "white-space: pre-wrap; font-family: monospace;" ++ dq
         ++ "></pre>")%string;
      "    <script>";
      ("      const userCode = " ++ code_json ++ ";")%string;
      "      const output = document.getElementById('output');";
      EmptyString;
      "      function log(msg) {";
      ("        output.textContent += msg + " ++ dq ++ "\n" ++ dq ++ ";")%string;
      "      }";
      EmptyString;
      "      (function() {";
      "        const originalLog = console.log;";
      "        console.log = function(...args) {";
      ("          log(args.join(" ++ dq ++ " " ++ dq ++ "));")%string;
      "          originalLog.apply(console, args);";
      "        };";
      "        try {";
      "          // Execute user code in this sandboxed iframe context";
      "          // eslint-disable-next-line no-eval";
      "          eval(userCode);";
      "        } catch (err) {";
      ("          log(" ++ dq ++ "Error: " ++ dq ++ " + err.toString());")%string;
      "        } finally {";
      "          console.log = originalLog;";
      "        }";
      "      })();";
      "    </script>";
      "  </body>";
      "</html>" ].

Definition iframe_open : string :=
  (lines
     [ "<iframe";
       ("  sandbox=" ++ dq ++ "allow-scripts" ++ dq)%string;
       ("  style=" ++ dq ++ "width: 100%; height: 100%; border: none;"
          ++ dq)%string;
       "  srcdoc=" ] ++ dq)%string.

Definition iframe_close : string := (dq ++ nl ++ "></iframe>")%string.

Definition build_js_execution_iframe (code : string) : string :=
  let code_json := json_dumps code in
  let inner_html := inner_html code_json in
  let escaped_inner := escape inner_html in
  (iframe_open ++ escaped_inner ++ iframe_close)%string.

End WithJson.

(** What [html.escape] puts in the place of one character. *)
Definition escape_char (a : ascii) : string :=
  if Ascii.eqb a "&" then "&amp;"
  else if Ascii.eqb a "<" then "&lt;"
  else if Ascii.eqb a ">" then "&gt;"
  else if Ascii.eqb a dquote then "&quot;"
  else if Ascii.eqb a "'" then "&#x27;"
  else String a EmptyString.

End Iframe.

(** ** The Streamlit page of [app_frontend/main.py] and its client

    The page talks to the backend through [api_client]; what those calls
    return or raise is an input here, as are the clock readings. *)

Module Frontend.

(** The room as the backend's JSON gives it. *)
Record room_json : Type := mkRoomJson {
  j_room_id : string;
  j_code : string;
  j_language : string;
  j_last_updated : timestamp
}.

(** The outcome of a call of [api_client]: its result, or a
    [requests.RequestException] with its text. *)
Inductive api (A : Type) : Type :=
| Returns (a : A)
| RequestException (exc : string).
Arguments Returns {A} a.
Arguments RequestException {A} exc.

(** [st.session_state], for the three keys the page keeps; an absent key is
    [None].  [shown] is what [st.error] has put on the page, oldest
    first. *)
Record session : Type := mkSession {
  code_editor : option string;
  code_version : option timestamp;
  last_change_origin : option string;
  shown : list string
}.

Definition st_error (msg : string) (st : session) : session :=
  mkSession (code_editor st) (code_version st) (last_change_origin st)
    (shown st ++ [msg]).

(** [get_result] is what [get_room(room_id)] does, [create_result] what
    [create_room()] does if it comes to be called, [now1] and [now2] the
    clock readings of the two fallback rooms. *)
Definition sync_room_into_session (room_id : string)
    (get_result : api (option room_json)) (create_result : api room_json)
    (now1 now2 : timestamp) (st : session)
    : result (room_json * string * session) :=
  let '(room, st) :=
    match get_result with
    | Returns room => (room, st)
    | RequestException exc =>
        let st := st_error ("Failed to fetch room from backend: " ++ exc)%string st in
        (Some (mkRoomJson room_id
                 (default EmptyString (code_editor st))
                 "python"
                 (default now1 (code_version st))), st)
    end in
  let '(room, st) :=
    match room with
    | Some room => (room, st)
    | None =>
        match create_result with
        | Returns room => (room, st)
        | RequestException exc =>
            let st :=
              st_error ("Failed to recreate room via backend: " ++ exc)%string st in
            (mkRoomJson room_id EmptyString "python" now2, st)
        end
    end in
  let st :=
    match code_editor st with
    | None =>
        mkSession (Some (j_code room)) (Some (j_last_updated room))
          (Some "remote") (shown st)
    | Some _ => st
    end in
  let st :=
    if (default 0 (code_version st) <? j_last_updated room)%Z then
      let st :=
        if bool_decide (last_change_origin st ≠ Some "local") then
          mkSession (Some (j_code room)) (Some (j_last_updated room))
            (last_change_origin st) (shown st)
        else st in
      mkSession (code_editor st) (code_version st) (Some "remote") (shown st)
    else st in
  match code_editor st with
  | Some current_code => Ok (room, current_code, st)
  | None => Raise (KeyError "code_editor")
  end.

(** In [main]: the entry of the language menu that is preselected for a
    room, the first display name whose internal identifier is the room's
    language, ["Python"] if there is none. *)
Fixpoint first_display (language : string) (items : list (string * string))
    : option string :=
  match items with
  | [] => None
  | (display, internal) :: items' =>
      if String.eqb internal language then Some display
      else first_display language items'
  end.

Definition current_display (language : string) : string :=
  default "Python" (first_display language Collab.SUPPORTED_LANGUAGES).

End Frontend.

(** ** [api_client.py] *)

Module ApiClient.

(** [s.rstrip("/")]. *)
Fixpoint rstrip_slash (s : string) : string :=
  match s with
  | EmptyString => EmptyString
  | String a s' =>
      match rstrip_slash s' with
      | EmptyString => if Ascii.eqb a "/" then EmptyString else String a EmptyString
      | t => String a t
      end
  end.

(** [os.getenv("COLLAB_APP_BACKEND_URL", "http://localhost:8000").rstrip("/")],
    for the value [env] of the variable, [None] when it is not set. *)
Definition BACKEND_URL (env : option string) : string :=
  rstrip_slash (default "http://localhost:8000" env).

(** [path.startswith("/")]. *)
Definition starts_with_slash (path : string) : bool :=
  match path with
  | String a _ => Ascii.eqb a "/"
  | EmptyString => false
  end.

Definition _url (env : option string) (path : string) : string :=
  let path := if negb (starts_with_slash path) then ("/" ++ path)%string else path in
  (BACKEND_URL env ++ path)%string.

(** The JSON object [update_room] sends: a key only for an argument that is
    not [None]. *)
Definition update_payload (code language : option string)
    : gmap string string :=
  let payload : gmap string string := ∅ in
  let payload :=
    match code with Some c => <["code" := c]> payload | None => payload end in
  let payload :=
    match language with
    | Some lg => <["language" := lg]> payload
    | None => payload
    end in
  payload.

(** The one [create_room] sends. *)
Definition create_payload (code language : string) : gmap string string :=
  <["language" := language]> (<["code" := code]> ∅).

(** How the backend's request models read such an object: a key that is
    absent takes the field's default, [None] for [RoomUpdateRequest] and
    for the language of [RoomCreateRequest], the empty string for its
    code; other keys are ignored. *)
Definition read_update (payload : gmap string string) : Api.RoomUpdateRequest :=
  Api.mkRoomUpdateRequest (payload !! "code") (payload !! "language").

Definition read_create (payload : gmap string string) : Api.RoomCreateRequest :=
  Api.mkRoomCreateRequest (default EmptyString (payload !! "code"))
    (payload !! "language").

End ApiClient.

(** ** The client's handling of an answer, and the page's choice of room *)

Module Page.
Import Frontend.

Section WithErrorText.

(** The text of the [HTTPError] that [raise_for_status] raises for an
    answer is the library's business. *)
Variable http_error_text : Api.response → string.

(** [resp.raise_for_status()]: raises for a status from 400 to 599. *)
Definition raise_for_status (resp : Api.response) : api unit :=
  if (400 <=? Api.status resp)%nat && (Api.status resp <? 600)%nat
  then RequestException (http_error_text resp)
  else Returns tt.

(** What [api_client.get_room] makes of the answer [resp] to its request:
    [None] for a 404, an exception for any other error status, the JSON
    otherwise. *)
Definition get_room (resp : Api.response) : api (option Api.body) :=
  if (Api.status resp =? 404)%nat then Returns None
  else
    match raise_for_status resp with
    | RequestException exc => RequestException exc
    | Returns _ => Returns (Some (Api.content resp))
    end.

(** The same for [api_client.update_room] and [api_client.create_room]. *)
Definition update_room (resp : Api.response) : api Api.body :=
  match raise_for_status resp with
  | RequestException exc => RequestException exc
  | Returns _ => Returns (Api.content resp)
  end.

End WithErrorText.

(** The value of [st.query_params.get("room")]: absent, a list of strings,
    a string, or something else, of which only its [str] matters. *)
Inductive raw_param : Type :=
| RawNone
| RawList (l : list string)
| RawStr (s : string)
| RawOther (text : string).

Definition _extract_room_id (raw : raw_param) : option string :=
  match raw with
  | RawNone => None
  | RawList l =>
      match l with
      | x :: _ => Some x
      | [] => None
      end
  | RawStr s => Some s
  | RawOther text => Some text
  end.

(** [if room_param]: neither [None] nor the empty string. *)
Definition truthy (room_param : option string) : bool :=
  match room_param with
  | None => false
  | Some EmptyString => false
  | Some _ => true
  end.

(** [params] is the ["room"] entry of the query parameters; the function
    returns the room identifier, the entry as it leaves it and the errors
    it has shown.  [get_result] is what [get_room(room_param)] does if it
    is called, [create_result] what [create_room()] does if it is. *)
Definition get_or_create_room_id_via_backend (params : raw_param)
    (get_result : api (option room_json)) (create_result : api room_json)
    : string * raw_param * list string :=
  let room_param := _extract_room_id params in
  let create (_ : unit) :=
    match create_result with
    | RequestException exc =>
        ("fallback-room", params,
         [("Failed to create room via backend: " ++ exc)%string])
    | Returns new_room =>
        let new_room_id := j_room_id new_room in
        (new_room_id, RawStr new_room_id, [])
    end in
  if truthy room_param then
    match get_result with
    | RequestException exc =>
        (default EmptyString room_param, params,
         [("Failed to contact backend when checking room: " ++ exc)%string])
    | Returns (Some _) => (default EmptyString room_param, params, [])
    | Returns None => create tt
    end
  else create tt.

End Page.

Import Models Store Main.

(** * Language normalisation *)

Section Normalize.

Example normalize_Cpp : normalize_language (Some "C++") = Ok "cpp".
Proof. reflexivity. Qed.

Example normalize_TS : normalize_language (Some "TS") = Ok "typescript".
Proof. reflexivity. Qed.

Example normalize_klingon : normalize_language (Some "klingon") = Ok "python".
Proof. reflexivity. Qed.

Example normalize_PyThOn : normalize_language (Some "PyThOn") = Ok "python".
Proof. reflexivity. Qed.

Lemma lookup_SUPPORTED_LANGUAGES (k v : string) :
  SUPPORTED_LANGUAGES !! k = Some v ↔ (k, v) ∈ canonical_identifiers.
Proof.
  unfold SUPPORTED_LANGUAGES, canonical_identifiers.
  rewrite <- elem_of_list_to_map; [reflexivity|].
  apply (bool_decide_unpack _). vm_compute. exact I.
Qed.

Lemma lookup_mapping (k v : string) :
  mapping !! k = Some v ↔ (k, v) ∈ display_aliases.
Proof.
  unfold mapping, display_aliases.
  rewrite <- elem_of_list_to_map; [reflexivity|].
  apply (bool_decide_unpack _). vm_compute. exact I.
Qed.

Lemma normalize_language_lookup (s : string) :
  normalize_language (Some s) =
    match SUPPORTED_LANGUAGES !! lower s with
    | Some v => Ok v
    | None =>
        match mapping !! lower s with
        | Some k => getitem SUPPORTED_LANGUAGES k
        | None => Ok "python"
        end
    end.
Proof.
  destruct s as [|c s]; [reflexivity|].
  unfold normalize_language, contains, getitem.
  destruct (SUPPORTED_LANGUAGES !! lower (String c s)); [reflexivity|].
  destruct (mapping !! lower (String c s)); reflexivity.
Qed.

Ltac split_elem H :=
  rewrite ?elem_of_app, ?elem_of_cons, ?elem_of_nil in H;
  destruct_or?; try contradiction; simplify_eq.

Lemma normalize_language_match (s k v : string) :
  (k, v) ∈ (canonical_identifiers ++ display_aliases)%list →
  lower s = k → normalize_language (Some s) = Ok v.
Proof.
  intros Hin <-. rewrite normalize_language_lookup.
  unfold canonical_identifiers, display_aliases in Hin.
  split_elem Hin;
    match goal with H : lower s = _ |- _ => rewrite H end; reflexivity.
Qed.

Lemma normalize_language_no_match (s : string) :
  (∀ k v, (k, v) ∈ (canonical_identifiers ++ display_aliases)%list → lower s ≠ k) →
  normalize_language (Some s) = Ok "python".
Proof.
  intros Hno. rewrite normalize_language_lookup.
  destruct (SUPPORTED_LANGUAGES !! lower s) as [v|] eqn:Hs.
  { apply lookup_SUPPORTED_LANGUAGES in Hs.
    destruct (Hno (lower s) v); [apply elem_of_app; by left | reflexivity]. }
  destruct (mapping !! lower s) as [v|] eqn:Hm; [|reflexivity].
  apply lookup_mapping in Hm.
  destruct (Hno (lower s) v); [apply elem_of_app; by right | reflexivity].
Qed.

Lemma normalize_language_total (lang : option string) :
  ∃ v, normalize_language lang = Ok v ∧ v ∈ Language_values.
Proof.
  destruct lang as [s|]; [|exists "python"; split; [reflexivity|set_solver]].
  rewrite normalize_language_lookup.
  destruct (SUPPORTED_LANGUAGES !! lower s) as [v|] eqn:Hs.
  { exists v. split; [reflexivity|]. apply lookup_SUPPORTED_LANGUAGES in Hs.
    unfold canonical_identifiers in Hs. unfold Language_values.
    split_elem Hs; set_solver. }
  destruct (mapping !! lower s) as [k|] eqn:Hm.
  - apply lookup_mapping in Hm. unfold display_aliases in Hm.
    split_elem Hm; eexists; (split; [reflexivity|]); unfold Language_values;
      set_solver.
  - exists "python". split; [reflexivity|]. unfold Language_values. set_solver.
Qed.

Lemma normalize_language_fixed (v : string) :
  v ∈ Language_values → normalize_language (Some v) = Ok v.
Proof.
  unfold Language_values. intros Hv. split_elem Hv; reflexivity.
Qed.

Lemma normalize_language_normalized (lang : option string) :
  normalize_language lang = Ok (normalized lang).
Proof.
  unfold normalized.
  destruct (normalize_language_total lang) as (v & -> & _). reflexivity.
Qed.

Lemma normalized_in_Language (lang : option string) :
  normalized lang ∈ Language_values.
Proof.
  unfold normalized.
  destruct (normalize_language_total lang) as (v & -> & Hv). exact Hv.
Qed.

(** C5. [normalize_language] never raises and always returns one of the
    seven languages; [None] and the empty string give ["python"]; a string
    whose lower-case form is a canonical identifier or one of the aliases
    [c++], [js], [ts] gives the language that entry stands for, whatever the
    case of its letters; every other string gives ["python"]. *)
Theorem normalize_language_contract :
  (∀ lang, ∃ v, normalize_language lang = Ok v ∧ v ∈ Language_values) ∧
  normalize_language None = Ok "python" ∧
  normalize_language (Some EmptyString) = Ok "python" ∧
  (∀ s k v, (k, v) ∈ (canonical_identifiers ++ display_aliases)%list →
            lower s = k → normalize_language (Some s) = Ok v) ∧
  (∀ s, (∀ k v, (k, v) ∈ (canonical_identifiers ++ display_aliases)%list →
                lower s ≠ k) →
        normalize_language (Some s) = Ok "python") ∧
  (∀ s t, lower s = lower t →
          normalize_language (Some s) = normalize_language (Some t)).
Proof.
  split; [exact normalize_language_total|].
  split; [reflexivity|]. split; [reflexivity|].
  split; [exact normalize_language_match|].
  split; [exact normalize_language_no_match|].
  intros s t Hst. by rewrite !normalize_language_lookup, Hst.
Qed.

Lemma normalize_language_contract_witness :
  normalize_language (Some "C++") = Ok "cpp" ∧
  normalize_language (Some "klingon") = Ok "python" ∧
  normalize_language (Some "TS") = normalize_language (Some "ts").
Proof.
  destruct normalize_language_contract as (_ & _ & _ & Hm & Hn & Hc).
  split; [apply (Hm "C++" "c++" "cpp"); [|reflexivity]|].
  { unfold canonical_identifiers, display_aliases.
    rewrite elem_of_app. right. apply list_elem_of_here. }
  split; [|apply Hc; reflexivity].
  apply Hn. intros k v Hin Hk. cbn in Hk. subst k.
  unfold canonical_identifiers, display_aliases in Hin.
  split_elem Hin.
Defined.

(** C6. Normalising the result of a normalisation changes nothing: whatever
    [normalize_language] returns on an input, it returns again on that
    result. *)
Theorem normalize_language_idempotent (x : option string) :
  ∃ v, normalize_language x = Ok v ∧
       normalize_language (Some v) = normalize_language x.
Proof.
  destruct (normalize_language_total x) as (v & Hx & Hv).
  exists v. split; [exact Hx|]. rewrite Hx. by apply normalize_language_fixed.
Qed.

End Normalize.

(** * The rooms store: what each method does to the world *)

Section StoreRuns.

Context (w : world) (self : RoomsStore) (m : gmap string loc).
Hypothesis Hdict : dicts w !! _rooms self = Some m.

Ltac run :=
  repeat (cbn [objs dicts sent];
          rewrite ?lookup_insert_eq, ?Hdict, ?normalize_language_normalized);
  rewrite ?insert_insert_eq.

Lemma create_room_run (u : N) (now : timestamp) (c : string)
    (lang : option string) :
  create_room self u now c lang w =
    Ok (fresh (dom (objs w)),
        filed w self m (generate_room_id u)
          (mkRoomState (generate_room_id u) c (normalized lang) now)).
Proof.
  unfold create_room, dict_setitem, filed.
  unfold mbind, M_bind, mret, M_ret, read_dict, new_room, write_dict, lift.
  run. reflexivity.
Qed.

Lemma upsert_room_new_run (now : timestamp) (id : string)
    (c lang : option string) :
  m !! id = None →
  upsert_room self now id c lang w =
    Ok (fresh (dom (objs w)),
        filed w self m id (mkRoomState id (or_empty c) (normalized lang) now)).
Proof.
  intros Hid. unfold upsert_room, dict_get, dict_setitem, filed.
  unfold mbind, M_bind, mret, M_ret, read_dict, new_room, write_dict, lift.
  rewrite Hdict, Hid. run. reflexivity.
Qed.

Lemma upsert_room_existing_run (now : timestamp) (id : string)
    (c lang : option string) (l : loc) (r : RoomState) :
  m !! id = Some l → objs w !! l = Some r →
  upsert_room self now id c lang w =
    Ok (fresh (dom (objs w)), filed w self m id (updated r now c lang)).
Proof.
  intros Hid Hl.
  unfold upsert_room, dict_get, model_copy, dict_setitem, set_code,
    set_language, set_last_updated, filed, updated.
  unfold mbind, M_bind, mret, M_ret, read_dict, read_room, new_room,
    write_room, write_dict, lift.
  rewrite Hdict, Hid, Hl. destruct c, lang; run; reflexivity.
Qed.

Lemma update_room_missing_run (now : timestamp) (id : string)
    (c lang : option string) :
  m !! id = None → update_room self now id c lang w = Ok (None, w).
Proof.
  intros Hid. unfold update_room, dict_get.
  unfold mbind, M_bind, mret, M_ret, read_dict.
  rewrite Hdict, Hid. reflexivity.
Qed.

Lemma update_room_existing_run (now : timestamp) (id : string)
    (c lang : option string) (l : loc) (r : RoomState) :
  m !! id = Some l → objs w !! l = Some r →
  update_room self now id c lang w =
    Ok (Some (fresh (dom (objs w))), filed w self m id (updated r now c lang)).
Proof.
  intros Hid Hl.
  unfold update_room, dict_get, model_copy, dict_setitem, set_code,
    set_language, set_last_updated, filed, updated.
  unfold mbind, M_bind, mret, M_ret, read_dict, read_room, new_room,
    write_room, write_dict, lift.
  rewrite Hdict, Hid, Hl. destruct c, lang; run; reflexivity.
Qed.

Lemma fresh_object_unused : objs w !! fresh (dom (objs w)) = None.
Proof. apply not_elem_of_dom, is_fresh. Qed.

Lemma filed_room_at (id : string) (r : RoomState) :
  room_at (filed w self m id r) self id = Some r.
Proof.
  unfold room_at, filed. cbn [objs dicts].
  by rewrite !lookup_insert_eq.
Qed.

Lemma filed_new_object (id : string) (r : RoomState) :
  objs (filed w self m id r) !! fresh (dom (objs w)) = Some r.
Proof. unfold filed. cbn [objs]. by rewrite lookup_insert_eq. Qed.

Lemma filed_old_object (id : string) (r r0 : RoomState) (l : loc) :
  objs w !! l = Some r0 → objs (filed w self m id r) !! l = Some r0.
Proof.
  intros Hl. unfold filed. cbn [objs]. rewrite lookup_insert_ne; [exact Hl|].
  intros <-. rewrite fresh_object_unused in Hl. discriminate.
Qed.

Lemma filed_dict (id : string) (r : RoomState) :
  dicts (filed w self m id r) !! _rooms self =
    Some (<[id := fresh (dom (objs w))]> m).
Proof. unfold filed. cbn [dicts]. by rewrite lookup_insert_eq. Qed.

Lemma filed_other_dict (id : string) (r : RoomState) (d : loc) :
  d ≠ _rooms self → dicts (filed w self m id r) !! d = dicts w !! d.
Proof. intros Hd. unfold filed. cbn [dicts]. by rewrite lookup_insert_ne. Qed.

Lemma filed_store_ok (id : string) (r : RoomState) :
  store_ok w self → room_id r = id → store_ok (filed w self m id r) self.
Proof.
  intros (m' & Hm' & Hok) <-. rewrite Hdict in Hm'. injection Hm' as <-.
  exists (<[room_id r := fresh (dom (objs w))]> m).
  split; [apply filed_dict|].
  intros k l Hk. destruct (decide (k = room_id r)) as [->|Hne].
  - rewrite lookup_insert_eq in Hk. simplify_eq.
    exists r. split; [apply filed_new_object|reflexivity].
  - rewrite lookup_insert_ne in Hk by congruence.
    destruct (Hok k l Hk) as (r0 & Hl & Hid). exists r0.
    split; [by apply filed_old_object|exact Hid].
Qed.

Lemma filed_room_at_other (id k : string) (r : RoomState) :
  store_ok w self → k ≠ id →
  room_at (filed w self m id r) self k = room_at w self k.
Proof.
  intros (m' & Hm' & Hok) Hne. rewrite Hdict in Hm'. injection Hm' as <-.
  unfold room_at. rewrite filed_dict, Hdict, lookup_insert_ne by congruence.
  destruct (m !! k) as [l|] eqn:Hk; [|reflexivity].
  destruct (Hok k l Hk) as (r0 & Hl & _). rewrite Hl.
  by apply filed_old_object.
Qed.

End StoreRuns.

(** * Identifiers *)

Section Identifiers.

Lemma hex_digit_is_hex (n : N) :
  (n < 16)%N → is_hex_char (hex_digit n) = true.
Proof.
  intros Hn. rewrite <- (N2Nat.id n).
  assert (Hk : (N.to_nat n < 16)%nat) by lia.
  generalize dependent (N.to_nat n). intros k Hk.
  do 16 (destruct k as [|k]; [reflexivity|]). lia.
Qed.

Lemma hex_fixed_length (width : nat) (n : N) :
  String.length (hex_fixed width n) = width.
Proof. induction width as [|width IH]; simpl; [reflexivity|by rewrite IH]. Qed.

Lemma hex_fixed_hex (width : nat) (n : N) :
  str_forall is_hex_char (hex_fixed width n) = true.
Proof.
  induction width as [|width IH]; [reflexivity|].
  cbn [hex_fixed str_forall]. rewrite IH, andb_true_r.
  apply hex_digit_is_hex, N.mod_upper_bound. discriminate.
Qed.

Lemma str_take_length (k : nat) (s : string) :
  (k ≤ String.length s)%nat → String.length (str_take k s) = k.
Proof.
  revert s. induction k as [|k IH]; intros s Hk; [reflexivity|].
  destruct s as [|c s]; simpl in *; [lia|]. rewrite IH; [reflexivity|lia].
Qed.

Lemma str_take_forall (P : ascii → bool) (k : nat) (s : string) :
  str_forall P s = true → str_forall P (str_take k s) = true.
Proof.
  revert s. induction k as [|k IH]; intros s Hs; [reflexivity|].
  destruct s as [|c s]; [reflexivity|]. cbn [str_take str_forall] in *.
  apply andb_true_iff in Hs as [Hc Hs]. by rewrite Hc, IH.
Qed.

Lemma generate_room_id_hex8 (u : N) :
  String.length (generate_room_id u) = 8 ∧
  str_forall is_hex_char (generate_room_id u) = true.
Proof.
  unfold generate_room_id, uuid_hex. split.
  - apply str_take_length. rewrite hex_fixed_length. lia.
  - apply str_take_forall, hex_fixed_hex.
Qed.

Example generate_room_id_collision_draw :
  generate_room_id collision_draw = "1234abcd".
Proof. reflexivity. Qed.

End Identifiers.

(** * The rooms store: properties *)

Example sample_world_reached :
  (self ← __init__; upsert_room self 10 "r1" (Some "a") None;; mret self)
    empty_world = Ok (sample_store, sample_world).
Proof. vm_compute. reflexivity. Qed.

Lemma or_empty_supplied (c : option string) :
  or_empty c = match c with Some t => t | None => EmptyString end.
Proof. destruct c as [[|a t]|]; reflexivity. Qed.


(** C3. On an identifier the store does not hold, [update_room] returns
    [None] and leaves the world as it was, while [upsert_room] allocates a
    new room, files it under that identifier and returns it: its code is
    the supplied one or the empty string, its language the normalised
    supplied one or ["python"]. *)
Theorem update_unknown_fails_upsert_creates (w : world) (self : RoomsStore)
    (m : gmap string loc) (now : timestamp) (id : string)
    (c lang : option string) :
  dicts w !! _rooms self = Some m → m !! id = None →
  update_room self now id c lang w = Ok (None, w) ∧
  ∃ l w',
    upsert_room self now id c lang w = Ok (l, w') ∧
    objs w !! l = None ∧
    objs w' !! l =
      Some (mkRoomState id
              (match c with Some t => t | None => EmptyString end)
              (match lang with Some s => normalized (Some s) | None => "python" end)
              now) ∧
    room_at w' self id = objs w' !! l.
Proof.
  intros Hd Hid. split; [by eapply update_room_missing_run|].
  eexists _, _. split; [by eapply upsert_room_new_run|].
  split; [apply fresh_object_unused|].
  rewrite filed_room_at, filed_new_object, or_empty_supplied.
  split; [|reflexivity]. by destruct lang.
Qed.

Lemma update_unknown_fails_upsert_creates_witness :
  update_room sample_store 11 "r2" (Some "b") (Some "JS") sample_world
    = Ok (None, sample_world) ∧
  ∃ l w',
    upsert_room sample_store 11 "r2" (Some "b") (Some "JS") sample_world
      = Ok (l, w') ∧
    objs w' !! l = Some (mkRoomState "r2" "b" "javascript" 11).
Proof.
  destruct (update_unknown_fails_upsert_creates sample_world sample_store
              {[ "r1" := 0 ]} 11 "r2" (Some "b") (Some "JS"))
    as (Hupd & l & w' & Hups & _ & Hl & _); [reflexivity|reflexivity|].
  split; [exact Hupd|]. exists l, w'. split; [exact Hups|exact Hl].
Defined.

(** C4. On a room the store holds, [update_room] and [upsert_room] change
    only the fields supplied: with [code] alone the language stays, with
    [language] alone the code stays, and a supplied language is stored in
    its normalised form. *)
Theorem update_applies_supplied_fields_only (w : world) (self : RoomsStore)
    (m : gmap string loc) (now : timestamp) (id : string)
    (c lang : option string) (l : loc) (r : RoomState) :
  dicts w !! _rooms self = Some m → m !! id = Some l → objs w !! l = Some r →
  ∃ l' w' r',
    update_room self now id c lang w = Ok (Some l', w') ∧
    upsert_room self now id c lang w = Ok (l', w') ∧
    objs w' !! l' = Some r' ∧
    room_at w' self id = Some r' ∧
    room_id r' = room_id r ∧
    code r' = match c with Some t => t | None => code r end ∧
    match lang with
    | Some s => normalize_language (Some s) = Ok (language r')
    | None => language r' = language r
    end.
Proof.
  intros Hd Hid Hl. exists (fresh (dom (objs w))), (filed w self m id (updated r now c lang)),
    (updated r now c lang).
  split; [by eapply update_room_existing_run|].
  split; [by eapply upsert_room_existing_run|].
  split; [apply filed_new_object|]. split; [apply filed_room_at|].
  split; [reflexivity|]. split; [reflexivity|].
  destruct lang; [apply normalize_language_normalized|reflexivity].
Qed.

Lemma update_applies_supplied_fields_only_witness :
  ∃ l' w' r',
    update_room sample_store 11 "r1" (Some "b") None sample_world
      = Ok (Some l', w') ∧
    room_at w' sample_store "r1" = Some r' ∧
    code r' = "b" ∧ language r' = "python".
Proof.
  destruct (update_applies_supplied_fields_only sample_world sample_store
              {[ "r1" := 0 ]} 11 "r1" (Some "b") None 0 sample_room)
    as (l' & w' & r' & Hupd & _ & _ & Hat & _ & Hc & Hlg);
    [reflexivity|reflexivity|reflexivity|].
  exists l', w', r'. split; [exact Hupd|]. split; [exact Hat|].
  split; [exact Hc|exact Hlg].
Defined.

(** C10. On a room the store holds, [update_room] and [upsert_room] with
    neither code nor language still allocate a new object with the same
    code and language, stamp it with the current clock reading, file it in
    place of the old one and return it; the old object is left as it was. *)
Theorem update_with_nothing_still_refreshes (w : world) (self : RoomsStore)
    (m : gmap string loc) (now : timestamp) (id : string)
    (l : loc) (r : RoomState) :
  dicts w !! _rooms self = Some m → m !! id = Some l → objs w !! l = Some r →
  ∃ l' w' r',
    update_room self now id None None w = Ok (Some l', w') ∧
    upsert_room self now id None None w = Ok (l', w') ∧
    w' ≠ w ∧ l' ≠ l ∧ objs w !! l' = None ∧
    objs w' !! l' = Some r' ∧
    room_at w' self id = Some r' ∧
    objs w' !! l = Some r ∧
    room_id r' = room_id r ∧ code r' = code r ∧ language r' = language r ∧
    last_updated r' = now.
Proof.
  intros Hd Hid Hl.
  exists (fresh (dom (objs w))),
    (filed w self m id (updated r now None None)),
    (updated r now None None).
  split; [by eapply update_room_existing_run|].
  split; [by eapply upsert_room_existing_run|].
  pose proof (fresh_object_unused w) as Hfresh.
  split.
  { intros Heq. pose proof (filed_new_object w self m id
      (updated r now None None)) as Hnew. rewrite Heq, Hfresh in Hnew.
    discriminate. }
  split; [intros Heq; rewrite Heq, Hl in Hfresh; discriminate|].
  split; [exact Hfresh|]. split; [apply filed_new_object|].
  split; [apply filed_room_at|]. split; [by apply filed_old_object|].
  repeat split.
Qed.

Lemma update_with_nothing_still_refreshes_witness :
  ∃ l' w' r',
    update_room sample_store 11 "r1" None None sample_world
      = Ok (Some l', w') ∧
    w' ≠ sample_world ∧
    room_at w' sample_store "r1" = Some r' ∧
    code r' = "a" ∧ language r' = "python" ∧ last_updated r' = 11%Z.
Proof.
  destruct (update_with_nothing_still_refreshes sample_world sample_store
              {[ "r1" := 0 ]} 11 "r1" 0 sample_room)
    as (l' & w' & r' & Hupd & _ & Hne & _ & _ & _ & Hat & _ & _ & Hc & Hlg & Ht);
    [reflexivity|reflexivity|reflexivity|].
  exists l', w', r'. repeat split; assumption.
Defined.

(** C2, as the code has it. On a room the store holds, [update_room] and
    [upsert_room] set [last_updated] to the clock reading made during the
    call, whether or not a field changed: the new value is no smaller than
    the old one when that reading is no smaller, and strictly greater when
    that reading is strictly greater. *)
Theorem last_updated_is_the_clock_reading (w : world) (self : RoomsStore)
    (m : gmap string loc) (now : timestamp) (id : string)
    (c lang : option string) (l : loc) (r : RoomState) :
  dicts w !! _rooms self = Some m → m !! id = Some l → objs w !! l = Some r →
  ∃ l' w' r',
    update_room self now id c lang w = Ok (Some l', w') ∧
    upsert_room self now id c lang w = Ok (l', w') ∧
    room_at w' self id = Some r' ∧
    last_updated r' = now ∧
    (last_updated r ≤ now → last_updated r ≤ last_updated r')%Z ∧
    (last_updated r < now → last_updated r < last_updated r')%Z.
Proof.
  intros Hd Hid Hl.
  exists (fresh (dom (objs w))), (filed w self m id (updated r now c lang)),
    (updated r now c lang).
  split; [by eapply update_room_existing_run|].
  split; [by eapply upsert_room_existing_run|].
  split; [apply filed_room_at|]. cbn [updated last_updated]. auto.
Qed.

Lemma last_updated_is_the_clock_reading_witness :
  ∃ l' w' r',
    update_room sample_store 11 "r1" (Some "b") None sample_world
      = Ok (Some l', w') ∧
    room_at w' sample_store "r1" = Some r' ∧
    (last_updated sample_room < last_updated r')%Z.
Proof.
  destruct (last_updated_is_the_clock_reading sample_world sample_store
              {[ "r1" := 0 ]} 11 "r1" (Some "b") None 0 sample_room)
    as (l' & w' & r' & Hupd & _ & Hat & _ & _ & Hlt);
    [reflexivity|reflexivity|reflexivity|].
  exists l', w', r'. split; [exact Hupd|]. split; [exact Hat|].
  apply Hlt. reflexivity.
Defined.

(** C2, as stated, fails. The sample room has code ["a"] and was last
    updated at reading 10. An update to code ["b"] made while the clock
    still reads 10 changes a field and leaves [last_updated] at 10, not
    strictly greater; one made at a reading of 9 (the clock was set back)
    lowers [last_updated] to 9. *)
Lemma last_updated_can_stall_or_decrease :
  room_at sample_world sample_store "r1" = Some sample_room ∧
  (∃ l' w' r',
     update_room sample_store 10 "r1" (Some "b") None sample_world
       = Ok (Some l', w') ∧
     room_at w' sample_store "r1" = Some r' ∧
     code r' ≠ code sample_room ∧
     ¬ (last_updated sample_room < last_updated r')%Z) ∧
  (∃ l' w' r',
     update_room sample_store 9 "r1" (Some "b") None sample_world
       = Ok (Some l', w') ∧
     room_at w' sample_store "r1" = Some r' ∧
     ¬ (last_updated sample_room ≤ last_updated r')%Z).
Proof.
  split; [reflexivity|]. split.
  - eexists _, _, _. split; [vm_compute; reflexivity|].
    split; [vm_compute; reflexivity|]. split; [discriminate|].
    cbn. lia.
  - eexists _, _, _. split; [vm_compute; reflexivity|].
    split; [vm_compute; reflexivity|]. cbn. lia.
Qed.

(** Every mutating call either leaves the world as it is (an
    [update_room] on an unknown identifier) or files one fresh object under
    the key of the call, and that object carries the key. *)
Lemma run_op_cases (w : world) (self : RoomsStore) (m : gmap string loc)
    (op : store_op) :
  store_ok w self → dicts w !! _rooms self = Some m →
  run_op self op w = Ok (None, w) ∨
  ∃ r, run_op self op w =
         Ok (Some (fresh (dom (objs w))), filed w self m (room_id r) r) ∧
       room_id r = match op with
                   | CreateRoom u _ _ _ => generate_room_id u
                   | UpsertRoom _ id _ _ | UpdateRoom _ id _ _ => id
                   end.
Proof.
  intros (m' & Hm' & Hrooms) Hd. rewrite Hd in Hm'. injection Hm' as <-.
  destruct op as [u now c lang|now id c lang|now id c lang];
    unfold run_op, mbind, M_bind, mret, M_ret.
  - right. rewrite (create_room_run w self m Hd).
    exists (mkRoomState (generate_room_id u) c (normalized lang) now).
    split; reflexivity.
  - right. destruct (m !! id) as [l0|] eqn:Hid.
    + destruct (Hrooms id l0 Hid) as (r0 & Hl0 & Hr0).
      rewrite (upsert_room_existing_run w self m Hd now id c lang l0 r0 Hid Hl0).
      exists (updated r0 now c lang).
      change (room_id (updated r0 now c lang)) with (room_id r0).
      rewrite Hr0. split; reflexivity.
    + rewrite (upsert_room_new_run w self m Hd now id c lang Hid).
      exists (mkRoomState id (or_empty c) (normalized lang) now).
      split; reflexivity.
  - destruct (m !! id) as [l0|] eqn:Hid.
    + right. destruct (Hrooms id l0 Hid) as (r0 & Hl0 & Hr0).
      rewrite (update_room_existing_run w self m Hd now id c lang l0 r0 Hid Hl0).
      exists (updated r0 now c lang).
      change (room_id (updated r0 now c lang)) with (room_id r0).
      rewrite Hr0. split; reflexivity.
    + left. apply (update_room_missing_run w self m Hd now id c lang Hid).
Qed.

(** C9. From a store in order, every mutating method returns, leaves the
    store in order (every room is filed under its own [room_id]), and the
    object it hands back is filed under the [room_id] it carries: the
    generated identifier for [create_room], the identifier of the call for
    [upsert_room] and [update_room]. *)
Theorem store_ok_preserved (w : world) (self : RoomsStore) (op : store_op) :
  store_ok w self →
  ∃ res w',
    run_op self op w = Ok (res, w') ∧
    store_ok w' self ∧
    ∀ l, res = Some l →
      ∃ r, objs w' !! l = Some r ∧
           room_at w' self (room_id r) = Some r ∧
           room_id r = match op with
                       | CreateRoom u _ _ _ => generate_room_id u
                       | UpsertRoom _ id _ _ | UpdateRoom _ id _ _ => id
                       end.
Proof.
  intros Hok. pose proof Hok as (m & Hd & _).
  destruct (run_op_cases w self m op Hok Hd) as [Hrun|(r & Hrun & Hkey)].
  - exists None, w. split; [exact Hrun|]. split; [exact Hok|]. intros l [=].
  - eexists _, _. split; [exact Hrun|].
    split; [by apply filed_store_ok|].
    intros l [= <-]. exists r. split; [apply filed_new_object|].
    split; [apply filed_room_at|exact Hkey].
Qed.

Lemma store_ok_preserved_witness :
  ∃ res w',
    run_op sample_store (UpdateRoom 11 "r1" (Some "b") None) sample_world
      = Ok (res, w') ∧
    store_ok w' sample_store.
Proof.
  destruct (store_ok_preserved sample_world sample_store
              (UpdateRoom 11 "r1" (Some "b") None))
    as (res & w' & Hrun & Hok & _).
  - exists {[ "r1" := 0 ]}. split; [reflexivity|].
    intros k l [<- <-]%lookup_singleton_Some.
    exists sample_room. split; reflexivity.
  - exists res, w'. split; [exact Hrun|exact Hok].
Defined.

(** C7, as the code has it. [create_room] makes one draw, takes its first
    eight hexadecimal digits as the identifier and files the new room under
    it without looking whether the identifier is taken: the dictionary
    after the call is the one before with that entry set, and the rooms
    under other identifiers are as before.  When the identifier was free,
    it differs from the identifier of every room the store held. *)
Theorem create_room_files_under_the_draw (w : world) (self : RoomsStore)
    (m : gmap string loc) (u : N) (now : timestamp) (c : string)
    (lang : option string) :
  store_ok w self → dicts w !! _rooms self = Some m →
  ∃ l w' r,
    create_room self u now c lang w = Ok (l, w') ∧
    objs w' !! l = Some r ∧
    r = mkRoomState (generate_room_id u) c (normalized lang) now ∧
    String.length (room_id r) = 8%nat ∧
    str_forall is_hex_char (room_id r) = true ∧
    dicts w' !! _rooms self = Some (<[room_id r := l]> m) ∧
    room_at w' self (room_id r) = Some r ∧
    (∀ k, k ≠ room_id r → room_at w' self k = room_at w self k) ∧
    (m !! room_id r = None →
     ∀ k r0, room_at w self k = Some r0 → room_id r0 ≠ room_id r).
Proof.
  intros Hok Hd. eexists _, _, _.
  split; [by apply create_room_run|].
  split; [apply filed_new_object|]. split; [reflexivity|].
  cbn [room_id]. destruct (generate_room_id_hex8 u) as [Hlen Hhex].
  split; [exact Hlen|]. split; [exact Hhex|].
  split; [apply filed_dict|]. split; [apply filed_room_at|].
  split; [intros k Hk; by apply filed_room_at_other|].
  intros Hfree k r0 Hat Heq.
  destruct Hok as (m' & Hm' & Hrooms). rewrite Hd in Hm'.
  injection Hm' as <-. unfold room_at in Hat. rewrite Hd in Hat.
  destruct (m !! k) as [l0|] eqn:Hk; [|discriminate].
  destruct (Hrooms k l0 Hk) as (r1 & Hl0 & Hr1).
  rewrite Hl0 in Hat. injection Hat as ->.
  rewrite <- Hr1, Heq, Hfree in Hk. discriminate.
Qed.

Lemma create_room_files_under_the_draw_witness :
  ∃ l w' r,
    create_room sample_store collision_draw 11 "new" None sample_world
      = Ok (l, w') ∧
    objs w' !! l = Some r ∧
    room_id r = "1234abcd" ∧
    room_id sample_room ≠ room_id r.
Proof.
  destruct (create_room_files_under_the_draw sample_world sample_store
              {[ "r1" := 0 ]} collision_draw 11 "new" None)
    as (l & w' & r & Hrun & Hl & Hr & _ & _ & _ & _ & _ & Hfresh).
  - exists {[ "r1" := 0 ]}. split; [reflexivity|].
    intros k l [<- <-]%lookup_singleton_Some.
    exists sample_room. split; reflexivity.
  - reflexivity.
  - exists l, w', r. split; [exact Hrun|]. split; [exact Hl|].
    split; [by rewrite Hr|].
    apply (Hfresh ltac:(by rewrite Hr) "r1"). reflexivity.
Defined.

(** C7, as stated, fails. The store holds a room under ["1234abcd"]; a
    draw whose first eight digits are [1234abcd] makes [create_room] return
    a room with that same identifier and file it over the one that was
    there, with no second draw. *)
Lemma create_room_overwrites_on_collision :
  room_at collision_world sample_store "1234abcd" = Some collision_room ∧
  ∃ l w' r,
    create_room sample_store collision_draw 2 "new" None collision_world
      = Ok (l, w') ∧
    objs w' !! l = Some r ∧
    room_id r = room_id collision_room ∧
    room_at w' sample_store "1234abcd" = Some r ∧
    r ≠ collision_room.
Proof.
  split; [reflexivity|]. eexists _, _, _.
  split; [vm_compute; reflexivity|]. split; [vm_compute; reflexivity|].
  split; [reflexivity|]. split; [vm_compute; reflexivity|]. discriminate.
Qed.

(** * The copy returned by [list_rooms] *)

Section Listing.

Lemma list_rooms_run (w : world) (self : RoomsStore) (m : gmap string loc) :
  dicts w !! _rooms self = Some m →
  list_rooms self w =
    Ok (fresh (dom (dicts w)),
        mkWorld (objs w) (<[fresh (dom (dicts w)) := m]> (dicts w)) (sent w)).
Proof.
  intros Hd. unfold list_rooms, dict_copy, mbind, M_bind, read_dict, new_dict.
  by rewrite Hd.
Qed.

Lemma fresh_dict_unused (w : world) : dicts w !! fresh (dom (dicts w)) = None.
Proof. apply not_elem_of_dom, is_fresh. Qed.

Lemma filed_dict_view_other (w : world) (self : RoomsStore)
    (m md : gmap string loc) (id : string) (r : RoomState) (rooms : loc) :
  rooms ≠ _rooms self → copy_ok w rooms md →
  copy_ok (filed w self m id r) rooms md ∧
  dict_view (filed w self m id r) rooms = dict_view w rooms.
Proof.
  intros Hne [Hd Hlive]. split.
  - split; [by rewrite filed_other_dict|].
    intros k l Hk. destruct (Hlive k l Hk) as [r0 Hl]. exists r0.
    exact (filed_old_object w self m id r r0 l Hl).
  - unfold dict_view. rewrite filed_other_dict, Hd by exact Hne.
    f_equal. apply map_eq. intros k. rewrite !lookup_omap.
    destruct (md !! k) as [l|] eqn:Hk; [|reflexivity]. cbn.
    destruct (Hlive k l Hk) as [r0 Hl]. rewrite Hl.
    exact (filed_old_object w self m id r r0 l Hl).
Qed.

Lemma run_ops_keep_copy (self : RoomsStore) (rooms : loc)
    (md : gmap string loc) (ops : list store_op) (w : world) :
  store_ok w self → rooms ≠ _rooms self → copy_ok w rooms md →
  ∃ w', run_ops self ops w = Ok (tt, w') ∧ store_ok w' self ∧
        copy_ok w' rooms md ∧ dict_view w' rooms = dict_view w rooms.
Proof.
  intros Hok Hne. revert w Hok.
  induction ops as [|op ops IH]; intros w Hok Hcopy.
  { exists w. split; [reflexivity|]. auto. }
  pose proof Hok as (m & Hd & _). cbn [run_ops]. unfold mbind, M_bind.
  destruct (run_op_cases w self m op Hok Hd) as [Hrun|(r & Hrun & _)];
    rewrite Hrun.
  - apply IH; assumption.
  - destruct (filed_dict_view_other w self m md (room_id r) r rooms Hne Hcopy)
      as [Hcopy' Hview].
    destruct (IH (filed w self m (room_id r) r)) as (w' & Hw' & Hok' & Hc' & Hv');
      [by apply filed_store_ok|exact Hcopy'|].
    exists w'. split; [exact Hw'|]. split; [exact Hok'|].
    split; [exact Hc'|]. by rewrite Hv'.
Qed.

Lemma mutate_mapping_keeps_store (self : RoomsStore) (rooms : loc)
    (mu : mutation) (w w' : world) :
  rooms ≠ _rooms self → on_mapping mu = true →
  mutate rooms mu w = Ok (tt, w') →
  objs w' = objs w ∧ dicts w' !! _rooms self = dicts w !! _rooms self.
Proof.
  intros Hne Hmu Hrun. destruct mu as [k v|k| | | |]; try discriminate.
  - unfold mutate, dict_setitem, mbind, M_bind, read_dict, write_dict in Hrun.
    destruct (dicts w !! rooms) as [md|] eqn:Hd; [|discriminate].
    rewrite Hd in Hrun. injection Hrun as <-. cbn [objs dicts].
    split; [reflexivity|]. apply lookup_insert_ne. congruence.
  - unfold mutate, dict_delitem, mbind, M_bind, read_dict, write_dict, raise
      in Hrun.
    destruct (dicts w !! rooms) as [md|] eqn:Hd; [|discriminate].
    destruct (md !! k); [|discriminate]. rewrite Hd in Hrun.
    injection Hrun as <-. cbn [objs dicts].
    split; [reflexivity|]. apply lookup_insert_ne. congruence.
Qed.

Lemma mutate_all_mapping_keeps_store (self : RoomsStore) (rooms : loc)
    (mus : list mutation) (w w' : world) :
  rooms ≠ _rooms self → Forall (λ mu, on_mapping mu = true) mus →
  mutate_all rooms mus w = Ok (tt, w') →
  objs w' = objs w ∧ dicts w' !! _rooms self = dicts w !! _rooms self.
Proof.
  intros Hne Hmus. revert w. induction Hmus as [|mu mus Hmu _ IH]; intros w.
  { intros [= <-]. auto. }
  cbn [mutate_all]. unfold mbind, M_bind.
  destruct (mutate rooms mu w) as [[[] w1]|] eqn:Hrun; [|discriminate].
  intros Hrest. destruct (IH _ Hrest) as [Ho Hd].
  destruct (mutate_mapping_keeps_store self rooms mu w w1 Hne Hmu Hrun)
    as [Ho1 Hd1].
  split; congruence.
Qed.

Lemma dict_view_same (w w' : world) (d : loc) :
  objs w' = objs w → dicts w' !! d = dicts w !! d →
  dict_view w' d = dict_view w d.
Proof. intros Ho Hd. unfold dict_view. by rewrite Ho, Hd. Qed.

End Listing.

(** C8, as the code has it. [list_rooms] returns a new dictionary with the
    entries the store's dictionary has at that moment, referring to the
    very same [RoomState] objects.  Whatever the caller then does to the
    mapping it got (setting or deleting entries) leaves the store's rooms
    as they were, and whatever the store then does ([create_room],
    [upsert_room], [update_room], any number of times) leaves the rooms
    seen through the returned dictionary as they were. *)
Theorem list_rooms_is_a_shallow_copy (w : world) (self : RoomsStore)
    (m : gmap string loc) :
  store_ok w self → dicts w !! _rooms self = Some m →
  ∃ rooms w1,
    list_rooms self w = Ok (rooms, w1) ∧
    rooms ≠ _rooms self ∧ dicts w !! rooms = None ∧
    objs w1 = objs w ∧
    dicts w1 !! _rooms self = Some m ∧ dicts w1 !! rooms = Some m ∧
    dict_view w1 rooms = dict_view w (_rooms self) ∧
    (∀ k v, ∃ w2, mutate rooms (SetItem k v) w1 = Ok (tt, w2)) ∧
    (∀ mus w2, Forall (λ mu, on_mapping mu = true) mus →
               mutate_all rooms mus w1 = Ok (tt, w2) →
               dict_view w2 (_rooms self) = dict_view w (_rooms self)) ∧
    (∀ ops, ∃ w2, run_ops self ops w1 = Ok (tt, w2) ∧
                  dict_view w2 rooms = dict_view w1 rooms).
Proof.
  intros Hok Hd. pose proof Hok as (m' & Hm' & Hrooms).
  rewrite Hd in Hm'. injection Hm' as <-.
  set (rooms := fresh (dom (dicts w))).
  set (w1 := mkWorld (objs w) (<[rooms := m]> (dicts w)) (sent w)).
  assert (Hne : rooms ≠ _rooms self).
  { intros Heq. pose proof (fresh_dict_unused w) as Hfresh.
    fold rooms in Hfresh. rewrite Heq, Hd in Hfresh. discriminate. }
  assert (Hself1 : dicts w1 !! _rooms self = Some m).
  { cbn [w1 dicts]. rewrite lookup_insert_ne by exact Hne. exact Hd. }
  assert (Hrooms1 : dicts w1 !! rooms = Some m).
  { cbn [w1 dicts]. apply lookup_insert_eq. }
  assert (Hok1 : store_ok w1 self) by (exists m; split; assumption).
  assert (Hcopy1 : copy_ok w1 rooms m).
  { split; [exact Hrooms1|]. intros k l Hk.
    destruct (Hrooms k l Hk) as (r & Hl & _). by exists r. }
  exists rooms, w1. split; [by apply list_rooms_run|].
  split; [exact Hne|]. split; [apply fresh_dict_unused|].
  split; [reflexivity|]. split; [exact Hself1|]. split; [exact Hrooms1|].
  split; [unfold dict_view; by rewrite Hrooms1, Hd|].
  split; [|split].
  - intros k v. eexists.
    unfold mutate, dict_setitem, mbind, M_bind, read_dict, write_dict.
    rewrite Hrooms1. cbv beta iota. rewrite Hrooms1. reflexivity.
  - intros mus w2 Hmus Hrun.
    destruct (mutate_all_mapping_keeps_store self rooms mus w1 w2 Hne Hmus Hrun)
      as [Ho Hdd].
    apply dict_view_same; [exact Ho|]. by rewrite Hdd, Hself1, Hd.
  - intros ops.
    destruct (run_ops_keep_copy self rooms m ops w1 Hok1 Hne Hcopy1)
      as (w2 & Hrun & _ & _ & Hview).
    exists w2. split; assumption.
Qed.

Lemma list_rooms_is_a_shallow_copy_witness :
  ∃ rooms w1,
    list_rooms sample_store sample_world = Ok (rooms, w1) ∧
    (∃ w2, run_ops sample_store
             [UpdateRoom 11 "r1" (Some "b") None; CreateRoom 7 12 EmptyString None] w1
             = Ok (tt, w2) ∧
           dict_view w2 rooms = dict_view w1 rooms) ∧
    (∀ w2, mutate_all rooms [DelItem "r1"; SetItem "r9" 0] w1 = Ok (tt, w2) →
           dict_view w2 (_rooms sample_store)
             = dict_view sample_world (_rooms sample_store)).
Proof.
  destruct (list_rooms_is_a_shallow_copy sample_world sample_store
              {[ "r1" := 0 ]})
    as (rooms & w1 & Hrun & _ & _ & _ & _ & _ & _ & _ & Hmut & Hops).
  - exists {[ "r1" := 0 ]}. split; [reflexivity|].
    intros k l [<- <-]%lookup_singleton_Some.
    exists sample_room. split; reflexivity.
  - reflexivity.
  - exists rooms, w1. split; [exact Hrun|]. split; [apply Hops|].
    intros w2. apply Hmut. repeat constructor.
Defined.

(** C8, as stated, fails for the room values. The caller lists the rooms of
    the sample store and assigns to the [code] of the room it finds under
    ["r1"] in the returned dictionary: the room the store holds under
    ["r1"] now has that code. *)
Lemma list_rooms_shares_room_objects :
  ∃ rooms w1 w2,
    list_rooms sample_store sample_world = Ok (rooms, w1) ∧
    room_at w1 sample_store "r1" = Some (mkRoomState "r1" "a" "python" 10) ∧
    mutate rooms (SetCode "r1" "x") w1 = Ok (tt, w2) ∧
    room_at w2 sample_store "r1" = Some (mkRoomState "r1" "x" "python" 10).
Proof.
  eexists _, _, _. split; [vm_compute; reflexivity|].
  split; [vm_compute; reflexivity|]. split; vm_compute; reflexivity.
Qed.

(** * The room websocket *)

Section Websocket.
Import Untyped.

Lemma str_or_falsy_falsy (v : json) :
  truthy v = false → str_or_falsy v = true.
Proof. intros Hv. destruct v; unfold str_or_falsy; by rewrite ?Hv. Qed.

Lemma str_or_falsy_truthy (v : json) :
  truthy v = true → str_or_falsy v = true → ∃ s, v = JStr s.
Proof.
  intros Ht Hs. destruct v; unfold str_or_falsy in Hs;
    try (rewrite Ht in Hs; discriminate). by eexists.
Qed.

Lemma not_str_or_falsy (v : json) :
  str_or_falsy v = false → truthy v = true ∧ ∀ s, v ≠ JStr s.
Proof.
  intros Hs. split.
  - destruct (truthy v) eqn:Ht; [reflexivity|].
    by rewrite str_or_falsy_falsy in Hs.
  - intros s ->. discriminate.
Qed.

Lemma or_empty_str (c : json) :
  str_or_falsy c = true → ∃ s, or_empty c = JStr s.
Proof.
  unfold or_empty. intros Hc. destruct (truthy c) eqn:Ht; [|by eexists].
  exact (str_or_falsy_truthy c Ht Hc).
Qed.

Lemma or_empty_not_str (c : json) :
  str_or_falsy c = false → ∀ s, or_empty c ≠ JStr s.
Proof.
  intros [Ht Hs]%not_str_or_falsy. unfold or_empty. by rewrite Ht.
Qed.

Lemma normalize_language_accepts (lang : json) (w : world) :
  str_or_falsy lang = true →
  normalize_language lang w = Done (normalized lang) w.
Proof.
  unfold normalize_language. intros Hl.
  destruct (truthy lang) eqn:Ht; cbn [negb].
  - destruct (str_or_falsy_truthy lang Ht Hl) as (s & ->).
    unfold lift, normalized. by rewrite normalize_language_normalized.
  - destruct lang; try reflexivity. by destruct s.
Qed.

Lemma normalize_language_rejects (lang : json) (w : world) :
  str_or_falsy lang = false →
  normalize_language lang w = Failed AttributeError w.
Proof.
  unfold normalize_language. intros [Ht Hs]%not_str_or_falsy.
  rewrite Ht. cbn [negb]. destruct lang; try reflexivity. by destruct (Hs s).
Qed.

Lemma untyped_normalized_in_Language (lang : json) :
  normalized lang ∈ Language_values.
Proof.
  destruct lang; try (unfold Language_values; cbn; set_solver).
  apply normalized_in_Language.
Qed.

Lemma bind_done {A B : Type} (m : M A) (f : A → M B) (w w' : world)
    (a : A) :
  m w = Done a w' → (m ≫= f) w = f a w'.
Proof. intros H. unfold mbind, M_bind. by rewrite H. Qed.

Lemma bind_failed {A B : Type} (m : M A) (f : A → M B) (w w' : world)
    (e : error) :
  m w = Failed e w' → (m ≫= f) w = Failed e w'.
Proof. intros H. unfold mbind, M_bind. by rewrite H. Qed.

Lemma send_room_run (ws : conn) (l : loc) (r : RoomState) (w : world) :
  objs w !! l = Some r →
  Main.send_room ws l w =
    Done tt (mkWorld (objs w) (dicts w) (sent w ++ [(ws, Snapshot r)])).
Proof.
  intros Hl. unfold send_room, mbind, M_bind, read_room, send_json.
  by rewrite Hl.
Qed.

Lemma emitted_one (w w' : world) (x : conn * payload) :
  sent w' = sent w ++ [x] → emitted w w' = [x].
Proof. intros Hs. unfold emitted. rewrite Hs. apply drop_app_length. Qed.

Lemma emitted_none (w w' : world) : sent w' = sent w → emitted w w' = [].
Proof. intros Hs. unfold emitted. rewrite Hs. apply drop_all. Qed.

(** Assignments to the attributes of an object, and the two conditional
    assignments of [upsert_room]. *)
Lemma set_code_fresh (o : gmap loc RoomState) (d : gmap loc (gmap string loc))
    (s : list (conn * payload)) (l : loc) (r : RoomState) (c : json) :
  set_code l c (mkWorld (<[l := r]> o) d s) =
    Done tt
      (mkWorld
         (<[l := mkRoomState (room_id r) c (language r) (last_updated r)]> o)
         d s).
Proof.
  unfold set_code, mbind, M_bind, read_room, write_room. cbn [objs].
  rewrite lookup_insert_eq. cbn [objs dicts sent].
  by rewrite lookup_insert_eq, insert_insert_eq.
Qed.

Lemma set_language_fresh (o : gmap loc RoomState)
    (d : gmap loc (gmap string loc)) (s : list (conn * payload)) (l : loc)
    (r : RoomState) (lg : string) :
  set_language l lg (mkWorld (<[l := r]> o) d s) =
    Done tt
      (mkWorld
         (<[l := mkRoomState (room_id r) (code r) lg (last_updated r)]> o)
         d s).
Proof.
  unfold set_language, mbind, M_bind, read_room, write_room. cbn [objs].
  rewrite lookup_insert_eq. cbn [objs dicts sent].
  by rewrite lookup_insert_eq, insert_insert_eq.
Qed.

Lemma set_last_updated_fresh (o : gmap loc RoomState)
    (d : gmap loc (gmap string loc)) (s : list (conn * payload)) (l : loc)
    (r : RoomState) (ts : timestamp) :
  set_last_updated l ts (mkWorld (<[l := r]> o) d s) =
    Done tt
      (mkWorld (<[l := mkRoomState (room_id r) (code r) (language r) ts]> o)
         d s).
Proof.
  unfold set_last_updated, mbind, M_bind, read_room, write_room. cbn [objs].
  rewrite lookup_insert_eq. cbn [objs dicts sent].
  by rewrite lookup_insert_eq, insert_insert_eq.
Qed.

Lemma assign_code (o : gmap loc RoomState) (d : gmap loc (gmap string loc))
    (s : list (conn * payload)) (l : loc) (r : RoomState) (c : json) :
  match c with JNull => mret tt | _ => set_code l c end
    (mkWorld (<[l := r]> o) d s) =
    Done tt
      (mkWorld
         (<[l := mkRoomState (room_id r)
                   (match c with JNull => code r | _ => c end)
                   (language r) (last_updated r)]> o)
         d s).
Proof. destruct c; try apply set_code_fresh. by destruct r. Qed.

Lemma assign_language (o : gmap loc RoomState)
    (d : gmap loc (gmap string loc)) (s : list (conn * payload)) (l : loc)
    (r : RoomState) (lang : json) :
  str_or_falsy lang = true →
  match lang with
  | JNull => mret tt
  | _ => lg ← normalize_language lang; set_language l lg
  end (mkWorld (<[l := r]> o) d s) =
    Done tt
      (mkWorld
         (<[l := mkRoomState (room_id r) (code r)
                   (match lang with
                    | JNull => language r
                    | _ => normalized lang
                    end)
                   (last_updated r)]> o)
         d s).
Proof.
  intros Hl.
  destruct lang; try (by destruct r);
    rewrite (bind_done _ _ _ _ _ (normalize_language_accepts _ _ Hl));
    apply set_language_fresh.
Qed.

Section Runs.

Context (w : world) (self : RoomsStore) (m : gmap string loc).
Hypothesis Hdict : dicts w !! _rooms self = Some m.

Lemma untyped_get_room_run (id : string) :
  get_room self id w = Done (m !! id) w.
Proof.
  unfold get_room, dict_get, mbind, M_bind, read_dict, mret, M_ret.
  by rewrite Hdict.
Qed.

Lemma dict_get_run (id : string) :
  dict_get (_rooms self) id w = Done (m !! id) w.
Proof. apply untyped_get_room_run. Qed.

Lemma dict_setitem_run (id : string) (l : loc) (objs' : gmap loc RoomState) :
  dict_setitem (_rooms self) id l (mkWorld objs' (dicts w) (sent w)) =
    Done tt (mkWorld objs' (<[_rooms self := <[id := l]> m]> (dicts w))
               (sent w)).
Proof.
  unfold dict_setitem, mbind, M_bind, read_dict, write_dict.
  repeat (cbn [objs dicts sent]; rewrite ?Hdict). reflexivity.
Qed.

Lemma upsert_new_returns (now : timestamp) (id : string) (c lang : json) :
  m !! id = None → upsert_accepts false c lang = true →
  upsert_room self now id c lang w =
    Done (fresh (dom (objs w)))
      (filed w self m id (mkRoomState id (or_empty c) (normalized lang) now)).
Proof.
  intros Hid [Hl Hc]%andb_true_iff. cbn in Hc.
  destruct (or_empty_str c Hc) as (s & Hs).
  unfold upsert_room. rewrite (bind_done _ _ _ _ _ (dict_get_run id)), Hid.
  rewrite (bind_done _ _ _ _ _ (normalize_language_accepts lang w Hl)).
  unfold RoomState_init. rewrite Hs.
  rewrite bool_decide_eq_true_2 by apply untyped_normalized_in_Language.
  erewrite bind_done by reflexivity.
  erewrite bind_done by apply dict_setitem_run.
  reflexivity.
Qed.

Lemma upsert_new_raises (now : timestamp) (id : string) (c lang : json) :
  m !! id = None → upsert_accepts false c lang = false →
  upsert_room self now id c lang w = Failed (upsert_error lang) w.
Proof.
  intros Hid Hacc. unfold upsert_accepts in Hacc. cbn in Hacc.
  unfold upsert_room. rewrite (bind_done _ _ _ _ _ (dict_get_run id)), Hid.
  unfold upsert_error. destruct (str_or_falsy lang) eqn:Hl.
  - rewrite (bind_done _ _ _ _ _ (normalize_language_accepts lang w Hl)).
    cbn in Hacc. pose proof (or_empty_not_str c Hacc) as Hs.
    apply bind_failed. unfold RoomState_init.
    destruct (or_empty c); try reflexivity. by destruct (Hs s).
  - apply bind_failed. by apply normalize_language_rejects.
Qed.

Lemma model_copy_run (l : loc) (r : RoomState) :
  objs w !! l = Some r →
  model_copy l w =
    Done (fresh (dom (objs w)))
      (mkWorld (<[fresh (dom (objs w)) := r]> (objs w)) (dicts w) (sent w)).
Proof.
  intros Hl. unfold model_copy, mbind, M_bind, read_room, new_room.
  by rewrite Hl.
Qed.

Lemma upsert_existing_returns (now : timestamp) (id : string)
    (c lang : json) (l : loc) (r : RoomState) :
  m !! id = Some l → objs w !! l = Some r → str_or_falsy lang = true →
  upsert_room self now id c lang w =
    Done (fresh (dom (objs w))) (filed w self m id (updated r now c lang)).
Proof.
  intros Hid Hl Hlang.
  unfold upsert_room. rewrite (bind_done _ _ _ _ _ (dict_get_run id)), Hid.
  rewrite (bind_done _ _ _ _ _ (model_copy_run l r Hl)).
  rewrite (bind_done _ _ _ _ _ (assign_code _ _ _ _ r c)).
  rewrite (bind_done _ _ _ _ _ (assign_language _ _ _ _ _ lang Hlang)).
  erewrite bind_done by apply set_last_updated_fresh.
  erewrite bind_done by apply dict_setitem_run.
  reflexivity.
Qed.

(** The copy that [model_copy] made, with the [code] that was assigned to
    it if one was, is what is left of a call that raised in
    [normalize_language]: an object that nothing refers to. *)
Lemma upsert_existing_raises (now : timestamp) (id : string)
    (c lang : json) (l : loc) (r : RoomState) :
  m !! id = Some l → objs w !! l = Some r → str_or_falsy lang = false →
  upsert_room self now id c lang w =
    Failed AttributeError
      (mkWorld
         (<[fresh (dom (objs w)) :=
              mkRoomState (room_id r)
                (match c with JNull => code r | _ => c end)
                (language r) (last_updated r)]> (objs w))
         (dicts w) (sent w)).
Proof.
  intros Hid Hl Hlang.
  unfold upsert_room. rewrite (bind_done _ _ _ _ _ (dict_get_run id)), Hid.
  rewrite (bind_done _ _ _ _ _ (model_copy_run l r Hl)).
  rewrite (bind_done _ _ _ _ _ (assign_code _ _ _ _ r c)).
  apply bind_failed.
  destruct lang; try discriminate;
    apply bind_failed; by apply normalize_language_rejects.
Qed.

Lemma untyped_fresh_object_unused : objs w !! fresh (dom (objs w)) = None.
Proof. apply not_elem_of_dom, is_fresh. Qed.

Lemma untyped_filed_room_at (id : string) (r : RoomState) :
  room_at (filed w self m id r) self id = Some r.
Proof.
  unfold room_at, filed. cbn [objs dicts].
  by rewrite !lookup_insert_eq.
Qed.

Lemma untyped_filed_new_object (id : string) (r : RoomState) :
  objs (filed w self m id r) !! fresh (dom (objs w)) = Some r.
Proof. unfold filed. cbn [objs]. by rewrite lookup_insert_eq. Qed.

Lemma untyped_filed_old_object (id : string) (r r0 : RoomState) (l : loc) :
  objs w !! l = Some r0 → objs (filed w self m id r) !! l = Some r0.
Proof.
  intros Hl. unfold filed. cbn [objs]. rewrite lookup_insert_ne; [exact Hl|].
  intros <-. rewrite untyped_fresh_object_unused in Hl. discriminate.
Qed.

Lemma untyped_filed_dict (id : string) (r : RoomState) :
  dicts (filed w self m id r) !! _rooms self =
    Some (<[id := fresh (dom (objs w))]> m).
Proof. unfold filed. cbn [dicts]. by rewrite lookup_insert_eq. Qed.

Lemma untyped_filed_store_ok (id : string) (r : RoomState) :
  store_ok w self → room_id r = id → store_ok (filed w self m id r) self.
Proof.
  intros (m' & Hm' & Hok) <-. rewrite Hdict in Hm'. injection Hm' as <-.
  exists (<[room_id r := fresh (dom (objs w))]> m).
  split; [apply untyped_filed_dict|].
  intros k l Hk. destruct (decide (k = room_id r)) as [->|Hne].
  - rewrite lookup_insert_eq in Hk. simplify_eq.
    exists r. split; [apply untyped_filed_new_object|reflexivity].
  - rewrite lookup_insert_ne in Hk by congruence.
    destruct (Hok k l Hk) as (r0 & Hl & Hid). exists r0.
    split; [by apply untyped_filed_old_object|exact Hid].
Qed.

Lemma held_lookup (id : string) :
  store_ok w self → held w self id = bool_decide (is_Some (m !! id)).
Proof.
  intros (m' & Hm' & Hok). rewrite Hdict in Hm'. injection Hm' as <-.
  unfold held, room_at. rewrite Hdict.
  destruct (m !! id) as [l|] eqn:Hid.
  - destruct (Hok id l Hid) as (r & -> & _).
    by rewrite bool_decide_eq_true_2.
  - rewrite bool_decide_eq_false_2; [reflexivity|]. by intros [? ?].
Qed.

End Runs.

Lemma same_rooms_refl (w : world) : same_rooms w w.
Proof. by split; [|split]. Qed.

Lemma same_rooms_fresh (w : world) (r : RoomState) :
  same_rooms w
    (mkWorld (<[fresh (dom (objs w)) := r]> (objs w)) (dicts w) (sent w)).
Proof.
  split; [reflexivity|]. split; [reflexivity|]. intros l r0 Hl. cbn [objs].
  rewrite lookup_insert_ne; [exact Hl|].
  intros <-. rewrite untyped_fresh_object_unused in Hl. discriminate.
Qed.

Lemma same_rooms_store_ok (w w' : world) (self : RoomsStore) :
  same_rooms w w' → store_ok w self → store_ok w' self.
Proof.
  intros (Hd & _ & Ho) (m & Hm & Hok). exists m. rewrite Hd.
  split; [exact Hm|]. intros k l Hk.
  destruct (Hok k l Hk) as (r & Hl & Hr). exists r. by split; [apply Ho|].
Qed.

Lemma same_rooms_room_at (w w' : world) (self : RoomsStore) (id : string) :
  same_rooms w w' → store_ok w self →
  room_at w' self id = room_at w self id.
Proof.
  intros (Hd & _ & Ho) (m & Hm & Hok). unfold room_at. rewrite Hd, Hm.
  destruct (m !! id) as [l|] eqn:Hid; [|reflexivity].
  destruct (Hok id l Hid) as (r & Hl & _). rewrite Hl. by apply Ho.
Qed.

(** What [upsert_room] does on a store in order, for any two values: it
    returns a new object, filed under the identifier, or it raises and
    leaves the store as it was. *)
Lemma upsert_outcome (w : world) (self : RoomsStore) (m : gmap string loc)
    (now : timestamp) (id : string) (c lang : json) :
  store_ok w self → dicts w !! _rooms self = Some m →
  if upsert_accepts (held w self id) c lang then
    ∃ r, upsert_room self now id c lang w =
           Done (fresh (dom (objs w))) (filed w self m id r) ∧
         room_id r = id
  else
    ∃ w', upsert_room self now id c lang w = Failed (upsert_error lang) w' ∧
          same_rooms w w'.
Proof.
  intros Hok Hd. rewrite (held_lookup w self m Hd id Hok).
  pose proof Hok as (m' & Hm' & Hrooms).
  rewrite Hd in Hm'. injection Hm' as <-.
  destruct (m !! id) as [l|] eqn:Hid.
  - destruct (Hrooms id l Hid) as (r & Hl & Hr).
    rewrite bool_decide_eq_true_2 by (by eexists).
    unfold upsert_accepts, upsert_error. rewrite orb_true_l, andb_true_r.
    destruct (str_or_falsy lang) eqn:Hlang.
    + exists (updated r now c lang).
      split; [by eapply upsert_existing_returns|exact Hr].
    + eexists. split; [by eapply upsert_existing_raises|].
      apply same_rooms_fresh.
  - rewrite bool_decide_eq_false_2 by (by intros [? ?]).
    destruct (upsert_accepts false c lang) eqn:Hacc.
    + eexists. split; [by eapply upsert_new_returns|reflexivity].
    + exists w. split; [by eapply upsert_new_raises|apply same_rooms_refl].
Qed.

(** An ["update"] turn is the upsert with the two fields of the message,
    then the send of what it returned. *)
Lemma update_turn (w : world) (store : RoomsStore) (ws : conn) (rid : string)
    (now : timestamp) (fields : list (string * json)) :
  field "action" fields = JStr "update" →
  room_websocket_turn store ws rid now (JObj fields) w =
    (room ← upsert_room store now rid (field "code" fields)
              (field "language" fields);
     send_room ws room) w.
Proof.
  intros Hact. unfold room_websocket_turn, get.
  erewrite bind_done by reflexivity. rewrite Hact.
  change (is_str (JStr "update") "get") with false.
  change (is_str (JStr "update") "update") with true. cbv iota.
  erewrite bind_done by reflexivity. erewrite bind_done by reflexivity.
  reflexivity.
Qed.

(** C1, as the code has it. An ["update"] message is any JSON object whose
    action is ["update"]; its code and language are whatever the object
    holds under those keys, [None] if nothing.  The handler calls
    [upsert_room] with them.  If that returns, which it does when the
    language is a [str] or falsy and, for a room the store does not hold
    yet, the code is too, the handler sends the snapshot of the room it
    returned once, on the connection the message came from.  If not, the
    exception of the upsert ([AttributeError] from [normalize_language],
    else pydantic's [ValidationError]) ends the handler: nothing is sent
    and every room of the store is as it was.  Either way nothing is sent
    on any other connection, whatever room it is subscribed to. *)
Theorem update_is_echoed_to_its_sender (w : world) (store : RoomsStore)
    (conns : gmap conn string) (websocket : conn) (room_id : string)
    (now : timestamp) (fields : list (string * json)) :
  store_ok w store → conns !! websocket = Some room_id →
  field "action" fields = JStr "update" →
  let code := field "code" fields in
  let language := field "language" fields in
  let upsert := upsert_room store now room_id code language w in
  let served := serve_message store conns websocket now (JObj fields) w in
  (∀ c p, c ≠ websocket → (c, p) ∉ emitted w (after served)) ∧
  if upsert_accepts (held w store room_id) code language then
    ∃ l w1 w' r,
      upsert = Done l w1 ∧ objs w1 !! l = Some r ∧
      served = Done tt w' ∧
      objs w' = objs w1 ∧ dicts w' = dicts w1 ∧
      room_at w' store room_id = Some r ∧
      emitted w w' = [(websocket, Snapshot r)]
  else
    ∃ w',
      upsert = Failed (upsert_error language) w' ∧
      served = Failed (upsert_error language) w' ∧
      emitted w w' = [] ∧
      ∀ id, room_at w' store id = room_at w store id.
Proof.
  intros Hok Hconn Hact. cbv zeta. pose proof Hok as (m & Hd & _).
  unfold serve_message. rewrite Hconn, (update_turn _ _ _ _ _ _ Hact).
  pose proof (upsert_outcome w store m now room_id (field "code" fields)
                (field "language" fields) Hok Hd) as Hups.
  destruct (upsert_accepts _ _ _).
  - destruct Hups as (r & Hups & _).
    rewrite (bind_done _ _ _ _ _ Hups).
    rewrite (send_room_run websocket _ r _
               (untyped_filed_new_object w store m room_id r)).
    set (w1 := filed w store m room_id r).
    set (w' := mkWorld (objs w1) (dicts w1)
                 (sent w1 ++ [(websocket, Snapshot r)])).
    assert (Hem : emitted w w' = [(websocket, Snapshot r)])
      by (by apply emitted_one).
    split.
    + intros c p Hne. cbn [after]. rewrite Hem.
      intros Hin%list_elem_of_singleton. congruence.
    + exists (fresh (dom (objs w))), w1, w', r.
      split; [exact Hups|].
      split; [apply untyped_filed_new_object|].
      split; [reflexivity|]. split; [reflexivity|]. split; [reflexivity|].
      split; [apply untyped_filed_room_at|exact Hem].
  - destruct Hups as (w' & Hups & Hsame).
    rewrite (bind_failed _ _ _ _ _ Hups).
    assert (Hem : emitted w w' = [])
      by (apply emitted_none, Hsame).
    split.
    + intros c p _. cbn [after]. rewrite Hem. apply not_elem_of_nil.
    + exists w'. split; [exact Hups|]. split; [reflexivity|].
      split; [exact Hem|].
      intros id. by apply same_rooms_room_at.
Qed.

Lemma sample_store_ok : store_ok sample_world sample_store.
Proof.
  exists {[ "r1" := 0 ]}. split; [reflexivity|].
  intros k l [<- <-]%lookup_singleton_Some.
  exists sample_room. split; reflexivity.
Qed.

Lemma update_is_echoed_to_its_sender_witness :
  ∃ w' r,
    serve_message sample_store {[ 1 := "r1"; 2 := "r1" ]} 1 11
      (JObj [("action", JStr "update"); ("code", JStr "hi")]) sample_world
      = Done tt w' ∧
    room_at w' sample_store "r1" = Some r ∧
    emitted sample_world w' = [(1, Snapshot r)].
Proof.
  destruct (update_is_echoed_to_its_sender sample_world sample_store
              {[ 1 := "r1"; 2 := "r1" ]} 1 "r1" 11
              [("action", JStr "update"); ("code", JStr "hi")])
    as (_ & l & w1 & w' & r & _ & _ & Hrun & _ & _ & Hat & Hem).
  - exact sample_store_ok.
  - reflexivity.
  - reflexivity.
  - exists w', r. split; [exact Hrun|]. split; [exact Hat|exact Hem].
Defined.

(** C1, as stated, fails. Connections 1 and 2 are both subscribed to room
    ["r1"]. An update arriving on connection 1 is answered on connection 1
    alone: connection 2 is sent nothing.  And an update whose language is
    the number 5 is answered on no connection at all: the handler ends with
    [AttributeError]. *)
Lemma update_is_not_broadcast :
  subscribed {[ 1 := "r1"; 2 := "r1" ]} "r1" 1 ∧
  subscribed {[ 1 := "r1"; 2 := "r1" ]} "r1" 2 ∧
  (∃ w',
     serve_message sample_store {[ 1 := "r1"; 2 := "r1" ]} 1 11
       (JObj [("action", JStr "update"); ("code", JStr "hi")]) sample_world
       = Done tt w' ∧
     emitted sample_world w'
       = [(1, Snapshot (mkRoomState "r1" (JStr "hi") "python" 11))] ∧
     ∀ p, (2, p) ∉ emitted sample_world w') ∧
  (∃ w',
     serve_message sample_store {[ 1 := "r1"; 2 := "r1" ]} 1 11
       (JObj [("action", JStr "update"); ("code", JStr "hi");
              ("language", JInt 5)]) sample_world
       = Failed AttributeError w' ∧
     emitted sample_world w' = []).
Proof.
  split; [reflexivity|]. split; [reflexivity|]. split.
  - eexists. split; [vm_compute; reflexivity|].
    split; [reflexivity|].
    intros p Hin. change (emitted sample_world _) with
      [(1, Snapshot (mkRoomState "r1" (JStr "hi") "python" 11))] in Hin.
    apply list_elem_of_singleton in Hin. discriminate.
  - eexists. split; [vm_compute; reflexivity|]. reflexivity.
Qed.

End Websocket.

(** * The two readings of the store agree

    On validated values [Untyped.get_room] and [Untyped.upsert_room] do
    what [Store.get_room] and [Store.upsert_room] do: what is proved of the
    store's methods holds of the calls the websocket handler makes with
    values that are [str]s or [None]. *)

Section ValidatedValues.
Import Validated.

Lemma of_world_fresh (w : world) :
  fresh (dom (Untyped.objs (of_world w))) = fresh (dom (objs w)).
Proof. unfold of_world. cbn [Untyped.objs]. by rewrite dom_fmap_L. Qed.

Lemma of_world_filed (w : world) (self : RoomsStore) (m : gmap string loc)
    (id : string) (r : RoomState) :
  Untyped.filed (of_world w) self m id (of_room r) =
    of_world (filed w self m id r).
Proof.
  unfold Untyped.filed, filed. rewrite of_world_fresh.
  unfold of_world.
  cbn [objs dicts sent Untyped.objs Untyped.dicts Untyped.sent].
  by rewrite fmap_insert.
Qed.

Lemma of_room_updated (r : RoomState) (now : timestamp)
    (c lang : option string) :
  Untyped.updated (of_room r) now (of_option c) (of_option lang) =
    of_room (updated r now c lang).
Proof. by destruct c, lang. Qed.

Lemma of_room_new (now : timestamp) (id : string) (c lang : option string) :
  Untyped.mkRoomState id (Untyped.or_empty (of_option c))
    (Untyped.normalized (of_option lang)) now =
    of_room (mkRoomState id (or_empty c) (normalized lang) now).
Proof. destruct c as [[|a c]|], lang; reflexivity. Qed.

Lemma of_option_str_or_falsy (v : option string) :
  Untyped.str_or_falsy (of_option v) = true.
Proof. by destruct v. Qed.

(** A store in order is in order as a store of [Untyped]; so is, then,
    the store [__init__] returns and every store the methods of [Store]
    leave. *)
Lemma of_world_store_ok (w : world) (self : RoomsStore) :
  store_ok w self → Untyped.store_ok (of_world w) self.
Proof.
  intros (m & Hm & Hok). exists m. split; [exact Hm|]. intros k l Hk.
  destruct (Hok k l Hk) as (r & Hl & Hr). exists (of_room r).
  split; [|exact Hr]. unfold of_world. cbn [Untyped.objs].
  by rewrite lookup_fmap, Hl.
Qed.

Lemma get_room_on_validated (w : world) (self : RoomsStore) (id : string) :
  match get_room self id w with
  | Ok (l, w') =>
      Untyped.get_room self id (of_world w) = Untyped.Done l (of_world w')
  | Raise e =>
      Untyped.get_room self id (of_world w) =
        Untyped.Failed (Untyped.Exn e) (of_world w)
  end.
Proof.
  unfold get_room, dict_get, mbind, M_bind, read_dict, mret, M_ret.
  unfold Untyped.get_room, Untyped.dict_get, mbind, Untyped.M_bind,
    Untyped.read_dict, mret, Untyped.M_ret.
  change (Untyped.dicts (of_world w)) with (dicts w).
  by destruct (dicts w !! _rooms self).
Qed.

Lemma upsert_room_on_validated (w : world) (self : RoomsStore)
    (now : timestamp) (id : string) (c lang : option string) :
  match upsert_room self now id c lang w with
  | Ok (l, w') =>
      Untyped.upsert_room self now id (of_option c) (of_option lang)
        (of_world w) = Untyped.Done l (of_world w')
  | Raise e =>
      ∃ w', Untyped.upsert_room self now id (of_option c) (of_option lang)
              (of_world w) = Untyped.Failed (Untyped.Exn e) w'
  end.
Proof.
  destruct (dicts w !! _rooms self) as [m|] eqn:Hd.
  - assert (Hd' : Untyped.dicts (of_world w) !! _rooms self = Some m)
      by exact Hd.
    destruct (m !! id) as [l|] eqn:Hid.
    + destruct (objs w !! l) as [r|] eqn:Hl.
      * rewrite (upsert_room_existing_run w self m Hd now id c lang l r Hid
                   Hl).
        rewrite (upsert_existing_returns (of_world w) self m Hd' now id
                   (of_option c) (of_option lang) l (of_room r) Hid).
        -- by rewrite of_world_fresh, of_room_updated, of_world_filed.
        -- unfold of_world. cbn [Untyped.objs]. by rewrite lookup_fmap, Hl.
        -- apply of_option_str_or_falsy.
      * assert (Hl' : Untyped.objs (of_world w) !! l = None)
          by (unfold of_world; cbn [Untyped.objs]; by rewrite lookup_fmap, Hl).
        unfold upsert_room, dict_get, model_copy, mbind, M_bind, read_dict,
          read_room, mret, M_ret.
        rewrite Hd, Hid, Hl. exists (of_world w).
        unfold Untyped.upsert_room.
        rewrite (bind_done _ _ _ _ _
                   (dict_get_run (of_world w) self m Hd' id)), Hid.
        apply bind_failed. unfold Untyped.model_copy. apply bind_failed.
        unfold Untyped.read_room. by rewrite Hl'.
    + rewrite (upsert_room_new_run w self m Hd now id c lang Hid).
      rewrite (upsert_new_returns (of_world w) self m Hd' now id
                 (of_option c) (of_option lang) Hid).
      * by rewrite of_world_fresh, of_room_new, of_world_filed.
      * unfold Untyped.upsert_accepts.
        by rewrite !of_option_str_or_falsy.
  - unfold upsert_room, dict_get, mbind, M_bind, read_dict.
    rewrite Hd. exists (of_world w).
    unfold Untyped.upsert_room. apply bind_failed.
    unfold Untyped.dict_get. apply bind_failed.
    unfold Untyped.read_dict.
    change (Untyped.dicts (of_world w)) with (dicts w). by rewrite Hd.
Qed.

End ValidatedValues.


(** * More on the rooms store *)

Import Calls.

Section StoreMore.

Lemma run_op_key (w : world) (self : RoomsStore) (m : gmap string loc)
    (op : store_op) :
  store_ok w self → dicts w !! _rooms self = Some m →
  run_op self op w = Ok (None, w) ∨
  ∃ r, run_op self op w =
         Ok (Some (fresh (dom (objs w))), filed w self m (op_key op) r) ∧
       room_id r = op_key op.
Proof.
  intros Hok Hd.
  destruct (run_op_cases w self m op Hok Hd) as [Hrun|(r & Hrun & Hkey)];
    [by left|right].
  assert (Hk : room_id r = op_key op) by (rewrite Hkey; by destruct op).
  exists r. rewrite <- Hk. by split.
Qed.

Lemma get_room_run (w : world) (self : RoomsStore) (m : gmap string loc)
    (id : string) :
  dicts w !! _rooms self = Some m → get_room self id w = Ok (m !! id, w).
Proof.
  intros Hd. unfold get_room, dict_get, mbind, M_bind, read_dict, mret, M_ret.
  by rewrite Hd.
Qed.


End StoreMore.

(** X1. [get_room] is a lookup: on a store in order it returns without
    raising and without changing anything, [None] exactly when the store
    has no room under the identifier.  After a mutating call that handed
    back an object, [get_room] on the identifier of that call returns the
    same object. *)
Theorem get_room_finds_what_was_stored (w : world) (self : RoomsStore)
    (op : store_op) :
  store_ok w self →
  (∀ id, ∃ res, get_room self id w = Ok (res, w) ∧
                match res with
                | Some l => objs w !! l = room_at w self id ∧
                            is_Some (room_at w self id)
                | None => room_at w self id = None
                end) ∧
  (∀ l w', run_op self op w = Ok (Some l, w') →
           get_room self (op_key op) w' = Ok (Some l, w')).
Proof.
  intros Hok. pose proof Hok as (m & Hd & Hrooms). split.
  - intros id. exists (m !! id). split; [by apply get_room_run|].
    unfold room_at. rewrite Hd. destruct (m !! id) as [l|] eqn:Hid;
      [|reflexivity].
    destruct (Hrooms id l Hid) as (r & Hl & _). rewrite Hl. by split.
  - intros l w' Hrun.
    destruct (run_op_key w self m op Hok Hd) as [Hnone|(r & Hsome & _)];
      rewrite Hrun in *; [discriminate|].
    injection Hsome as -> ->.
    rewrite (get_room_run _ self _ (op_key op) (filed_dict w self m _ r)).
    by rewrite lookup_insert_eq.
Qed.

Lemma get_room_finds_what_was_stored_witness :
  ∃ l w',
    run_op sample_store (UpsertRoom 11 "r2" (Some "b") None) sample_world
      = Ok (Some l, w') ∧
    get_room sample_store "r2" w' = Ok (Some l, w').
Proof.
  assert (Hok : store_ok sample_world sample_store).
  { exists {[ "r1" := 0 ]}. split; [reflexivity|].
    intros k l [<- <-]%lookup_singleton_Some.
    exists sample_room. split; reflexivity. }
  destruct (get_room_finds_what_was_stored sample_world sample_store
              (UpsertRoom 11 "r2" (Some "b") None) Hok) as [_ Hget].
  eexists _, _. split; [vm_compute; reflexivity|].
  apply (Hget _ _). vm_compute. reflexivity.
Defined.

(** X2. A mutating call touches one identifier only: the room the store
    holds under any other identifier is the same before and after. *)
Theorem ops_leave_other_rooms (w w' : world) (self : RoomsStore)
    (op : store_op) (res : option loc) :
  store_ok w self → run_op self op w = Ok (res, w') →
  ∀ k, k ≠ op_key op → room_at w' self k = room_at w self k.
Proof.
  intros Hok Hrun k Hk. pose proof Hok as (m & Hd & _).
  destruct (run_op_key w self m op Hok Hd) as [Hnone|(r & Hsome & _)];
    rewrite Hrun in *.
  - by injection Hnone as _ ->.
  - injection Hsome as _ ->. by apply filed_room_at_other.
Qed.

Lemma ops_leave_other_rooms_witness :
  ∃ res w',
    run_op sample_store (UpsertRoom 11 "r2" (Some "b") None) sample_world
      = Ok (res, w') ∧
    room_at w' sample_store "r1" = room_at sample_world sample_store "r1".
Proof.
  assert (Hok : store_ok sample_world sample_store).
  { exists {[ "r1" := 0 ]}. split; [reflexivity|].
    intros k l [<- <-]%lookup_singleton_Some.
    exists sample_room. split; reflexivity. }
  eexists _, _. split; [vm_compute; reflexivity|].
  eapply (ops_leave_other_rooms sample_world _ sample_store
            (UpsertRoom 11 "r2" (Some "b") None) _ Hok);
    [vm_compute; reflexivity|discriminate].
Defined.

(** X3. The store never writes to an object it has handed out, never
    frees one, never touches a dictionary other than its own and never
    writes on the wire: over any sequence of mutating calls, every object
    that existed keeps its fields.  A reference obtained before an update
    therefore still reads the room as it was. *)
Theorem store_never_alters_existing_objects (self : RoomsStore)
    (ops : list store_op) (w w' : world) :
  store_ok w self → run_ops self ops w = Ok (tt, w') →
  (∀ l r, objs w !! l = Some r → objs w' !! l = Some r) ∧
  (∀ d, d ≠ _rooms self → dicts w' !! d = dicts w !! d) ∧
  sent w' = sent w.
Proof.
  revert w. induction ops as [|op ops IH]; intros w Hok Hrun.
  { injection Hrun as <-. auto. }
  pose proof Hok as (m & Hd & _). cbn [run_ops] in Hrun.
  unfold mbind, M_bind in Hrun.
  destruct (run_op_key w self m op Hok Hd) as [Hop|(r & Hop & Hr)];
    rewrite Hop in Hrun.
  - by apply IH.
  - destruct (IH _ (filed_store_ok w self m Hd _ r Hok Hr) Hrun)
      as (Hobjs & Hdicts & Hsent).
    split; [|split].
    + intros l r0 Hl. apply Hobjs.
      exact (filed_old_object w self m (op_key op) r r0 l Hl).
    + intros d Hne. rewrite (Hdicts d Hne). by apply filed_other_dict.
    + exact Hsent.
Qed.

Lemma store_never_alters_existing_objects_witness :
  ∃ w',
    run_ops sample_store
      [UpdateRoom 11 "r1" (Some "b") None; CreateRoom 7 12 "c" None]
      sample_world = Ok (tt, w') ∧
    room_at w' sample_store "r1" = Some (mkRoomState "r1" "b" "python" 11) ∧
    objs w' !! 0%nat = Some sample_room.
Proof.
  assert (Hok : store_ok sample_world sample_store).
  { exists {[ "r1" := 0 ]}. split; [reflexivity|].
    intros k l [<- <-]%lookup_singleton_Some.
    exists sample_room. split; reflexivity. }
  eexists. split; [vm_compute; reflexivity|].
  split; [vm_compute; reflexivity|].
  eapply (store_never_alters_existing_objects sample_store
            [UpdateRoom 11 "r1" (Some "b") None; CreateRoom 7 12 "c" None]
            sample_world _ Hok); [vm_compute; reflexivity|reflexivity].
Defined.

Lemma filed_room_at_cases (w : world) (self : RoomsStore)
    (m : gmap string loc) (id k : string) (r : RoomState) :
  store_ok w self → dicts w !! _rooms self = Some m →
  room_at (filed w self m id r) self k =
    if decide (k = id) then Some r else room_at w self k.
Proof.
  intros Hok Hd. destruct (decide (k = id)) as [->|Hne].
  - by apply filed_room_at.
  - by apply filed_room_at_other.
Qed.

(** X4. Rooms are never removed: over any sequence of mutating calls, an
    identifier that had a room still has one, filed under that identifier.
    And [update_room] alone never adds an identifier. *)
Theorem rooms_are_never_removed (self : RoomsStore) (ops : list store_op)
    (w w' : world) :
  store_ok w self → run_ops self ops w = Ok (tt, w') →
  (∀ k, is_Some (room_at w self k) →
        ∃ r, room_at w' self k = Some r ∧ room_id r = k) ∧
  (∀ now id c lang res w1,
     update_room self now id c lang w = Ok (res, w1) →
     ∀ k, is_Some (room_at w1 self k) ↔ is_Some (room_at w self k)).
Proof.
  intros Hok Hrun. split.
  - revert w Hok Hrun. induction ops as [|op ops IH]; intros w Hok Hrun k Hk.
    + injection Hrun as <-. destruct Hk as [r Hr]. exists r.
      split; [exact Hr|]. destruct Hok as (m & Hd & Hrooms).
      unfold room_at in Hr. rewrite Hd in Hr.
      destruct (m !! k) as [l|] eqn:Hl; [|discriminate].
      destruct (Hrooms k l Hl) as (r0 & Hr0 & Hid). congruence.
    + pose proof Hok as (m & Hd & _). cbn [run_ops] in Hrun.
      unfold mbind, M_bind in Hrun.
      destruct (run_op_key w self m op Hok Hd) as [Hop|(r & Hop & Hr)];
        rewrite Hop in Hrun.
      * by apply (IH w).
      * apply (IH _ (filed_store_ok w self m Hd _ r Hok Hr) Hrun).
        rewrite (filed_room_at_cases w self m _ k r Hok Hd).
        by destruct (decide (k = op_key op)).
  - intros now id c lang res w1 Hupd k. pose proof Hok as (m & Hd & Hrooms).
    destruct (run_op_key w self m (UpdateRoom now id c lang) Hok Hd)
      as [Hop|(r & Hop & Hr)]; cbn [run_op] in Hop; rewrite Hupd in Hop.
    + by injection Hop as _ ->.
    + injection Hop as Hres Hw1. subst res w1. cbn [op_key].
      rewrite (filed_room_at_cases w self m _ k r Hok Hd).
      destruct (decide (k = id)) as [->|]; [|reflexivity].
      split; [intros _|by eauto].
      destruct (m !! id) as [l|] eqn:Hid.
      * destruct (Hrooms id l Hid) as (r0 & Hl & _).
        unfold room_at. rewrite Hd, Hid, Hl. by eauto.
      * rewrite (update_room_missing_run w self m Hd now id c lang Hid)
          in Hupd. discriminate.
Qed.

Lemma rooms_are_never_removed_witness :
  ∃ w' r,
    run_ops sample_store
      [UpsertRoom 11 "r2" None None; UpdateRoom 12 "r1" None (Some "ts")]
      sample_world = Ok (tt, w') ∧
    room_at w' sample_store "r1" = Some r ∧ room_id r = "r1".
Proof.
  assert (Hok : store_ok sample_world sample_store).
  { exists {[ "r1" := 0 ]}. split; [reflexivity|].
    intros k l [<- <-]%lookup_singleton_Some.
    exists sample_room. split; reflexivity. }
  assert (Hrun : ∃ w', run_ops sample_store
      [UpsertRoom 11 "r2" None None; UpdateRoom 12 "r1" None (Some "ts")]
      sample_world = Ok (tt, w')) by (eexists; vm_compute; reflexivity).
  destruct Hrun as [w' Hrun].
  destruct (rooms_are_never_removed sample_store _ sample_world w' Hok Hrun)
    as [Hkeep _].
  destruct (Hkeep "r1") as (r & Hr & Hid); [eexists; reflexivity|].
  exists w', r. split; [exact Hrun|]. by split.
Defined.

(** X5. Two updates of a room in a row: each field ends up with the value
    the second call supplied, else the one the first call supplied, else
    the original; the time stamp is the second call's clock reading. *)
Theorem successive_updates_last_writer_wins (w : world) (self : RoomsStore)
    (m : gmap string loc) (now1 now2 : timestamp) (id : string)
    (c1 lang1 c2 lang2 : option string) (l : loc) (r : RoomState) :
  dicts w !! _rooms self = Some m → m !! id = Some l → objs w !! l = Some r →
  ∃ la lb w1 w2 r2,
    update_room self now1 id c1 lang1 w = Ok (Some la, w1) ∧
    update_room self now2 id c2 lang2 w1 = Ok (Some lb, w2) ∧
    room_at w2 self id = Some r2 ∧
    room_id r2 = room_id r ∧
    code r2 = match c2, c1 with
              | Some t, _ => t
              | None, Some t => t
              | None, None => code r
              end ∧
    language r2 = match lang2, lang1 with
                  | Some _, _ => normalized lang2
                  | None, Some _ => normalized lang1
                  | None, None => language r
                  end ∧
    last_updated r2 = now2.
Proof.
  intros Hd Hid Hl.
  set (r1 := updated r now1 c1 lang1).
  set (w1 := filed w self m id r1).
  exists (fresh (dom (objs w))), (fresh (dom (objs w1))), w1,
    (filed w1 self (<[id := fresh (dom (objs w))]> m) id
       (updated r1 now2 c2 lang2)),
    (updated r1 now2 c2 lang2).
  split; [by eapply update_room_existing_run|].
  split.
  { eapply update_room_existing_run.
    - apply filed_dict.
    - apply lookup_insert_eq.
    - apply filed_new_object. }
  split; [apply filed_room_at|]. split; [reflexivity|].
  split; [by destruct c2, c1|]. split; [by destruct lang2, lang1|reflexivity].
Qed.

Lemma successive_updates_last_writer_wins_witness :
  ∃ la lb w1 w2,
    update_room sample_store 11 "r1" (Some "b") (Some "JS") sample_world
      = Ok (Some la, w1) ∧
    update_room sample_store 12 "r1" (Some "c") None w1 = Ok (Some lb, w2) ∧
    room_at w2 sample_store "r1"
      = Some (mkRoomState "r1" "c" "javascript" 12).
Proof.
  destruct (successive_updates_last_writer_wins sample_world sample_store
              {[ "r1" := 0 ]} 11 12 "r1" (Some "b") (Some "JS") (Some "c")
              None 0 sample_room)
    as (la & lb & w1 & w2 & r2 & H1 & H2 & Hat & Hid & Hc & Hlg & Hts);
    [reflexivity|reflexivity|reflexivity|].
  exists la, lb, w1, w2. split; [exact H1|]. split; [exact H2|].
  rewrite Hat. f_equal. destruct r2 as [i c lg ts]. cbn in *.
  by rewrite Hid, Hc, Hlg, Hts.
Defined.

Lemma set_code_run (w : world) (l : loc) (r : RoomState) (c : string) :
  objs w !! l = Some r →
  set_code l c w =
    Ok (tt, mkWorld (<[l := with_code c r]> (objs w)) (dicts w) (sent w)).
Proof.
  intros Hl. unfold set_code, mbind, M_bind, read_room, write_room.
  by rewrite Hl, Hl.
Qed.

(** X6. [get_room] and [create_room] hand out the stored object itself, not
    a copy: assigning to [code] through the reference changes the room the
    store holds.  Once [update_room] has replaced the stored object by its
    updated copy, the old reference is detached: assigning through it
    changes the old object and leaves the store's room alone. *)
Theorem references_alias_until_replaced (w : world) (self : RoomsStore)
    (m : gmap string loc) (id : string) (l : loc) (r : RoomState)
    (c : string) :
  store_ok w self →
  dicts w !! _rooms self = Some m → m !! id = Some l → objs w !! l = Some r →
  get_room self id w = Ok (Some l, w) ∧
  (∃ w2, set_code l c w = Ok (tt, w2) ∧
         room_at w2 self id = Some (with_code c r)) ∧
  (∀ u now c0 lang, ∃ l0 w1 w2 r0,
     create_room self u now c0 lang w = Ok (l0, w1) ∧
     objs w1 !! l0 = Some r0 ∧
     set_code l0 c w1 = Ok (tt, w2) ∧
     room_at w2 self (generate_room_id u) = Some (with_code c r0)) ∧
  (∀ now c' lang, ∃ l' w1 w2,
     update_room self now id c' lang w = Ok (Some l', w1) ∧
     set_code l c w1 = Ok (tt, w2) ∧
     objs w2 !! l = Some (with_code c r) ∧
     room_at w2 self id = room_at w1 self id).
Proof.
  intros Hok Hd Hid Hl.
  split; [rewrite (get_room_run w self m id Hd); by rewrite Hid|].
  split; [|split].
  - eexists. split; [by apply set_code_run|].
    unfold room_at. cbn [objs dicts]. rewrite Hd, Hid. apply lookup_insert_eq.
  - intros u now c0 lang. eexists _, _, _, _.
    split; [by apply create_room_run|].
    split; [apply filed_new_object|].
    split; [apply set_code_run, filed_new_object|].
    unfold room_at. cbn [objs dicts]. rewrite filed_dict, lookup_insert_eq.
    apply lookup_insert_eq.
  - intros now c' lang.
    set (w1 := filed w self m id (updated r now c' lang)).
    assert (Hl1 : objs w1 !! l = Some r) by (by apply filed_old_object).
    eexists _, w1, _.
    split; [by eapply update_room_existing_run|].
    split; [by apply set_code_run|].
    split; [cbn [objs]; apply lookup_insert_eq|].
    unfold room_at. cbn [objs dicts]. unfold w1 at 1 3.
    rewrite filed_dict, lookup_insert_eq. apply lookup_insert_ne.
    intros Heq. pose proof (fresh_object_unused w) as Hfresh.
    rewrite <- Heq, Hl in Hfresh. discriminate.
Qed.

Lemma references_alias_until_replaced_witness :
  ∃ w2, set_code 0 "x" sample_world = Ok (tt, w2) ∧
        room_at w2 sample_store "r1"
          = Some (mkRoomState "r1" "x" "python" 10).
Proof.
  destruct (references_alias_until_replaced sample_world sample_store
              {[ "r1" := 0 ]} "r1" 0 sample_room "x")
    as (_ & (w2 & Hset & Hat) & _).
  - exists {[ "r1" := 0 ]}. split; [reflexivity|].
    intros k l [<- <-]%lookup_singleton_Some.
    exists sample_room. split; reflexivity.
  - reflexivity.
  - reflexivity.
  - reflexivity.
  - exists w2. split; [exact Hset|exact Hat].
Defined.


(** * More on the room websocket *)

Section WebsocketInbox.
Import Untyped Replies.

Lemma is_str_true (v : json) (s : string) : is_str v s = true → v = JStr s.
Proof.
  destruct v; try discriminate. cbn [is_str].
  by intros ->%bool_decide_eq_true_1.
Qed.

Lemma is_str_false (v : json) (s : string) : is_str v s = false → v ≠ JStr s.
Proof.
  intros Hv ->. cbn [is_str] in Hv.
  by rewrite bool_decide_eq_true_2 in Hv.
Qed.

(** A ["get"] turn. *)
Lemma get_turn_run (w : world) (store : RoomsStore) (m : gmap string loc)
    (ws : conn) (rid : string) (now : timestamp)
    (fields : list (string * json)) :
  store_ok w store → dicts w !! _rooms store = Some m →
  field "action" fields = JStr "get" →
  ∃ w' r,
    room_websocket_turn store ws rid now (JObj fields) w = Done tt w' ∧
    sent w' = sent w ++ [(ws, Snapshot r)] ∧
    room_at w' store rid = Some r ∧
    store_ok w' store ∧ room_id r = rid ∧
    match m !! rid with
    | Some l => objs w !! l = Some r ∧ objs w' = objs w ∧ dicts w' = dicts w
    | None => r = mkRoomState rid (JStr EmptyString) "python" now
    end.
Proof.
  intros Hok Hd Hact. pose proof Hok as (m' & Hm' & Hrooms).
  rewrite Hd in Hm'. injection Hm' as <-.
  unfold room_websocket_turn, get.
  erewrite bind_done by reflexivity. rewrite Hact.
  change (is_str (JStr "get") "get") with true. cbv iota.
  rewrite (bind_done _ _ _ _ _ (untyped_get_room_run w store m Hd rid)).
  destruct (m !! rid) as [l|] eqn:Hid.
  - destruct (Hrooms rid l Hid) as (r & Hl & Hr).
    erewrite bind_done by reflexivity.
    rewrite (send_room_run ws l r w Hl).
    eexists _, r. split; [reflexivity|]. split; [reflexivity|].
    split; [unfold room_at; cbn [objs dicts]; by rewrite Hd, Hid|].
    split; [exact Hok|]. split; [exact Hr|]. by split.
  - rewrite (bind_done _ _ _ _ _
               (upsert_new_returns w store m Hd now rid JNull JNull Hid
                  eq_refl)).
    rewrite (send_room_run ws _ _ _
               (untyped_filed_new_object w store m rid _)).
    eexists _, _. split; [reflexivity|]. split; [reflexivity|].
    split; [apply untyped_filed_room_at|].
    split; [by apply (untyped_filed_store_ok w store m Hd)|].
    split; reflexivity.
Qed.

(** X8. A ["get"] on a room the store holds sends that room as it is and
    changes nothing else; on a room the store does not hold it first
    creates the room with empty code, language ["python"] and the current
    clock reading, and sends that.  This is so for every JSON object whose
    action is ["get"], whatever else it holds. *)
Theorem websocket_get_reads_or_creates (w : world) (store : RoomsStore)
    (m : gmap string loc) (ws : conn) (rid : string) (now : timestamp)
    (fields : list (string * json)) :
  store_ok w store → dicts w !! _rooms store = Some m →
  field "action" fields = JStr "get" →
  ∃ w' r,
    room_websocket_turn store ws rid now (JObj fields) w = Done tt w' ∧
    sent w' = sent w ++ [(ws, Snapshot r)] ∧
    room_at w' store rid = Some r ∧
    match m !! rid with
    | Some l => objs w !! l = Some r ∧ objs w' = objs w ∧ dicts w' = dicts w
    | None => r = mkRoomState rid (JStr EmptyString) "python" now
    end.
Proof.
  intros Hok Hd Hact.
  destruct (get_turn_run w store m ws rid now fields Hok Hd Hact)
    as (w' & r & Hrun & Hsent & Hat & _ & _ & Hr).
  by exists w', r.
Qed.

Lemma websocket_get_reads_or_creates_witness :
  ∃ w',
    room_websocket_turn sample_store 1 "r2" 11
      (JObj [("action", JStr "get"); ("code", JInt 7)]) sample_world
      = Done tt w' ∧
    sent w' =
      [(1%nat, Snapshot (mkRoomState "r2" (JStr EmptyString) "python" 11))].
Proof.
  destruct (websocket_get_reads_or_creates sample_world sample_store
              {[ "r1" := 0 ]} 1 "r2" 11
              [("action", JStr "get"); ("code", JInt 7)])
    as (w' & r & Hrun & Hsent & _ & Hr).
  - exact sample_store_ok.
  - reflexivity.
  - reflexivity.
  - exists w'. split; [exact Hrun|]. rewrite Hsent.
    change ({[ "r1" := 0 ]} !! "r2") with (@None loc) in Hr. by rewrite Hr.
Defined.

(** One turn of the loop on a frame: if the frame is accepted the turn
    returns, having written one reply that fits the frame; if not it raises
    and has written nothing. *)
Lemma room_websocket_turn_outcome (w : world) (store : RoomsStore)
    (ws : conn) (rid : string) (now : timestamp) (fr : frame) :
  store_ok w store →
  if accepts (held w store rid) fr then
    ∃ w' p,
      (data ← receive_json fr; room_websocket_turn store ws rid now data) w
        = Done tt w' ∧
      store_ok w' store ∧ sent w' = sent w ++ [(ws, p)] ∧
      answers rid fr p ∧
      held w' store rid = held w store rid || requests_room fr
  else
    ∃ w',
      (data ← receive_json fr; room_websocket_turn store ws rid now data) w
        = Failed (failure fr) w' ∧
      same_rooms w w'.
Proof.
  intros Hok. pose proof Hok as (m & Hd & Hrooms).
  destruct fr as [data|];
    [|exists w; split; [reflexivity|apply same_rooms_refl]].
  destruct data as [| | | | | |fields];
    try (exists w; split; [reflexivity|apply same_rooms_refl]).
  erewrite bind_done by reflexivity.
  cbn [accepts failure requests_room].
  destruct (is_str (field "action" fields) "get") eqn:Hget.
  { apply is_str_true in Hget.
    destruct (get_turn_run w store m ws rid now fields Hok Hd Hget)
      as (w' & r & Hrun & Hsent & Hat & Hok' & Hr & _).
    exists w', (Snapshot r). split; [exact Hrun|]. split; [exact Hok'|].
    split; [exact Hsent|].
    split; [exists fields; split; [reflexivity|]; split; [exact Hr|by left]|].
    unfold held at 1. rewrite Hat. by rewrite orb_true_r. }
  destruct (is_str (field "action" fields) "update") eqn:Hupd.
  - apply is_str_true in Hupd. rewrite (update_turn _ _ _ _ _ _ Hupd).
    pose proof (upsert_outcome w store m now rid (field "code" fields)
                  (field "language" fields) Hok Hd) as Hups.
    destruct (upsert_accepts _ _ _).
    + destruct Hups as (r & Hups & Hr).
      rewrite (bind_done _ _ _ _ _ Hups).
      rewrite (send_room_run ws _ r _
                 (untyped_filed_new_object w store m rid r)).
      eexists _, (Snapshot r). split; [reflexivity|].
      split; [exact (untyped_filed_store_ok w store m Hd rid r Hok Hr)|].
      split; [reflexivity|].
      split;
        [exists fields; split; [reflexivity|]; split; [exact Hr|by right]|].
      rewrite orb_true_r. unfold held, room_at. cbn [objs dicts].
      unfold filed. cbn [objs dicts]. by rewrite !lookup_insert_eq.
    + destruct Hups as (w' & Hups & Hsame).
      exists w'. split; [by rewrite (bind_failed _ _ _ _ _ Hups)|exact Hsame].
  - apply is_str_false in Hget. apply is_str_false in Hupd.
    unfold room_websocket_turn, get. erewrite bind_done by reflexivity.
    destruct (is_str (field "action" fields) "get") eqn:Hget';
      [by apply is_str_true in Hget'|].
    destruct (is_str (field "action" fields) "update") eqn:Hupd';
      [by apply is_str_true in Hupd'|].
    eexists _, (UnknownAction (field "action" fields)).
    split; [reflexivity|]. split; [exact Hok|]. split; [reflexivity|].
    split; [exists fields; by repeat split|].
    by rewrite orb_false_r.
Qed.

(** A frame that is accepted when the store does not hold the room is
    accepted when it does. *)
Lemma accepts_held (held : bool) (fr : frame) :
  accepts false fr = true → accepts held fr = true.
Proof.
  destruct fr as [[| | | | | |fields]|]; try discriminate.
  cbn [accepts]. destruct (is_str _ "get"); [reflexivity|].
  destruct (is_str _ "update"); [|reflexivity].
  unfold upsert_accepts. intros [-> Hc]%andb_true_iff. cbn in Hc.
  by rewrite Hc, orb_true_r.
Qed.

Lemma well_typed_served (held : bool) (inbox : list (timestamp * frame)) :
  Forall (λ nd, well_typed nd.2 = true) inbox →
  served held inbox = inbox ∧ rejected held inbox = None.
Proof.
  intros Hall. revert held.
  induction Hall as [|[now fr] inbox Hfr _ IH]; intros held; [by split|].
  cbn [served rejected]. rewrite (accepts_held held fr Hfr).
  destruct (IH (held || requests_room fr)) as [-> ->]. by split.
Qed.

(** X9. The handler answers the frames of its inbox in order, one reply
    each, on its own connection: a snapshot of a room with the identifier
    of its path for a ["get"] and an ["update"], the error naming the
    action for any other JSON object.  It does so up to the first frame it
    does not accept: one that is not JSON, JSON that is not an object, or
    an ["update"] that [upsert_room] raises on.  There it ends with that
    exception, having written nothing for the frame, and the rest of the
    inbox is not read.  If every frame is accepted it returns when the
    connection closes; that is so of every inbox of JSON objects in which
    the code and the language of each ["update"] are a [str] or falsy.  The
    store is in order afterwards either way. *)
Theorem room_websocket_answers_until_it_raises (store : RoomsStore)
    (ws : conn) (rid : string) (inbox : list (timestamp * frame))
    (w : world) :
  store_ok w store →
  let start := held w store rid in
  let out := room_websocket store ws rid inbox w in
  (∃ ps,
     sent (after out) = sent w ++ ((λ p, (ws, p)) <$> ps) ∧
     Forall2 (λ nd p, answers rid nd.2 p) (served start inbox) ps) ∧
  store_ok (after out) store ∧
  match rejected start inbox with
  | None => out = Done tt (after out) ∧ served start inbox = inbox
  | Some fr => out = Failed (failure fr) (after out)
  end ∧
  (Forall (λ nd, well_typed nd.2 = true) inbox →
   rejected start inbox = None).
Proof.
  intros Hok. cbv zeta.
  split; [|split; [|split]]; [| | |intros Hall; by apply well_typed_served].
  - revert w Hok. induction inbox as [|[now fr] inbox IH]; intros w Hok.
    { exists []. split; [by rewrite app_nil_r|constructor]. }
    cbn [room_websocket served].
    pose proof (room_websocket_turn_outcome w store ws rid now fr Hok) as Ht.
    destruct (accepts (held w store rid) fr).
    + destruct Ht as (w1 & p & Hturn & Hok1 & Hsent1 & Hp & Hheld).
      destruct (IH w1 Hok1) as (ps & Hsent & Hps).
      exists (p :: ps). rewrite <- Hheld.
      unfold mbind, M_bind in Hturn |- *.
      destruct (receive_json fr w) as [data w0|e w0]; [|discriminate].
      rewrite Hturn. unfold mbind, M_bind in Hsent. rewrite Hsent, Hsent1.
      split; [by rewrite fmap_cons, <- app_assoc|by constructor].
    + destruct Ht as (w1 & Hturn & Hsame). exists [].
      unfold mbind, M_bind in Hturn |- *.
      destruct (receive_json fr w) as [data w0|e w0].
      * rewrite Hturn. cbn [after]. split; [|constructor].
        rewrite app_nil_r. apply Hsame.
      * injection Hturn as -> ->. cbn [after]. split; [|constructor].
        rewrite app_nil_r. apply Hsame.
  - revert w Hok. induction inbox as [|[now fr] inbox IH]; intros w Hok.
    { exact Hok. }
    cbn [room_websocket].
    pose proof (room_websocket_turn_outcome w store ws rid now fr Hok) as Ht.
    destruct (accepts (held w store rid) fr).
    + destruct Ht as (w1 & p & Hturn & Hok1 & _).
      unfold mbind, M_bind in Hturn |- *.
      destruct (receive_json fr w) as [data w0|e w0]; [|discriminate].
      rewrite Hturn. exact (IH w1 Hok1).
    + destruct Ht as (w1 & Hturn & Hsame).
      unfold mbind, M_bind in Hturn |- *.
      destruct (receive_json fr w) as [data w0|e w0].
      * rewrite Hturn. cbn [after]. by apply (same_rooms_store_ok w).
      * injection Hturn as -> ->. cbn [after].
        by apply (same_rooms_store_ok w).
  - revert w Hok. induction inbox as [|[now fr] inbox IH]; intros w Hok.
    { by split. }
    cbn [room_websocket served rejected].
    pose proof (room_websocket_turn_outcome w store ws rid now fr Hok) as Ht.
    destruct (accepts (held w store rid) fr).
    + destruct Ht as (w1 & p & Hturn & Hok1 & _ & _ & Hheld).
      unfold mbind, M_bind in Hturn |- *.
      destruct (receive_json fr w) as [data w0|e w0]; [|discriminate].
      rewrite Hturn, <- Hheld. specialize (IH w1 Hok1).
      unfold mbind, M_bind in IH.
      destruct (rejected (held w1 store rid) inbox).
      * exact IH.
      * destruct IH as [IH ->]. by split.
    + destruct Ht as (w1 & Hturn & Hsame).
      unfold mbind, M_bind in Hturn |- *.
      destruct (receive_json fr w) as [data w0|e w0].
      * by rewrite Hturn.
      * by injection Hturn as -> ->.
Qed.

Lemma room_websocket_answers_until_it_raises_witness :
  ∃ w' ps,
    room_websocket sample_store 1 "r1"
      [(11%Z, Text (JObj [("action", JStr "ping")]));
       (12%Z, Text (JObj [("action", JStr "update"); ("code", JInt 7)]));
       (13%Z, Text (JObj [("action", JStr "update"); ("language", JInt 5)]));
       (14%Z, Text (JObj [("action", JStr "get")]))] sample_world
      = Failed AttributeError w' ∧
    sent w' = (λ p, (1%nat, p)) <$> ps ∧ length ps = 2%nat.
Proof.
  destruct (room_websocket_answers_until_it_raises sample_store 1 "r1"
              [(11%Z, Text (JObj [("action", JStr "ping")]));
               (12%Z, Text (JObj [("action", JStr "update");
                                  ("code", JInt 7)]));
               (13%Z, Text (JObj [("action", JStr "update");
                                  ("language", JInt 5)]));
               (14%Z, Text (JObj [("action", JStr "get")]))]
              sample_world sample_store_ok)
    as ((ps & Hsent & Hps) & _ & Hout & _).
  eexists _, ps. split; [exact Hout|]. split; [exact Hsent|].
  symmetry. exact (Forall2_length _ _ _ Hps).
Defined.

End WebsocketInbox.

(** * The request/response routes *)

Section Routes.

Lemma respond_room_run (code : nat) (l : loc) (r : RoomState) (w : world) :
  objs w !! l = Some r →
  Api.respond_room code (Api.Returned l) w
    = Ok (Api.mkResponse code (Api.RoomBody r), w).
Proof.
  intros Hl. unfold Api.respond_room, mbind, M_bind, read_room, mret, M_ret.
  by rewrite Hl.
Qed.

Lemma GET_room_found (w : world) (store : RoomsStore) (m : gmap string loc)
    (id : string) (l : loc) (r : RoomState) :
  dicts w !! _rooms store = Some m → m !! id = Some l → objs w !! l = Some r →
  Api.GET_room store id w
    = Ok (Api.mkResponse Api.HTTP_200_OK (Api.RoomBody r), w).
Proof.
  intros Hd Hid Hl. unfold Api.GET_room, Api.get_room.
  unfold mbind at 1 2. unfold M_bind at 1 2.
  rewrite (get_room_run w store m id Hd), Hid. unfold mret, M_ret.
  by apply respond_room_run.
Qed.

Lemma extra_object_store_ok (w : world) (store : RoomsStore) (r : RoomState) :
  store_ok w store →
  store_ok (mkWorld (<[fresh (dom (objs w)) := r]> (objs w)) (dicts w) (sent w))
    store.
Proof.
  intros (m & Hd & Hrooms). exists m. split; [exact Hd|].
  intros k l Hk. destruct (Hrooms k l Hk) as (r0 & Hl & Hid).
  exists r0. split; [|exact Hid]. cbn [objs].
  rewrite lookup_insert_ne; [exact Hl|].
  intros Heq. rewrite <- Heq, fresh_object_unused in Hl. discriminate.
Qed.

End Routes.

(** X10. On an identifier the store does not hold, both [GET /rooms/{id}]
    and [PATCH /rooms/{id}] answer 404 with a detail naming the identifier
    and leave the world exactly as it was: the request/response surface
    never creates a room on the side. *)
Theorem unknown_room_is_404 (w : world) (store : RoomsStore)
    (m : gmap string loc) (id : string) :
  dicts w !! _rooms store = Some m → m !! id = None →
  Api.GET_room store id w
    = Ok (Api.mkResponse 404
            (Api.DetailBody ("Room '" ++ id ++ "' not found")%string), w) ∧
  ∀ now payload,
    Api.PATCH_room store now id payload w
      = Ok (Api.mkResponse 404
              (Api.DetailBody ("Room '" ++ id ++ "' not found")%string), w).
Proof.
  intros Hd Hid. split.
  - unfold Api.GET_room, Api.get_room.
    unfold mbind at 1 2. unfold M_bind at 1 2.
    by rewrite (get_room_run w store m id Hd), Hid.
  - intros now payload. unfold Api.PATCH_room, Api.update_room.
    unfold mbind at 1 2. unfold M_bind at 1 2.
    by rewrite (update_room_missing_run w store m Hd now id _ _ Hid).
Qed.

Lemma unknown_room_is_404_witness :
  Api.GET_room sample_store "doesnotexist" sample_world
    = Ok (Api.mkResponse 404 (Api.DetailBody "Room 'doesnotexist' not found"),
          sample_world).
Proof.
  apply (unknown_room_is_404 sample_world sample_store {[ "r1" := 0 ]}
           "doesnotexist"); reflexivity.
Defined.

(** X11. [POST /rooms] answers 201 with the new room: the generated
    identifier, the code of the request, its language normalised (always
    one of the seven) and the clock reading.  A [GET /rooms/{id}] with the
    identifier of that answer then returns 200 with the same room. *)
Theorem post_then_get_round_trip (w : world) (store : RoomsStore) (u : N)
    (now : timestamp) (payload : Api.RoomCreateRequest) :
  store_ok w store →
  ∃ w1 r,
    Api.POST_rooms store u now payload w
      = Ok (Api.mkResponse 201 (Api.RoomBody r), w1) ∧
    r = mkRoomState (generate_room_id u) (Api.create_code payload)
          (normalized (Api.create_language payload)) now ∧
    language r ∈ Language_values ∧
    store_ok w1 store ∧
    Api.GET_room store (room_id r) w1
      = Ok (Api.mkResponse 200 (Api.RoomBody r), w1).
Proof.
  intros Hok. pose proof Hok as (m & Hd & _).
  set (id := generate_room_id u).
  set (r := mkRoomState id (Api.create_code payload)
              (normalized (Api.create_language payload)) now).
  set (wf := filed w store m id r).
  set (w1 := mkWorld (<[fresh (dom (objs wf)) := r]> (objs wf)) (dicts wf)
               (sent wf)).
  assert (Hokf : store_ok wf store) by (by apply filed_store_ok).
  assert (Hl0 : objs wf !! fresh (dom (objs w)) = Some r)
    by apply filed_new_object.
  exists w1, r. split.
  { unfold Api.POST_rooms, Api.create_room.
    unfold mbind at 1 2. unfold M_bind at 1 2.
    rewrite (create_room_run w store m Hd).
    unfold mbind at 1. unfold M_bind at 1. unfold read_room at 1.
    fold id r wf. rewrite Hl0. unfold mbind, M_bind, new_room, mret, M_ret.
    fold w1. apply respond_room_run. cbn [w1 objs]. apply lookup_insert_eq. }
  split; [reflexivity|]. split; [apply normalized_in_Language|].
  split; [by apply extra_object_store_ok|].
  apply (GET_room_found w1 store (<[id := fresh (dom (objs w))]> m) id
           (fresh (dom (objs w)))).
  - exact (filed_dict w store m id r).
  - apply lookup_insert_eq.
  - cbn [w1 objs]. rewrite lookup_insert_ne; [exact Hl0|].
    intros Heq. rewrite <- Heq, fresh_object_unused in Hl0. discriminate.
Qed.

Lemma post_then_get_round_trip_witness :
  ∃ w1,
    Api.POST_rooms sample_store collision_draw 11
      (Api.mkRoomCreateRequest "x" (Some "JS")) sample_world
      = Ok (Api.mkResponse 201
              (Api.RoomBody (mkRoomState "1234abcd" "x" "javascript" 11)), w1) ∧
    Api.GET_room sample_store "1234abcd" w1
      = Ok (Api.mkResponse 200
              (Api.RoomBody (mkRoomState "1234abcd" "x" "javascript" 11)), w1).
Proof.
  destruct (post_then_get_round_trip sample_world sample_store collision_draw
              11 (Api.mkRoomCreateRequest "x" (Some "JS")))
    as (w1 & r & Hpost & Hr & _ & _ & Hget).
  - exists {[ "r1" := 0 ]}. split; [reflexivity|].
    intros k l [<- <-]%lookup_singleton_Some.
    exists sample_room. split; reflexivity.
  - exists w1. subst r. split; [exact Hpost|exact Hget].
Defined.

(** X12. [PATCH /rooms/{id}] on a room the store holds answers 200 with the
    room after a partial update: a field absent from the request keeps its
    value, a language in the request is normalised, [last_updated] is the
    clock reading.  A [GET /rooms/{id}] afterwards returns the same room. *)
Theorem patch_then_get_round_trip (w : world) (store : RoomsStore)
    (m : gmap string loc) (now : timestamp) (id : string)
    (payload : Api.RoomUpdateRequest) (l : loc) (r : RoomState) :
  dicts w !! _rooms store = Some m → m !! id = Some l → objs w !! l = Some r →
  ∃ w1 r',
    Api.PATCH_room store now id payload w
      = Ok (Api.mkResponse 200 (Api.RoomBody r'), w1) ∧
    Api.GET_room store id w1 = Ok (Api.mkResponse 200 (Api.RoomBody r'), w1) ∧
    room_id r' = room_id r ∧
    code r' = match Api.update_code payload with
              | Some t => t
              | None => code r
              end ∧
    match Api.update_language payload with
    | Some s => normalize_language (Some s) = Ok (language r')
    | None => language r' = language r
    end ∧
    last_updated r' = now.
Proof.
  intros Hd Hid Hl.
  set (r' := updated r now (Api.update_code payload)
               (Api.update_language payload)).
  exists (filed w store m id r'), r'. split.
  { unfold Api.PATCH_room, Api.update_room.
    unfold mbind at 1 2. unfold M_bind at 1 2.
    rewrite (update_room_existing_run w store m Hd now id _ _ l r Hid Hl).
    unfold mret, M_ret. apply respond_room_run, filed_new_object. }
  split.
  { apply (GET_room_found _ store (<[id := fresh (dom (objs w))]> m) id
             (fresh (dom (objs w)))).
    - apply filed_dict.
    - apply lookup_insert_eq.
    - apply filed_new_object. }
  split; [reflexivity|]. split; [reflexivity|]. split; [|reflexivity].
  cbn [r' updated language]. destruct (Api.update_language payload);
    [apply normalize_language_normalized|reflexivity].
Qed.

Lemma patch_then_get_round_trip_witness :
  ∃ w1,
    Api.PATCH_room sample_store 11 "r1"
      (Api.mkRoomUpdateRequest (Some "c") None) sample_world
      = Ok (Api.mkResponse 200
              (Api.RoomBody (mkRoomState "r1" "c" "python" 11)), w1) ∧
    Api.GET_room sample_store "r1" w1
      = Ok (Api.mkResponse 200
              (Api.RoomBody (mkRoomState "r1" "c" "python" 11)), w1).
Proof.
  destruct (patch_then_get_round_trip sample_world sample_store
              {[ "r1" := 0 ]} 11 "r1"
              (Api.mkRoomUpdateRequest (Some "c") None) 0 sample_room)
    as (w1 & r' & Hpatch & Hget & Hid & Hc & Hlg & Hts);
    [reflexivity|reflexivity|reflexivity|].
  assert (Hr : r' = mkRoomState "r1" "c" "python" 11).
  { destruct r' as [i c lg ts]. cbn in *. by rewrite Hid, Hc, Hlg, Hts. }
  exists w1. rewrite <- Hr. split; [exact Hpatch|exact Hget].
Defined.

(** X13. [GET /rooms] answers 200 with every room of the store, by value,
    under its identifier, and nothing else; the rooms the store holds are
    the same after the call. *)
Theorem get_rooms_lists_every_room (w : world) (store : RoomsStore) :
  store_ok w store →
  ∃ w1 rooms,
    Api.GET_rooms store w = Ok (Api.mkResponse 200 (Api.RoomsBody rooms), w1) ∧
    (∀ k, rooms !! k = room_at w store k) ∧
    (∀ k, room_at w1 store k = room_at w store k) ∧
    store_ok w1 store.
Proof.
  intros Hok. pose proof Hok as (m & Hd & Hrooms).
  set (d := fresh (dom (dicts w))).
  set (w1 := mkWorld (objs w) (<[d := m]> (dicts w)) (sent w)).
  assert (Hne : d ≠ _rooms store).
  { intros Heq. pose proof (fresh_dict_unused w) as Hfresh.
    fold d in Hfresh. rewrite Heq, Hd in Hfresh. discriminate. }
  assert (Hd1 : dicts w1 !! _rooms store = Some m).
  { cbn [w1 dicts]. by rewrite lookup_insert_ne. }
  assert (Hlive : map_Forall (λ _ l, is_Some (objs w !! l)) m).
  { intros k l Hk. destruct (Hrooms k l Hk) as (r & Hl & _). by exists r. }
  exists w1, (omap (λ l : loc, objs w !! l) m). split.
  { unfold Api.GET_rooms, Api.list_rooms.
    unfold mbind at 1 2. unfold M_bind at 1 2.
    rewrite (list_rooms_run w store m Hd). fold d w1.
    unfold mret at 1. unfold M_ret at 1. unfold Api.respond_rooms.
    unfold mbind, M_bind, Api.dump_rooms. cbn [w1 dicts objs].
    rewrite lookup_insert_eq. by rewrite decide_True. }
  split.
  { intros k. rewrite lookup_omap. unfold room_at. rewrite Hd.
    by destruct (m !! k). }
  split.
  { intros k. unfold room_at. by rewrite Hd1, Hd. }
  exists m. split; [exact Hd1|exact Hrooms].
Qed.

Lemma get_rooms_lists_every_room_witness :
  ∃ w1 rooms,
    Api.GET_rooms sample_store sample_world
      = Ok (Api.mkResponse 200 (Api.RoomsBody rooms), w1) ∧
    rooms !! "r1" = Some sample_room.
Proof.
  destruct (get_rooms_lists_every_room sample_world sample_store)
    as (w1 & rooms & Hrun & Hview & _).
  - exists {[ "r1" := 0 ]}. split; [reflexivity|].
    intros k l [<- <-]%lookup_singleton_Some.
    exists sample_room. split; reflexivity.
  - exists w1, rooms. split; [exact Hrun|]. by rewrite Hview.
Defined.

(** * The Streamlit-side normaliser *)

Ltac elem_cases H :=
  rewrite ?elem_of_app, ?elem_of_cons, ?elem_of_nil in H;
  destruct_or?; try contradiction; simplify_eq.

Section CollabNormalize.

Lemma collab_first_match (x : string) :
  Collab.first_match x Collab.SUPPORTED_LANGUAGES =
    if String.eqb x "python" || String.eqb x "python" then Some "python"
    else if String.eqb x "javascript" || String.eqb x "javascript"
         then Some "javascript"
    else if String.eqb x "typescript" || String.eqb x "typescript"
         then Some "typescript"
    else if String.eqb x "sql" || String.eqb x "sql" then Some "sql"
    else if String.eqb x "java" || String.eqb x "java" then Some "java"
    else if String.eqb x "c" || String.eqb x "c" then Some "c"
    else if String.eqb x "c++" || String.eqb x "cpp" then Some "cpp"
    else None.
Proof. reflexivity. Qed.

Lemma collab_normalize_nonempty (a : ascii) (s : string) :
  Collab.normalize_language (String a s) =
    match Collab.first_match (lower (String a s)) Collab.SUPPORTED_LANGUAGES with
    | Some internal => internal
    | None => "python"
    end.
Proof. reflexivity. Qed.

Lemma lower_nonempty (a : ascii) (s : string) : lower (String a s) ≠ EmptyString.
Proof. discriminate. Qed.

End CollabNormalize.



(** X15. The Streamlit-side [normalize_language] always returns one of the
    seven languages, returns the internal identifier for each display name
    of the language menu and for each internal identifier itself, and
    applying it twice is the same as applying it once. *)
Theorem collab_normalize_language_contract :
  (∀ s, Collab.normalize_language s ∈ Language_values) ∧
  (∀ display internal,
     (display, internal) ∈ Collab.SUPPORTED_LANGUAGES →
     Collab.normalize_language display = internal ∧
     Collab.normalize_language internal = internal) ∧
  (∀ s, Collab.normalize_language (Collab.normalize_language s)
        = Collab.normalize_language s).
Proof.
  assert (Hin : ∀ s, Collab.normalize_language s ∈ Language_values).
  { intros [|a s]; [unfold Language_values; set_solver|].
    rewrite collab_normalize_nonempty, collab_first_match.
    unfold Language_values.
    repeat match goal with
    | |- context [String.eqb ?x ?k] =>
        destruct (String.eqb x k); cbn [orb]; [set_solver|]
    end; set_solver. }
  split; [exact Hin|]. split.
  - intros display internal Hd. unfold Collab.SUPPORTED_LANGUAGES in Hd.
    elem_cases Hd; split; reflexivity.
  - intros s. specialize (Hin s). unfold Language_values in Hin.
    elem_cases Hin;
      match goal with H : _ = _ |- _ => rewrite H end; reflexivity.
Qed.

Lemma collab_normalize_language_contract_witness :
  Collab.normalize_language "C++" = "cpp" ∧
  Collab.normalize_language "cpp" = "cpp".
Proof.
  destruct collab_normalize_language_contract as (_ & Hd & _).
  apply Hd. unfold Collab.SUPPORTED_LANGUAGES.
  do 6 apply list_elem_of_further. apply list_elem_of_here.
Defined.

(** * The Streamlit-side store *)

Section CollabStore.

Lemma assoc_set_same (k : string) (v : loc) (items : list (string * loc)) :
  Collab.assoc k (Collab.assoc_set k v items) = Some v.
Proof.
  induction items as [|[k' v'] items IH]; cbn.
  - by rewrite String.eqb_refl.
  - destruct (String.eqb_spec k k') as [->|Hne]; cbn.
    + by rewrite String.eqb_refl.
    + destruct (String.eqb_spec k k'); [contradiction|exact IH].
Qed.

Lemma assoc_set_other (k k0 : string) (v : loc) (items : list (string * loc)) :
  k0 ≠ k →
  Collab.assoc k0 (Collab.assoc_set k v items) = Collab.assoc k0 items.
Proof.
  intros Hne. induction items as [|[k' v'] items IH]; cbn.
  - destruct (String.eqb_spec k0 k); [contradiction|reflexivity].
  - destruct (String.eqb_spec k k') as [->|Hk]; cbn.
    + destruct (String.eqb_spec k0 k'); [contradiction|reflexivity].
    + destruct (String.eqb_spec k0 k'); [reflexivity|exact IH].
Qed.

Lemma assoc_set_absent (k : string) (v : loc) (items : list (string * loc)) :
  Collab.assoc k items = None →
  Collab.assoc_set k v items = items ++ [(k, v)].
Proof.
  induction items as [|[k' v'] items IH]; cbn; [reflexivity|].
  destruct (String.eqb_spec k k'); [discriminate|].
  intros Hk. by rewrite IH.
Qed.

Lemma assoc_None_keys (k : string) (items : list (string * loc)) :
  Collab.assoc k items = None ↔ k ∉ items.*1.
Proof.
  induction items as [|[k' v'] items IH]; cbn.
  - split; [intros _; apply not_elem_of_nil|reflexivity].
  - rewrite not_elem_of_cons.
    destruct (String.eqb_spec k k') as [->|Hne].
    + split; [discriminate|intros [[] _]; reflexivity].
    + rewrite IH. split; [by split|by intros [_ ?]].
Qed.

Lemma get_or_create_existing (s : Collab.state) (now : timestamp)
    (id : string) (l : loc) :
  Collab.assoc id (Collab._rooms s) = Some l →
  Collab.get_or_create now id s = Ok (l, s).
Proof.
  intros Hid. unfold Collab.get_or_create, mbind, Collab.C_bind,
    Collab.rooms_contains, Collab.rooms_getitem, mret, Collab.C_ret.
  rewrite Hid. rewrite bool_decide_eq_true_2 by (by eexists).
  cbn [negb]. by rewrite Hid.
Qed.

Lemma get_or_create_new (s : Collab.state) (now : timestamp) (id : string) :
  Collab.assoc id (Collab._rooms s) = None →
  Collab.get_or_create now id s =
    Ok (fresh (dom (Collab.objs s)),
        Collab.mkState
          (<[fresh (dom (Collab.objs s)) := Collab.default_room now]>
             (Collab.objs s))
          (Collab._rooms s ++ [(id, fresh (dom (Collab.objs s)))])).
Proof.
  intros Hid. unfold Collab.get_or_create, mbind, Collab.C_bind,
    Collab.rooms_contains, Collab.rooms_getitem, Collab.rooms_setitem,
    Collab.new_room, mret, Collab.C_ret.
  rewrite Hid. rewrite bool_decide_eq_false_2 by (by intros [? ?]).
  cbn [negb Collab.objs Collab._rooms].
  rewrite assoc_set_same. by rewrite assoc_set_absent.
Qed.

(** The room an update leaves: supplied fields as given, the others from
    [r]. *)
Lemma update_existing (s : Collab.state) (now0 now : timestamp) (id : string)
    (c lg : option string) (l : loc) (r : Collab.RoomState) :
  Collab.assoc id (Collab._rooms s) = Some l → Collab.objs s !! l = Some r →
  Collab.update now0 now id c lg s =
    Ok (l,
        Collab.mkState
          (<[l := Collab.mkRoomState
                    (match c with Some t => t | None => Collab.code r end)
                    (match lg with Some t => t | None => Collab.language r end)
                    now]>
             (<[fresh (dom (Collab.objs s)) := Collab.default_room now0]>
                (Collab.objs s)))
          (Collab._rooms s)).
Proof.
  intros Hid Hl.
  assert (Hne : fresh (dom (Collab.objs s)) ≠ l).
  { intros Heq. pose proof (is_fresh (dom (Collab.objs s))) as Hf.
    rewrite Heq in Hf. apply Hf, elem_of_dom. by eexists. }
  unfold Collab.update, mbind, Collab.C_bind, Collab.new_room,
    Collab.rooms_setdefault, Collab.set_code, Collab.set_language,
    Collab.set_last_updated, mbind, Collab.C_bind, Collab.read_room,
    Collab.write_room, mret, Collab.C_ret.
  cbn [Collab.objs Collab._rooms]. rewrite Hid.
  destruct c, lg;
    repeat (cbn [Collab.objs Collab._rooms Collab.code Collab.language
                 Collab.last_updated];
            rewrite ?lookup_insert_eq, ?(lookup_insert_ne _ _ _ _ Hne), ?Hl);
    rewrite ?insert_insert_eq; reflexivity.
Qed.

Lemma update_new (s : Collab.state) (now0 now : timestamp) (id : string)
    (c lg : option string) :
  Collab.assoc id (Collab._rooms s) = None →
  Collab.update now0 now id c lg s =
    Ok (fresh (dom (Collab.objs s)),
        Collab.mkState
          (<[fresh (dom (Collab.objs s)) :=
               Collab.mkRoomState
                 (match c with Some t => t | None => EmptyString end)
                 (match lg with Some t => t | None => "python" end)
                 now]> (Collab.objs s))
          (Collab._rooms s ++ [(id, fresh (dom (Collab.objs s)))])).
Proof.
  intros Hid.
  unfold Collab.update, mbind, Collab.C_bind, Collab.new_room,
    Collab.rooms_setdefault, Collab.set_code, Collab.set_language,
    Collab.set_last_updated, mbind, Collab.C_bind, Collab.read_room,
    Collab.write_room, mret, Collab.C_ret.
  cbn [Collab.objs Collab._rooms]. rewrite Hid.
  rewrite (assoc_set_absent _ _ _ Hid).
  destruct c, lg;
    repeat (cbn [Collab.objs Collab._rooms Collab.code Collab.language
                 Collab.last_updated Collab.default_room];
            rewrite ?lookup_insert_eq);
    rewrite ?insert_insert_eq; reflexivity.
Qed.

End CollabStore.

Section CollabInvariant.

Lemma collab_ok_write (s : Collab.state) (l : loc) (r : Collab.RoomState) :
  Collab.ok s →
  Collab.ok (Collab.mkState (<[l := r]> (Collab.objs s)) (Collab._rooms s)).
Proof.
  intros [Hnd Hlive]. split; [exact Hnd|]. cbn [Collab.objs Collab._rooms].
  intros k l0 Hk. destruct (decide (l0 = l)) as [->|Hne].
  - rewrite lookup_insert_eq. by eexists.
  - rewrite lookup_insert_ne by congruence. by eapply Hlive.
Qed.

Lemma collab_ok_new (s : Collab.state) (id : string) (r : Collab.RoomState) :
  Collab.ok s → Collab.assoc id (Collab._rooms s) = None →
  Collab.ok (Collab.mkState
               (<[fresh (dom (Collab.objs s)) := r]> (Collab.objs s))
               (Collab._rooms s ++ [(id, fresh (dom (Collab.objs s)))])).
Proof.
  intros [Hnd Hlive] Hid. split; cbn [Collab.objs Collab._rooms].
  - rewrite fmap_app. apply NoDup_app. split; [exact Hnd|].
    split; [|apply NoDup_singleton].
    intros k Hk [= ->]%list_elem_of_singleton.
    by apply (assoc_None_keys id (Collab._rooms s)) in Hk.
  - intros k l Hk. rewrite <- (assoc_set_absent _ _ _ Hid) in Hk.
    destruct (decide (k = id)) as [->|Hne].
    + rewrite assoc_set_same in Hk. injection Hk as <-.
      rewrite lookup_insert_eq. by eexists.
    + rewrite assoc_set_other in Hk by exact Hne.
      destruct (Hlive k l Hk) as [r0 Hl]. exists r0.
      rewrite lookup_insert_ne; [exact Hl|].
      intros Heq. pose proof (is_fresh (dom (Collab.objs s))) as Hf.
      rewrite Heq in Hf. apply Hf, elem_of_dom. by eexists.
Qed.

Lemma run_call_cases (s : Collab.state) (c : CollabCalls.call) :
  Collab.ok s →
  ∃ l s1,
    CollabCalls.run_call c s = Ok (l, s1) ∧ Collab.ok s1 ∧
    Collab.assoc (CollabCalls.call_key c) (Collab._rooms s1) = Some l ∧
    Collab._rooms s1 =
      (if bool_decide (CollabCalls.call_key c ∈ (Collab._rooms s).*1)
       then Collab._rooms s
       else Collab._rooms s ++ [(CollabCalls.call_key c, l)]).
Proof.
  intros Hok. pose proof Hok as [Hnd Hlive].
  destruct c as [now id|now0 now id c lg]; cbn [CollabCalls.run_call
    CollabCalls.call_key];
    destruct (Collab.assoc id (Collab._rooms s)) as [l|] eqn:Hid.
  - exists l, s. rewrite (get_or_create_existing s now id l Hid).
    split; [reflexivity|]. split; [exact Hok|]. split; [exact Hid|].
    rewrite bool_decide_eq_true_2; [reflexivity|].
    destruct (decide (id ∈ (Collab._rooms s).*1)) as [?|Hno]; [done|].
    apply assoc_None_keys in Hno. congruence.
  - eexists _, _. rewrite (get_or_create_new s now id Hid).
    split; [reflexivity|]. split; [by apply collab_ok_new|].
    cbn [Collab._rooms]. split.
    + rewrite <- (assoc_set_absent _ _ _ Hid). apply assoc_set_same.
    + rewrite bool_decide_eq_false_2; [reflexivity|].
      by apply assoc_None_keys.
  - destruct (Hlive id l Hid) as [r Hl].
    eexists _, _. rewrite (update_existing s now0 now id c lg l r Hid Hl).
    split; [reflexivity|]. split.
    { apply (collab_ok_write (Collab.mkState _ _)).
      by apply (collab_ok_write s). }
    cbn [Collab._rooms]. split; [exact Hid|].
    rewrite bool_decide_eq_true_2; [reflexivity|].
    destruct (decide (id ∈ (Collab._rooms s).*1)) as [?|Hno]; [done|].
    apply assoc_None_keys in Hno. congruence.
  - eexists _, _. rewrite (update_new s now0 now id c lg Hid).
    split; [reflexivity|]. split; [by apply collab_ok_new|].
    cbn [Collab._rooms]. split.
    + rewrite <- (assoc_set_absent _ _ _ Hid). apply assoc_set_same.
    + rewrite bool_decide_eq_false_2; [reflexivity|].
      by apply assoc_None_keys.
Qed.

End CollabInvariant.

(** X16. The Streamlit-side store updates a room in place: the reference
    [get_or_create] returned is the one [update] returns, the object behind
    it now has the supplied code and language (stored as given) and the
    clock reading, the fields not supplied are kept, and a later
    [get_or_create] returns the same reference again and changes nothing. *)
Theorem collab_update_in_place (s : Collab.state) (now1 now0 now now2 : timestamp)
    (id : string) (c lg : option string) :
  Collab.ok s →
  ∃ l s1 r s2,
    Collab.get_or_create now1 id s = Ok (l, s1) ∧
    Collab.objs s1 !! l = Some r ∧
    Collab.update now0 now id c lg s1 = Ok (l, s2) ∧
    Collab.objs s2 !! l =
      Some (Collab.mkRoomState
              (match c with Some t => t | None => Collab.code r end)
              (match lg with Some t => t | None => Collab.language r end)
              now) ∧
    Collab.get_or_create now2 id s2 = Ok (l, s2).
Proof.
  intros Hok.
  destruct (run_call_cases s (CollabCalls.GetOrCreate now1 id) Hok)
    as (l & s1 & Hget & Hok1 & Hid1 & _).
  cbn [CollabCalls.run_call CollabCalls.call_key] in *.
  destruct Hok1 as [Hnd1 Hlive1]. destruct (Hlive1 id l Hid1) as [r Hl].
  eexists l, s1, r, _. split; [exact Hget|]. split; [exact Hl|].
  split; [by apply update_existing|].
  split; [cbn [Collab.objs]; apply lookup_insert_eq|].
  by apply get_or_create_existing.
Qed.

Lemma collab_update_in_place_witness :
  ∃ l s1 s2,
    Collab.get_or_create 1 "r1" Collab.empty_state = Ok (l, s1) ∧
    Collab.update 2 3 "r1" (Some "x") None s1 = Ok (l, s2) ∧
    Collab.objs s2 !! l = Some (Collab.mkRoomState "x" "python" 3).
Proof.
  destruct (collab_update_in_place Collab.empty_state 1 2 3 4 "r1"
              (Some "x") None)
    as (l & s1 & r & s2 & Hget & Hr & Hupd & Hobj & _).
  - split; [constructor|]. intros k l [=].
  - exists l, s1, s2. split; [exact Hget|]. split; [exact Hupd|].
    rewrite Hobj. f_equal. f_equal.
    assert (Hs1 : Collab.get_or_create 1 "r1" Collab.empty_state
                  = Ok (0%nat, Collab.mkState {[ 0%nat := Collab.default_room 1 ]}
                                 [("r1", 0%nat)]))
      by (vm_compute; reflexivity).
    rewrite Hs1 in Hget. injection Hget as <- <-.
    cbn in Hr. rewrite lookup_singleton_eq in Hr. by injection Hr as <-.
Defined.

(** X17. Each call on the Streamlit-side store returns the reference filed
    under its room identifier, and [list_rooms] afterwards gives the
    identifiers in the order in which they were first used: the list as it
    was when the identifier was known, with the identifier added at the end
    when it was new; no identifier is listed twice. *)
Theorem collab_list_rooms_in_insertion_order (s : Collab.state)
    (c : CollabCalls.call) :
  Collab.ok s →
  ∃ l s1 ks,
    CollabCalls.run_call c s = Ok (l, s1) ∧
    Collab.list_rooms s1 = Ok (ks, s1) ∧
    ks = (if bool_decide (CollabCalls.call_key c ∈ (Collab._rooms s).*1)
          then (Collab._rooms s).*1
          else (Collab._rooms s).*1 ++ [CollabCalls.call_key c]) ∧
    CollabCalls.call_key c ∈ ks ∧ NoDup ks.
Proof.
  intros Hok.
  destruct (run_call_cases s c Hok) as (l & s1 & Hrun & Hok1 & Hid & Hrooms).
  exists l, s1, (Collab._rooms s1).*1. split; [exact Hrun|].
  split; [reflexivity|]. split.
  { rewrite Hrooms. case_bool_decide; [reflexivity|].
    by rewrite fmap_app. }
  split; [|by destruct Hok1].
  destruct (decide (CollabCalls.call_key c ∈ (Collab._rooms s1).*1))
    as [?|Hno]; [done|].
  apply assoc_None_keys in Hno. congruence.
Qed.

Lemma collab_list_rooms_in_insertion_order_witness :
  ∃ l s1,
    CollabCalls.run_call (CollabCalls.Update 2 3 "r2" None None)
      (Collab.mkState {[ 0%nat := Collab.default_room 1 ]} [("r1", 0%nat)])
      = Ok (l, s1) ∧
    Collab.list_rooms s1 = Ok (["r1"; "r2"], s1).
Proof.
  destruct (collab_list_rooms_in_insertion_order
              (Collab.mkState {[ 0%nat := Collab.default_room 1 ]}
                 [("r1", 0%nat)])
              (CollabCalls.Update 2 3 "r2" None None))
    as (l & s1 & ks & Hrun & Hlist & Hks & _).
  - split; [cbn; apply NoDup_singleton|].
    intros k l Hk. cbn in Hk. destruct (String.eqb k "r1"); [|discriminate].
    injection Hk as <-. cbn. rewrite lookup_singleton_eq. by eexists.
  - exists l, s1. split; [exact Hrun|]. rewrite Hlist, Hks. reflexivity.
Defined.

(** X18. No run of the Streamlit-side store raises: from the empty store,
    any sequence of [get_or_create] and [update] calls runs to its end (the
    subscript [self._rooms[room_id]] never fails) and leaves the store in
    order. *)
Theorem collab_store_never_raises (cs : list CollabCalls.call) :
  ∃ s', CollabCalls.run_calls cs Collab.empty_state = Ok (tt, s') ∧
        Collab.ok s'.
Proof.
  assert (Hgen : ∀ s, Collab.ok s →
            ∃ s', CollabCalls.run_calls cs s = Ok (tt, s') ∧ Collab.ok s').
  { induction cs as [|c cs IH]; intros s Hok.
    - exists s. by split.
    - destruct (run_call_cases s c Hok) as (l & s1 & Hrun & Hok1 & _).
      cbn [CollabCalls.run_calls]. unfold mbind, Collab.C_bind.
      rewrite Hrun. by apply IH. }
  apply Hgen. split; [constructor|]. intros k l [=].
Qed.

(** * The iframe *)

Section IframeFacts.

Lemma str_app_assoc (x y z : string) :
  ((x ++ y) ++ z)%string = (x ++ (y ++ z))%string.
Proof.
  induction x as [|a x IH]; [reflexivity|].
  change (String a ((x ++ y) ++ z)%string = String a (x ++ (y ++ z))%string).
  by rewrite IH.
Qed.

Lemma replace_char_app (c : ascii) (by_ x y : string) :
  Iframe.replace_char c by_ (x ++ y)%string =
    (Iframe.replace_char c by_ x ++ Iframe.replace_char c by_ y)%string.
Proof.
  induction x as [|a x IH]; [reflexivity|].
  change (String a x ++ y)%string with (String a (x ++ y)%string).
  cbn [Iframe.replace_char]. rewrite IH.
  destruct (Ascii.eqb a c); [|reflexivity]. by rewrite str_app_assoc.
Qed.

Lemma str_forall_app (P : ascii → bool) (x y : string) :
  str_forall P (x ++ y)%string = str_forall P x && str_forall P y.
Proof.
  induction x as [|a x IH]; [reflexivity|].
  change (String a x ++ y)%string with (String a (x ++ y)%string).
  cbn [str_forall]. rewrite IH. by rewrite andb_assoc.
Qed.

Lemma escape_cons (a : ascii) (s : string) :
  Iframe.escape (String a s) = (Iframe.escape_char a ++ Iframe.escape s)%string.
Proof.
  unfold Iframe.escape, Iframe.escape_char.
  cbn [Iframe.replace_char].
  destruct (Ascii.eqb a "&") eqn:E1.
  { rewrite !replace_char_app. reflexivity. }
  cbn [Iframe.replace_char]. destruct (Ascii.eqb a "<") eqn:E2.
  { rewrite !replace_char_app. reflexivity. }
  cbn [Iframe.replace_char]. destruct (Ascii.eqb a ">") eqn:E3.
  { rewrite !replace_char_app. reflexivity. }
  cbn [Iframe.replace_char]. destruct (Ascii.eqb a Iframe.dquote) eqn:E4.
  { rewrite !replace_char_app. reflexivity. }
  cbn [Iframe.replace_char]. destruct (Ascii.eqb a "'") eqn:E5; reflexivity.
Qed.

Lemma escape_char_no_markup (a : ascii) :
  str_forall (λ b, negb (Iframe.is_markup b)) (Iframe.escape_char a) = true.
Proof.
  unfold Iframe.escape_char.
  destruct (Ascii.eqb a "&") eqn:E1; [reflexivity|].
  destruct (Ascii.eqb a "<") eqn:E2; [reflexivity|].
  destruct (Ascii.eqb a ">") eqn:E3; [reflexivity|].
  destruct (Ascii.eqb a Iframe.dquote) eqn:E4; [reflexivity|].
  destruct (Ascii.eqb a "'") eqn:E5; [reflexivity|].
  cbn [str_forall]. unfold Iframe.is_markup. by rewrite E2, E3, E4, E5.
Qed.

Lemma escape_no_markup (s : string) :
  str_forall (λ b, negb (Iframe.is_markup b)) (Iframe.escape s) = true.
Proof.
  induction s as [|a s IH]; [reflexivity|].
  by rewrite escape_cons, str_forall_app, escape_char_no_markup, IH.
Qed.

Lemma escape_app (x y : string) :
  Iframe.escape (x ++ y)%string = (Iframe.escape x ++ Iframe.escape y)%string.
Proof.
  induction x as [|a x IH]; [reflexivity|].
  change (String a x ++ y)%string with (String a (x ++ y)%string).
  by rewrite !escape_cons, IH, str_app_assoc.
Qed.

(** The document is the template with the JSON text put in at one place. *)
Lemma inner_html_around :
  ∃ pre post, ∀ code_json,
    Iframe.inner_html code_json = (pre ++ code_json ++ post)%string.
Proof.
  exists (substring 0 151 (Iframe.inner_html EmptyString)),
    (substring 151 652 (Iframe.inner_html EmptyString)).
  intros code_json.
  set (pre := substring 0 151 (Iframe.inner_html EmptyString)).
  set (post := substring 151 652 (Iframe.inner_html EmptyString)).
  vm_compute in pre. vm_compute in post. subst pre post.
  unfold Iframe.inner_html. cbn [Iframe.lines].
  rewrite !str_app_assoc. reflexivity.
Qed.

End IframeFacts.

(** X19. Whatever the user code and whatever [json.dumps] makes of it, the
    result of [build_js_execution_iframe] is the fixed opening of the
    iframe tag (with [sandbox="allow-scripts"]) up to the opening quote of
    [srcdoc], then the escaped document, then the closing quote and the
    fixed end of the tag; and the escaped document contains no double
    quote, no single quote, no [<] and no [>].  The user code can therefore
    not end the [srcdoc] attribute or the tag. *)
Theorem iframe_srcdoc_cannot_be_broken_out_of (json_dumps : string → string)
    (code : string) :
  ∃ escaped,
    Iframe.build_js_execution_iframe json_dumps code
      = (Iframe.iframe_open ++ escaped ++ Iframe.iframe_close)%string ∧
    escaped = Iframe.escape (Iframe.inner_html (json_dumps code)) ∧
    str_forall (λ a, negb (Iframe.is_markup a)) escaped = true.
Proof.
  eexists. split; [reflexivity|]. split; [reflexivity|].
  apply escape_no_markup.
Qed.

(** X20. [html.escape], written as five successive replacements, is a
    single pass: each character is replaced on its own, the text the
    earlier replacements insert is never replaced again, and so the escape
    of a concatenation is the concatenation of the escapes.  In
    particular the escaped user code appears as such inside the iframe
    whenever [json.dumps] leaves the code in one piece. *)
Theorem html_escape_is_one_pass (json_dumps : string → string) :
  (∀ a s, Iframe.escape (String a s)
          = (Iframe.escape_char a ++ Iframe.escape s)%string) ∧
  (∀ x y, Iframe.escape (x ++ y)%string
          = (Iframe.escape x ++ Iframe.escape y)%string) ∧
  (∀ code before after,
     json_dumps code = (before ++ code ++ after)%string →
     ∃ head tail,
       Iframe.build_js_execution_iframe json_dumps code
         = (head ++ Iframe.escape code ++ tail)%string).
Proof.
  split; [exact escape_cons|]. split; [exact escape_app|].
  intros code before after Hjson.
  destruct inner_html_around as (pre & post & Hinner).
  exists (Iframe.iframe_open ++ Iframe.escape (pre ++ before))%string,
    (Iframe.escape (after ++ post) ++ Iframe.iframe_close)%string.
  unfold Iframe.build_js_execution_iframe.
  by rewrite Hjson, Hinner, !escape_app, !str_app_assoc.
Qed.

(** * The Streamlit page *)

(** X21. [sync_room_into_session] never raises: whatever the backend calls
    return or raise and whatever the session holds, it returns, the code it
    returns is the content of the editor in the session it leaves, an error
    is shown only when a backend call failed, and in a session that had an
    editor content the version never goes down. *)
Theorem sync_returns_the_editor (room_id : string)
    (get_result : Frontend.api (option Frontend.room_json))
    (create_result : Frontend.api Frontend.room_json)
    (now1 now2 : timestamp) (st : Frontend.session) :
  ∃ room current_code st',
    Frontend.sync_room_into_session room_id get_result create_result
      now1 now2 st = Ok (room, current_code, st') ∧
    Frontend.code_editor st' = Some current_code ∧
    (∀ room0, get_result = Frontend.Returns (Some room0) →
              Frontend.shown st' = Frontend.shown st) ∧
    (∀ e v, Frontend.code_editor st = Some e →
            Frontend.code_version st = Some v →
            ∃ v', Frontend.code_version st' = Some v' ∧ (v ≤ v')%Z).
Proof.
  destruct st as [ed ver origin shown].
  unfold Frontend.sync_room_into_session.
  destruct get_result as [[room0|]|exc], create_result as [room1|exc1],
    ed as [e|], ver as [v|];
    cbn [Frontend.code_editor Frontend.code_version Frontend.shown
         Frontend.last_change_origin Frontend.st_error default
         Frontend.j_last_updated Frontend.j_code];
    repeat match goal with
    | |- context [(?a <? ?b)%Z] => destruct (Z.ltb_spec a b)
    | |- context [bool_decide ?P] => destruct (bool_decide P)
    end;
    cbn [Frontend.code_editor Frontend.code_version Frontend.shown
         Frontend.last_change_origin];
    eexists _, _, _; (split; [reflexivity|]); (split; [reflexivity|]);
    (split; [intros ? [=]; try reflexivity|]);
    intros ? ? [=] [=]; subst; eexists; (split; [reflexivity|]);
    unfold id in *; cbn [Frontend.j_last_updated] in *; lia.
Qed.

(** X22. With an editor content [e] at version [v] in the session and a
    room fetched from the backend: a room that is not newer changes
    nothing; a newer room replaces the editor content and the version
    unless the last change was local; after a local change the editor
    content and the version are kept once, but the origin is reset, so the
    next synchronisation with that same room overwrites the local
    content. *)
Theorem sync_policy (room_id : string) (room : Frontend.room_json)
    (create_result : Frontend.api Frontend.room_json)
    (now1 now2 : timestamp) (st : Frontend.session) (e : string)
    (v : timestamp) :
  Frontend.code_editor st = Some e → Frontend.code_version st = Some v →
  let sync := Frontend.sync_room_into_session room_id
                (Frontend.Returns (Some room)) create_result now1 now2 in
  let taken := Frontend.mkSession (Some (Frontend.j_code room))
                 (Some (Frontend.j_last_updated room)) (Some "remote")
                 (Frontend.shown st) in
  let kept := Frontend.mkSession (Some e) (Some v) (Some "remote")
                (Frontend.shown st) in
  ((Frontend.j_last_updated room ≤ v)%Z → sync st = Ok (room, e, st)) ∧
  ((v < Frontend.j_last_updated room)%Z →
   Frontend.last_change_origin st ≠ Some "local" →
   sync st = Ok (room, Frontend.j_code room, taken)) ∧
  ((v < Frontend.j_last_updated room)%Z →
   Frontend.last_change_origin st = Some "local" →
   sync st = Ok (room, e, kept) ∧
   sync kept = Ok (room, Frontend.j_code room, taken)).
Proof.
  destruct st as [ed ver origin shown]. cbn. intros -> ->.
  unfold Frontend.sync_room_into_session.
  cbn [Frontend.code_editor Frontend.code_version Frontend.shown
       Frontend.last_change_origin default]. unfold id.
  split; [|split].
  - intros Hle. destruct (Z.ltb_spec v (Frontend.j_last_updated room));
      [lia|reflexivity].
  - intros Hlt Hor. destruct (Z.ltb_spec v (Frontend.j_last_updated room));
      [|lia].
    by rewrite bool_decide_eq_true_2.
  - intros Hlt ->. destruct (Z.ltb_spec v (Frontend.j_last_updated room));
      [|lia].
    rewrite bool_decide_eq_false_2 by (intros Hne; by apply Hne).
    split; [reflexivity|].
    by rewrite bool_decide_eq_true_2.
Qed.

Lemma sync_policy_witness :
  Frontend.sync_room_into_session "r1"
    (Frontend.Returns (Some (Frontend.mkRoomJson "r1" "theirs" "python" 20)))
    (Frontend.RequestException "unused") 0 0
    (Frontend.mkSession (Some "mine") (Some 10%Z) (Some "local") [])
  = Ok (Frontend.mkRoomJson "r1" "theirs" "python" 20, "mine",
        Frontend.mkSession (Some "mine") (Some 10%Z) (Some "remote") []) ∧
  Frontend.sync_room_into_session "r1"
    (Frontend.Returns (Some (Frontend.mkRoomJson "r1" "theirs" "python" 20)))
    (Frontend.RequestException "unused") 0 0
    (Frontend.mkSession (Some "mine") (Some 10%Z) (Some "remote") [])
  = Ok (Frontend.mkRoomJson "r1" "theirs" "python" 20, "theirs",
        Frontend.mkSession (Some "theirs") (Some 20%Z) (Some "remote") []).
Proof.
  destruct (sync_policy "r1" (Frontend.mkRoomJson "r1" "theirs" "python" 20)
              (Frontend.RequestException "unused") 0 0
              (Frontend.mkSession (Some "mine") (Some 10%Z) (Some "local") [])
              "mine" 10 eq_refl eq_refl) as (_ & _ & Hlocal).
  apply Hlocal; [cbn; lia|reflexivity].
Defined.

(** X23. When the backend cannot be reached, the content of the editor is
    kept: with an editor content in the session, a failed fetch leaves that
    content in place and returns it, together with a stand-in room that
    carries the requested identifier, that content and ["python"], and one
    error is shown. *)
Theorem sync_keeps_the_editor_when_fetch_fails (room_id exc e : string)
    (create_result : Frontend.api Frontend.room_json)
    (now1 now2 : timestamp) (st : Frontend.session) :
  Frontend.code_editor st = Some e →
  ∃ room st',
    Frontend.sync_room_into_session room_id (Frontend.RequestException exc)
      create_result now1 now2 st = Ok (room, e, st') ∧
    Frontend.code_editor st' = Some e ∧
    Frontend.j_room_id room = room_id ∧ Frontend.j_code room = e ∧
    Frontend.j_language room = "python" ∧
    Frontend.shown st' =
      Frontend.shown st ++ [("Failed to fetch room from backend: " ++ exc)%string].
Proof.
  destruct st as [ed ver origin shown]. cbn. intros ->.
  unfold Frontend.sync_room_into_session.
  destruct ver as [v|];
    cbn [Frontend.code_editor Frontend.code_version Frontend.shown
         Frontend.last_change_origin Frontend.st_error default
         Frontend.j_last_updated Frontend.j_code];
    repeat match goal with
    | |- context [(?a <? ?b)%Z] => destruct (Z.ltb_spec a b)
    | |- context [bool_decide ?P] => destruct (bool_decide P)
    end;
    cbn [Frontend.code_editor Frontend.code_version Frontend.shown
         Frontend.last_change_origin];
    eexists _, _; repeat split.
Qed.

Lemma sync_keeps_the_editor_when_fetch_fails_witness :
  ∃ room st',
    Frontend.sync_room_into_session "r1" (Frontend.RequestException "down")
      (Frontend.RequestException "down") 5 6
      (Frontend.mkSession (Some "mine") None (Some "local") [])
      = Ok (room, "mine", st') ∧
    Frontend.code_editor st' = Some "mine".
Proof.
  destruct (sync_keeps_the_editor_when_fetch_fails "r1" "down" "mine"
              (Frontend.RequestException "down") 5 6
              (Frontend.mkSession (Some "mine") None (Some "local") [])
              eq_refl) as (room & st' & Hrun & Hed & _).
  exists room, st'. split; [exact Hrun|exact Hed].
Defined.

(** X24. The entry the language menu preselects for a room maps back to
    the room's language: for each of the seven languages, normalising the
    display name found for it gives that language again, so a page run in
    which the user leaves the menu alone sees no language change to send.
    For any other language value the menu falls back to ["Python"]. *)
Theorem menu_selection_maps_back (language : string) :
  (language ∈ Language_values →
   Collab.normalize_language (Frontend.current_display language) = language) ∧
  (language ∉ Language_values →
   Frontend.current_display language = "Python").
Proof.
  split.
  - unfold Language_values. intros Hin. elem_cases Hin; reflexivity.
  - unfold Language_values. intros Hno.
    unfold Frontend.current_display, Collab.SUPPORTED_LANGUAGES.
    cbn [Frontend.first_display].
    repeat match goal with
    | |- context [String.eqb ?k language] =>
        destruct (String.eqb_spec k language) as [<-|?];
        [exfalso; apply Hno; set_solver|]
    end.
    reflexivity.
Qed.

Lemma menu_selection_maps_back_witness :
  Collab.normalize_language (Frontend.current_display "cpp") = "cpp".
Proof.
  apply (menu_selection_maps_back "cpp"). unfold Language_values.
  do 6 apply list_elem_of_further. apply list_elem_of_here.
Defined.

(** * The client *)

Section Client.

Lemma str_app_nonempty (t : string) (a : ascii) :
  (t ++ String a EmptyString)%string ≠ EmptyString.
Proof. destruct t; discriminate. Qed.

Lemma rstrip_slash_app (s : string) :
  ApiClient.rstrip_slash (s ++ "/")%string = ApiClient.rstrip_slash s.
Proof.
  induction s as [|a s IH]; [reflexivity|].
  change (String a s ++ "/")%string with (String a (s ++ "/")%string).
  cbn [ApiClient.rstrip_slash]. by rewrite IH.
Qed.

Lemma rstrip_slash_end (s t : string) :
  ApiClient.rstrip_slash s ≠ (t ++ "/")%string.
Proof.
  revert t. induction s as [|a s IH]; intros t.
  { cbn. intros H. symmetry in H. by apply str_app_nonempty in H. }
  cbn [ApiClient.rstrip_slash].
  destruct (ApiClient.rstrip_slash s) as [|b u] eqn:Hs.
  - destruct (Ascii.eqb_spec a "/") as [->|Hne].
    + intros H. symmetry in H. by apply str_app_nonempty in H.
    + destruct t as [|c t]; cbn; [intros [= Ha]; congruence|].
      intros [= _ H]. symmetry in H. by apply str_app_nonempty in H.
  - destruct t as [|c t]; cbn; [discriminate|].
    intros [= _ H]. by apply (IH t).
Qed.

End Client.

(** X25. The base URL of the client never ends with a slash, and trailing
    slashes in [COLLAB_APP_BACKEND_URL] make no difference.  For a path
    that does not start with a slash, [_url] puts exactly one slash between
    the base and the path, and gives the same URL as for the path with the
    slash written out. *)
Theorem client_urls_are_joined_by_one_slash :
  (∀ env t, ApiClient.BACKEND_URL env ≠ (t ++ "/")%string) ∧
  (∀ e, ApiClient.BACKEND_URL (Some (e ++ "/")%string)
        = ApiClient.BACKEND_URL (Some e)) ∧
  (∀ env path,
     ApiClient.starts_with_slash path = false →
     ApiClient._url env path
       = (ApiClient.BACKEND_URL env ++ "/" ++ path)%string ∧
     ApiClient._url env ("/" ++ path)%string = ApiClient._url env path).
Proof.
  split; [intros env t; apply rstrip_slash_end|].
  split; [intros e; apply rstrip_slash_app|].
  intros env path Hp. unfold ApiClient._url. rewrite Hp. by split.
Qed.

Lemma client_urls_are_joined_by_one_slash_witness :
  ApiClient._url (Some "http://h:8000//") "rooms"
    = "http://h:8000/rooms" ∧
  ApiClient._url (Some "http://h:8000//") "/rooms"
    = ApiClient._url (Some "http://h:8000//") "rooms".
Proof.
  destruct client_urls_are_joined_by_one_slash as (_ & _ & Hurl).
  destruct (Hurl (Some "http://h:8000//") "rooms" eq_refl) as [H1 H2].
  split; [rewrite H1; reflexivity|exact H2].
Defined.

(** X26. What the client's [update_room] and [create_room] put in their
    JSON object is what the backend's request models read back: an
    argument that is [None] is left out and read as [None].  So an update
    sent with the code alone reaches the [PATCH] route as a request for the
    code alone, and the route answers with the language of the room
    unchanged. *)
Theorem client_payload_round_trip :
  (∀ c lg, ApiClient.read_update (ApiClient.update_payload c lg)
           = Api.mkRoomUpdateRequest c lg) ∧
  (∀ c lg, ApiClient.read_create (ApiClient.create_payload c lg)
           = Api.mkRoomCreateRequest c (Some lg)) ∧
  (∀ w store m now id c l r,
     dicts w !! _rooms store = Some m → m !! id = Some l →
     objs w !! l = Some r →
     ∃ w1,
       Api.PATCH_room store now id
         (ApiClient.read_update (ApiClient.update_payload (Some c) None)) w
       = Ok (Api.mkResponse 200
               (Api.RoomBody (mkRoomState (room_id r) c (language r) now)),
             w1)).
Proof.
  assert (Hupd : ∀ c lg, ApiClient.read_update (ApiClient.update_payload c lg)
                         = Api.mkRoomUpdateRequest c lg).
  { intros [c|] [lg|]; unfold ApiClient.read_update, ApiClient.update_payload;
      f_equal; by simplify_map_eq. }
  split; [exact Hupd|]. split.
  { intros c lg. unfold ApiClient.read_create, ApiClient.create_payload.
    f_equal; by simplify_map_eq. }
  intros w store m now id c l r Hd Hid Hl. rewrite Hupd.
  eexists. unfold Api.PATCH_room, Api.update_room.
  unfold mbind at 1 2. unfold M_bind at 1 2.
  cbn [Api.update_code Api.update_language].
  rewrite (update_room_existing_run w store m Hd now id _ _ l r Hid Hl).
  unfold mret, M_ret. apply respond_room_run, filed_new_object.
Qed.

Lemma client_payload_round_trip_witness :
  ∃ w1,
    Api.PATCH_room sample_store 11 "r1"
      (ApiClient.read_update (ApiClient.update_payload (Some "b") None))
      sample_world
    = Ok (Api.mkResponse 200
            (Api.RoomBody (mkRoomState "r1" "b" "python" 11)), w1).
Proof.
  destruct client_payload_round_trip as (_ & _ & Hpatch).
  apply (Hpatch sample_world sample_store {[ "r1" := 0 ]} 11%Z "r1" "b"
           0%nat sample_room); reflexivity.
Defined.

(** X27. The client on the backend's answers.  For a store in order,
    [api_client.get_room] applied to the answer of [GET /rooms/{id}]
    returns [None] exactly when the store has no room under the identifier
    and the room otherwise, and never raises.  [api_client.update_room]
    applied to the answer of [PATCH /rooms/{id}] raises when the store has
    no such room, the store being left as it was, and returns the room the
    store now holds otherwise. *)
Theorem client_reads_backend_answers (http_error_text : Api.response → string)
    (w : world) (store : RoomsStore) (id : string) :
  store_ok w store →
  (∃ resp,
     Api.GET_room store id w = Ok (resp, w) ∧
     Page.get_room http_error_text resp
       = Frontend.Returns (Api.RoomBody <$> room_at w store id)) ∧
  (∀ now payload,
     ∃ resp w1,
       Api.PATCH_room store now id payload w = Ok (resp, w1) ∧
       match room_at w store id with
       | None =>
           w1 = w ∧
           Page.update_room http_error_text resp
             = Frontend.RequestException (http_error_text resp)
       | Some _ =>
           ∃ r', room_at w1 store id = Some r' ∧
                 Page.update_room http_error_text resp
                   = Frontend.Returns (Api.RoomBody r')
       end).
Proof.
  intros (m & Hd & Hrooms).
  assert (Hat : room_at w store id =
                match m !! id with Some l => objs w !! l | None => None end).
  { unfold room_at. by rewrite Hd. }
  destruct (m !! id) as [l|] eqn:Hid.
  - destruct (Hrooms id l Hid) as (r & Hl & _). rewrite Hat, Hl. split.
    + eexists. split; [by eapply GET_room_found|]. reflexivity.
    + intros now payload. eexists _, _. split.
      { unfold Api.PATCH_room, Api.update_room.
        unfold mbind at 1 2. unfold M_bind at 1 2.
        rewrite (update_room_existing_run w store m Hd now id _ _ l r Hid Hl).
        unfold mret, M_ret. apply respond_room_run, filed_new_object. }
      eexists. split; [apply filed_room_at|reflexivity].
  - rewrite Hat. split.
    + eexists. split.
      { unfold Api.GET_room, Api.get_room.
        unfold mbind at 1 2. unfold M_bind at 1 2.
        by rewrite (get_room_run w store m id Hd), Hid. }
      reflexivity.
    + intros now payload. eexists _, _. split.
      { unfold Api.PATCH_room, Api.update_room.
        unfold mbind at 1 2. unfold M_bind at 1 2.
        by rewrite (update_room_missing_run w store m Hd now id _ _ Hid). }
      split; reflexivity.
Qed.

Lemma client_reads_backend_answers_witness :
  ∃ resp,
    Api.GET_room sample_store "r1" sample_world = Ok (resp, sample_world) ∧
    Page.get_room (λ _, "HTTPError") resp
      = Frontend.Returns (Some (Api.RoomBody sample_room)).
Proof.
  destruct (client_reads_backend_answers (λ _, "HTTPError") sample_world
              sample_store "r1") as [(resp & Hget & Hclient) _].
  - exists {[ "r1" := 0 ]}. split; [reflexivity|].
    intros k l [<- <-]%lookup_singleton_Some.
    exists sample_room. split; reflexivity.
  - exists resp. split; [exact Hget|exact Hclient].
Defined.

(** X28. [get_or_create_room_id_via_backend] keeps the URL and the page on
    the same room: on return, the room identifier read from the query
    parameters is the one returned, unless the creation of a room failed,
    in which case the page runs on ["fallback-room"] and the parameters are
    left as they were.  An error is shown only when a backend call
    failed. *)
Theorem page_and_url_agree_on_the_room (params : Page.raw_param)
    (get_result : Frontend.api (option Frontend.room_json))
    (create_result : Frontend.api Frontend.room_json) :
  ∃ id params' shown,
    Page.get_or_create_room_id_via_backend params get_result create_result
      = (id, params', shown) ∧
    (Page._extract_room_id params' = Some id ∧
       (shown = [] ∨ ∃ exc, get_result = Frontend.RequestException exc) ∨
     id = "fallback-room" ∧ params' = params ∧
       ∃ exc, create_result = Frontend.RequestException exc) ∧
    (∀ room, create_result = Frontend.Returns room →
             (∀ exc, get_result ≠ Frontend.RequestException exc) →
             shown = []).
Proof.
  unfold Page.get_or_create_room_id_via_backend.
  destruct (Page._extract_room_id params) as [[|a s]|] eqn:Hp;
    cbn [Page.truthy default];
    destruct get_result as [[room|]|exc], create_result as [new_room|exc1];
    eexists _, _, _; (split; [reflexivity|]);
    (split; [|intros ? [=]; intros Hg; by (reflexivity || edestruct Hg)]);
    solve [ left; split; [by (reflexivity || exact Hp)|by eauto]
          | right; split; [reflexivity|]; split; [reflexivity|]; by eauto ].
Qed.

Lemma page_and_url_agree_on_the_room_witness :
  Page.get_or_create_room_id_via_backend (Page.RawList ["zzz"; "other"])
    (Frontend.Returns None)
    (Frontend.Returns (Frontend.mkRoomJson "1234abcd" EmptyString "python" 5))
  = ("1234abcd", Page.RawStr "1234abcd", []).
Proof.
  destruct (page_and_url_agree_on_the_room (Page.RawList ["zzz"; "other"])
              (Frontend.Returns None)
              (Frontend.Returns
                 (Frontend.mkRoomJson "1234abcd" EmptyString "python" 5)))
    as (id & params' & shown & Hrun & _ & Hshown).
  rewrite Hrun. rewrite (Hshown _ eq_refl) by discriminate.
  cbn in Hrun. by injection Hrun as <- <- _.
Defined.

Lemma sync_returns_the_editor_witness :
  ∃ room current_code st',
    Frontend.sync_room_into_session "r1"
      (Frontend.Returns (Some (Frontend.mkRoomJson "r1" "theirs" "python" 20)))
      (Frontend.RequestException "unused") 0 0
      (Frontend.mkSession None None None [])
      = Ok (room, current_code, st') ∧
    Frontend.code_editor st' = Some current_code ∧
    Frontend.shown st' = [].
Proof.
  destruct (sync_returns_the_editor "r1"
              (Frontend.Returns
                 (Some (Frontend.mkRoomJson "r1" "theirs" "python" 20)))
              (Frontend.RequestException "unused") 0 0
              (Frontend.mkSession None None None []))
    as (room & code & st' & Hrun & Hed & Hshown & _).
  exists room, code, st'. split; [exact Hrun|]. split; [exact Hed|].
  exact (Hshown _ eq_refl).
Defined.

Lemma html_escape_is_one_pass_witness :
  ∃ head tail,
    Iframe.build_js_execution_iframe
      (λ c, Iframe.dq ++ c ++ Iframe.dq)%string "console.log('hello <world>');"
      = (head ++ "console.log(&#x27;hello &lt;world&gt;&#x27;);" ++ tail)%string.
Proof.
  destruct (html_escape_is_one_pass
              (λ c, Iframe.dq ++ c ++ Iframe.dq)%string) as (_ & _ & Hcode).
  exact (Hcode "console.log('hello <world>');" Iframe.dq Iframe.dq eq_refl).
Defined.
